(** * GreenGridSim: battery, solar panel, inverter and dispatch strategy

    A shallow embedding of [src/components.py] and [src/strategy.py], and
    of [environment.py] and [engine.py] of the simulator.

    Conventions of the embedding:
    - A Python [float] is read as a real number ([R]) in the definitions
      the theorems are about: rounding is not part of them.  Each property
      proved of the code (every [Theorem] below) therefore relates the
      values of the program by the operations the code performs, in the
      order it performs them, or by an inequality that rounding to nearest
      preserves.  An identity that holds of the reals only (a sum that
      telescopes, a clipped value that lands on its bound, [sin pi = 0])
      serves in the lemmas on the way and is not such a property.
    - [Float64] has the battery and the dispatch strategy once more over
      binary64, the arithmetic the interpreter performs, to run them on
      concrete inputs with their rounding.
    - A method that mutates [self] takes the object and returns the new one
      next to its return value.
    - A Python exception is the [Raise] case of [result].
    - The ambient [random] module is a tape of draws threaded through the
      calls that consume it.
    - The SimPy clock of the engine is a field of the engine; a run is
      bounded by a number of passes through its loop. *)

From Stdlib Require Import Reals Lra Lia ZArith List String Bool.
From Stdlib Require PrimFloat.
Import ListNotations.
Local Open Scope R_scope.

(** ** Python runtime *)

Module Py.

Inductive exn : Set :=
| ZeroDivisionError
| ValueError.

Inductive result (A : Type) : Type :=
| Ok (a : A)
| Raise (e : exn).

Arguments Ok {A} a.
Arguments Raise {A} e.

Definition bind {A B : Type} (c : result A) (k : A -> result B) : result B :=
  match c with
  | Ok a => k a
  | Raise e => Raise e
  end.

(** [dict.get(key, default)] on a key that may be absent. *)
Definition get {A : Type} (entry : option A) (default : A) : A :=
  match entry with
  | Some v => v
  | None => default
  end.

(** Comparison operators on floats. *)
Definition ltb (x y : R) : bool := if Rlt_dec x y then true else false.
Definition leb (x y : R) : bool := if Rle_dec x y then true else false.
Definition gtb (x y : R) : bool := if Rgt_dec x y then true else false.
Definition geb (x y : R) : bool := if Rge_dec x y then true else false.

(** [a / b]: true division, which raises on a zero divisor. *)
Definition div (a b : R) : result R :=
  if Req_dec_T b 0 then Raise ZeroDivisionError else Ok (a / b).

(** [math.sqrt(x)]: raises a domain error on a negative argument. *)
Definition sqrt (x : R) : result R :=
  if ltb x 0 then Raise ValueError else Ok (R_sqrt.sqrt x).

(** [min(a, b)] and [max(a, b)] on two floats. *)
Definition min (a b : R) : R := if ltb b a then b else a.
Definition max (a b : R) : R := if gtb b a then b else a.

(** The [random] module.  Its hidden generator state is a tape of draws
    and a cursor; each call reads the tape at the cursor and advances it.
    [random.random()] yields a float of [[0, 1)] (see [fair]);
    [random.randint(a, b)] yields an integer [N] with [a <= N <= b] and
    raises when the range is empty. *)
Record rng : Type := mk_rng {
  tape_float : nat -> R;
  tape_int : nat -> nat;
  cursor : nat
}.

Definition advance (g : rng) : rng :=
  mk_rng (tape_float g) (tape_int g) (S (cursor g)).

Definition random (g : rng) : R * rng :=
  (tape_float g (cursor g), advance g).

Definition randint (a b : Z) (g : rng) : result (Z * rng) :=
  if (a <=? b)%Z
  then Ok ((a + Z.of_nat (tape_int g (cursor g)) mod (b - a + 1))%Z, advance g)
  else Raise ValueError.

(** Every float on the tape is a legal value of [random.random()]. *)
Definition fair (g : rng) : Prop :=
  forall n : nat, 0 <= tape_float g n < 1.

End Py.

Import Py.

Declare Scope py_scope.
Delimit Scope py_scope with py.
Notation "x <- c ;; k" := (bind c (fun x => k))
  (at level 61, c at next level, right associativity) : py_scope.
Notation "' p <- c ;; k" := (bind c (fun p => k))
  (at level 61, p pattern, c at next level, right associativity) : py_scope.
Notation "x <? y" := (ltb x y) : py_scope.
Notation "x <=? y" := (leb x y) : py_scope.
Notation "x >? y" := (gtb x y) : py_scope.
Notation "x >=? y" := (geb x y) : py_scope.
Local Open Scope py_scope.

(** ** [class Battery] *)

Module Battery.

(** The ['battery'] section of the configuration: each key may be absent. *)
Record config : Type := mk_config {
  capacity : option R;
  efficiency : option R;
  discharge_depth : option R;
  initial_state : option R
}.

Record t : Type := mk {
  capacity_kwh : R;
  efficiency_rt : R;
  min_soc_limit_pct : R;
  current_energy_kwh : R;
  efficiency_ow : R
}.

(** [self.current_energy_kwh = e] *)
Definition set_current_energy_kwh (self : t) (e : R) : t :=
  mk (capacity_kwh self) (efficiency_rt self) (min_soc_limit_pct self)
     e (efficiency_ow self).

(** [Battery.__init__] *)
Definition init (config_data : config) : result t :=
  let capacity_kwh := get (capacity config_data) 13.5 in
  let efficiency_rt := get (efficiency config_data) 0.90 in
  let min_soc_limit_pct := get (discharge_depth config_data) 0.05 in
  let initial_state_pct := get (initial_state config_data) 0.0 in
  let current_energy_kwh := capacity_kwh * initial_state_pct in
  efficiency_ow <- Py.sqrt efficiency_rt ;;
  Ok (mk capacity_kwh efficiency_rt min_soc_limit_pct
         current_energy_kwh efficiency_ow).

(** [Battery.charge]: the value returned and the battery afterwards.  Over
    the reals the clipped branch leaves [current + (capacity - current)],
    the capacity itself; the interpreter rounds that sum (see
    [Float64.Battery.charge]). *)
Definition charge (self : t) (energy_input_kwh : R) : result (R * t) :=
  let energy_to_store := energy_input_kwh * efficiency_ow self in
  let space_available := capacity_kwh self - current_energy_kwh self in
  '(energy_to_store, real_input) <-
    (if energy_to_store >? space_available
     then
       real_input <- Py.div space_available (efficiency_ow self) ;;
       Ok (space_available, real_input)
     else
       Ok (energy_to_store, energy_input_kwh)) ;;
  Ok (real_input,
      set_current_energy_kwh self (current_energy_kwh self + energy_to_store)).

(** [Battery.discharge]: the value returned and the battery afterwards.
    Over the reals the clipped branch leaves [current - (current - floor)],
    the floor itself; the interpreter rounds that difference (see
    [Float64.Battery.discharge]). *)
Definition discharge (self : t) (energy_needed_kwh : R) : result (R * t) :=
  let min_energy_kwh := capacity_kwh self * min_soc_limit_pct self in
  let available_energy := current_energy_kwh self - min_energy_kwh in
  if available_energy <=? 0 then Ok (0.0, self)
  else
    energy_to_drain <- Py.div energy_needed_kwh (efficiency_ow self) ;;
    let '(energy_to_drain, real_output) :=
      if energy_to_drain >? available_energy
      then (available_energy, available_energy * efficiency_ow self)
      else (energy_to_drain, energy_needed_kwh) in
    Ok (real_output,
        set_current_energy_kwh self (current_energy_kwh self - energy_to_drain)).

(** One call made on a battery by a client. *)
Inductive call : Type :=
| Charge (energy_input_kwh : R)
| Discharge (energy_needed_kwh : R).

Definition perform (self : t) (c : call) : result (R * t) :=
  match c with
  | Charge x => charge self x
  | Discharge x => discharge self x
  end.

(** The battery observed after a script of calls.  A call that raises
    leaves the object as it was (both methods raise before they assign)
    and ends the script. *)
Fixpoint after (self : t) (script : list call) : t :=
  match script with
  | [] => self
  | c :: script' =>
      match perform self c with
      | Ok (_, self') => after self' script'
      | Raise _ => self
      end
  end.

(** The reserve floor, [capacity * min_soc_limit_pct]. *)
Definition floor (self : t) : R := capacity_kwh self * min_soc_limit_pct self.

(** The state-of-charge bounds of the data model. *)
Definition soc_bounds (self : t) : Prop :=
  floor self <= current_energy_kwh self <= capacity_kwh self.

(** The constant fields are as [__init__] leaves them. *)
Definition constructed (self : t) : Prop :=
  0 <= efficiency_rt self /\
  efficiency_ow self = R_sqrt.sqrt (efficiency_rt self).

(** Two states of one battery: the constant fields agree. *)
Definition same_constants (self self' : t) : Prop :=
  capacity_kwh self' = capacity_kwh self /\
  efficiency_rt self' = efficiency_rt self /\
  min_soc_limit_pct self' = min_soc_limit_pct self /\
  efficiency_ow self' = efficiency_ow self.

(** A battery used in the examples: what [__init__] builds from
    [{'capacity': 8, 'efficiency': 0.25, 'discharge_depth': 0.25}], so the
    reserve floor is 2 kWh and the one-way efficiency is 0.5, holding
    [energy] kWh. *)
Definition sample (energy : R) : t := mk 8 0.25 0.25 energy 0.5.

End Battery.

(** ** [class SolarPanel] *)

Module SolarPanel.

Record config : Type := mk_config {
  panel_peak_kw : option R
}.

Record t : Type := mk {
  peak_power_kw : R
}.

Definition init (config_data : config) : t :=
  mk (get (panel_peak_kw config_data) 5.0).

(** [SolarPanel.get_generation].  [sin] and [PI] are those of the reals:
    [math.sin(math.pi)] is not 0 but about 1.22e-16, so at hour 18 the
    interpreter returns a value of that order where this definition
    gives 0, and its afternoon mirrors its morning up to rounding only. *)
Definition get_generation (self : t) (time_of_day_hour cloud_coverage_pct : R) : R :=
  let sunrise_hour := 6 in
  let sunset_hour := 18 in
  if (time_of_day_hour <? sunrise_hour) || (time_of_day_hour >? sunset_hour)
  then 0.0
  else
    let daylight_duration := sunset_hour - sunrise_hour in
    let sun_angle := (time_of_day_hour - sunrise_hour) * (PI / daylight_duration) in
    let base_generation := peak_power_kw self * sin sun_angle in
    let actual_generation := base_generation * (1 - cloud_coverage_pct) in
    Py.max 0.0 actual_generation.

End SolarPanel.

(** ** [class Inverter] *)

Module Inverter.

Record config : Type := mk_config {
  inverter_max_kw : option R;
  inverter_failure_rate : option R;
  failure_duration_min_hours : option Z;
  failure_duration_max_hours : option Z
}.

Record t : Type := mk {
  max_output_kw : R;
  failure_probability : R;
  min_repair_time : Z;
  max_repair_time : Z;
  is_broken : bool;
  hours_until_repair : Z
}.

Definition set_is_broken (self : t) (b : bool) : t :=
  mk (max_output_kw self) (failure_probability self) (min_repair_time self)
     (max_repair_time self) b (hours_until_repair self).

Definition set_hours_until_repair (self : t) (h : Z) : t :=
  mk (max_output_kw self) (failure_probability self) (min_repair_time self)
     (max_repair_time self) (is_broken self) h.

Definition init (config_data : config) : t :=
  mk (get (inverter_max_kw config_data) 4.0)
     (get (inverter_failure_rate config_data) 0.005)
     (get (failure_duration_min_hours config_data) 4%Z)
     (get (failure_duration_max_hours config_data) 72%Z)
     false 0%Z.

(** Step 2 of [check_status]: the roll for a new failure. *)
Definition roll (self : t) (g : rng) : result (bool * t * rng) :=
  let '(u, g) := Py.random g in
  if u <? failure_probability self then
    let self := set_is_broken self true in
    '(h, g) <- Py.randint (min_repair_time self) (max_repair_time self) g ;;
    Ok (false, set_hours_until_repair self h, g)
  else Ok (true, self, g).

(** [Inverter.check_status] *)
Definition check_status (self : t) (g : rng) : result (bool * t * rng) :=
  if is_broken self then
    let self := set_hours_until_repair self (hours_until_repair self - 1) in
    if (hours_until_repair self <=? 0)%Z
    then roll (set_is_broken self false) g
    else Ok (false, self, g)
  else roll self g.

(** [Inverter.clip_power] *)
Definition clip_power (self : t) (dc_power_kw : R) (g : rng) : result (R * t * rng) :=
  '(working, self, g) <- check_status self g ;;
  if negb working then Ok (0.0, self, g)
  else Ok (Py.min dc_power_kw (max_output_kw self), self, g).

(** One [clip_power] call per simulated step, over the given DC inputs. *)
Fixpoint clip_steps (self : t) (inputs : list R) (g : rng)
  : result (list R * t * rng) :=
  match inputs with
  | [] => Ok ([], self, g)
  | dc :: inputs' =>
      '(ac, self, g) <- clip_power self dc g ;;
      '(acs, self, g) <- clip_steps self inputs' g ;;
      Ok (ac :: acs, self, g)
  end.

(** Draws used in the examples: the first float is 0 (below every positive
    failure probability), the later ones are 0.5; every raw integer is 0,
    so that [randint(a, b)] yields [a]. *)
Definition sample_rng : rng :=
  mk_rng (fun n => match n with O => 0 | S _ => 0.5 end) (fun _ => O) O.

(** The default inverter, as [__init__] leaves it, and in a given state. *)
Definition sample (broken : bool) (hours : Z) : t :=
  mk 4.0 0.005 4 72 broken hours.

End Inverter.

(** ** [class EnergyManager] *)

Module EnergyManager.

Record config : Type := mk_config {
  name : option string
}.

Record t : Type := mk {
  strategy_name : string
}.

Definition init (config_data : config) : t :=
  mk (get (name config_data) "LOAD_PRIORITY"%string).

(** The [flow_log] dictionary: its six keys are fixed at creation. *)
Record FlowRecord : Type := mk_flow {
  solar_to_load : R;
  solar_to_battery : R;
  solar_to_grid : R;
  grid_import : R;
  battery_discharge : R;
  curtailed : R
}.

Definition set_solar_to_load (log : FlowRecord) (v : R) : FlowRecord :=
  mk_flow v (solar_to_battery log) (solar_to_grid log) (grid_import log)
          (battery_discharge log) (curtailed log).
Definition set_solar_to_battery (log : FlowRecord) (v : R) : FlowRecord :=
  mk_flow (solar_to_load log) v (solar_to_grid log) (grid_import log)
          (battery_discharge log) (curtailed log).
Definition set_solar_to_grid (log : FlowRecord) (v : R) : FlowRecord :=
  mk_flow (solar_to_load log) (solar_to_battery log) v (grid_import log)
          (battery_discharge log) (curtailed log).
Definition set_grid_import (log : FlowRecord) (v : R) : FlowRecord :=
  mk_flow (solar_to_load log) (solar_to_battery log) (solar_to_grid log) v
          (battery_discharge log) (curtailed log).
Definition set_battery_discharge (log : FlowRecord) (v : R) : FlowRecord :=
  mk_flow (solar_to_load log) (solar_to_battery log) (solar_to_grid log)
          (grid_import log) v (curtailed log).
Definition set_curtailed (log : FlowRecord) (v : R) : FlowRecord :=
  mk_flow (solar_to_load log) (solar_to_battery log) (solar_to_grid log)
          (grid_import log) (battery_discharge log) v.

Definition empty_log : FlowRecord := mk_flow 0.0 0.0 0.0 0.0 0.0 0.0.

(** Strategy 1.  The battery and the log are the mutable arguments; both
    come back updated.  The sums and differences are those of the reals,
    here and in the two strategies below; the interpreter rounds each (see
    [Float64.EnergyManager]). *)
Definition _run_load_priority (solar load : R) (battery : Battery.t)
    (grid_limit : R) (log : FlowRecord) : result (Battery.t * FlowRecord) :=
  (* 1. Power the House *)
  '(excess_solar, battery, log) <-
    (if solar >=? load then
       let log := set_solar_to_load log load in
       Ok (solar - load, battery, log)
     else
       let log := set_solar_to_load log solar in
       let excess_solar := 0.0 in
       let deficit := load - solar in
       '(discharged, battery) <- Battery.discharge battery deficit ;;
       let log := set_battery_discharge log discharged in
       let remaining_deficit := deficit - discharged in
       let log :=
         if remaining_deficit >? 0
         then set_grid_import log remaining_deficit
         else log in
       Ok (excess_solar, battery, log)) ;;
  (* 2. Charge Battery with Excess *)
  '(excess_solar, battery, log) <-
    (if excess_solar >? 0 then
       '(charged, battery) <- Battery.charge battery excess_solar ;;
       let log := set_solar_to_battery log charged in
       Ok (excess_solar - charged, battery, log)
     else Ok (excess_solar, battery, log)) ;;
  (* 3. Export to Grid *)
  let '(excess_solar, log) :=
    if excess_solar >? 0 then
      let to_export := Py.min excess_solar grid_limit in
      let log := set_solar_to_grid log to_export in
      (excess_solar - to_export, log)
    else (excess_solar, log) in
  (* 4. Curtailment *)
  let log :=
    if excess_solar >? 0 then set_curtailed log excess_solar else log in
  Ok (battery, log).

(** Strategy 2. *)
Definition _run_charge_priority (solar load : R) (battery : Battery.t)
    (grid_limit : R) (log : FlowRecord) : result (Battery.t * FlowRecord) :=
  let remaining_solar := solar in
  (* 1. Charge Battery First *)
  '(remaining_solar, battery, log) <-
    (if remaining_solar >? 0 then
       '(charged, battery) <- Battery.charge battery remaining_solar ;;
       let log := set_solar_to_battery log charged in
       Ok (remaining_solar - charged, battery, log)
     else Ok (remaining_solar, battery, log)) ;;
  (* 2. Power House Second *)
  let '(remaining_solar, log) :=
    if remaining_solar >=? load then
      let log := set_solar_to_load log load in
      (remaining_solar - load, log)
    else
      let log := set_solar_to_load log remaining_solar in
      let deficit := load - remaining_solar in
      let remaining_solar := 0.0 in
      let log := set_grid_import log deficit in
      (remaining_solar, log) in
  (* 3. Export Third *)
  let '(remaining_solar, log) :=
    if remaining_solar >? 0 then
      let to_export := Py.min remaining_solar grid_limit in
      let log := set_solar_to_grid log to_export in
      (remaining_solar - to_export, log)
    else (remaining_solar, log) in
  Ok (battery, set_curtailed log remaining_solar).

(** Strategy 3. *)
Definition _run_produce_priority (solar load : R) (battery : Battery.t)
    (grid_limit : R) (log : FlowRecord) : result (Battery.t * FlowRecord) :=
  let remaining_solar := solar in
  (* 1. Export First *)
  let to_export := Py.min remaining_solar grid_limit in
  let log := set_solar_to_grid log to_export in
  let remaining_solar := remaining_solar - to_export in
  (* 2. Charge Battery Second *)
  '(remaining_solar, battery, log) <-
    (if remaining_solar >? 0 then
       '(charged, battery) <- Battery.charge battery remaining_solar ;;
       let log := set_solar_to_battery log charged in
       Ok (remaining_solar - charged, battery, log)
     else Ok (remaining_solar, battery, log)) ;;
  (* 3. Power House Last *)
  '(remaining_solar, battery, log) <-
    (if remaining_solar >=? load then
       let log := set_solar_to_load log load in
       Ok (remaining_solar - load, battery, log)
     else
       let log := set_solar_to_load log remaining_solar in
       let deficit := load - remaining_solar in
       let remaining_solar := 0.0 in
       '(discharged, battery) <- Battery.discharge battery deficit ;;
       let log := set_battery_discharge log discharged in
       let remaining_deficit := deficit - discharged in
       let log := set_grid_import log remaining_deficit in
       Ok (remaining_solar, battery, log)) ;;
  Ok (battery, set_curtailed log remaining_solar).

(** [EnergyManager.decide_energy_flow]: the log returned and the battery
    as the call leaves it. *)
Definition decide_energy_flow (self : t) (solar_gen_kw load_demand_kw : R)
    (battery : Battery.t) (grid_limit_kw : R) : result (FlowRecord * Battery.t) :=
  let flow_log := empty_log in
  '(battery, flow_log) <-
    (if String.eqb (strategy_name self) "LOAD_PRIORITY" then
       _run_load_priority solar_gen_kw load_demand_kw battery grid_limit_kw flow_log
     else if String.eqb (strategy_name self) "CHARGE_PRIORITY" then
       _run_charge_priority solar_gen_kw load_demand_kw battery grid_limit_kw flow_log
     else if String.eqb (strategy_name self) "PRODUCE_PRIORITY" then
       _run_produce_priority solar_gen_kw load_demand_kw battery grid_limit_kw flow_log
     else
       _run_load_priority solar_gen_kw load_demand_kw battery grid_limit_kw flow_log) ;;
  Ok (flow_log, battery).

(** What holds of a dispatch procedure run on battery [b]: [P] of the log
    when it returns; and when it raises, a division by the one-way
    efficiency of [b] did, that efficiency being zero. *)
Definition dispatched (b : Battery.t) (P : FlowRecord -> Prop)
    (r : result (Battery.t * FlowRecord)) : Prop :=
  match r with
  | Ok (_, log) => P log
  | Raise _ => Battery.efficiency_ow b = 0
  end.

(** The manager of each policy. *)
Definition load_priority : t := mk "LOAD_PRIORITY".
Definition charge_priority : t := mk "CHARGE_PRIORITY".
Definition produce_priority : t := mk "PRODUCE_PRIORITY".

End EnergyManager.

(** ** The same methods over binary64

    [Battery] and [EnergyManager] above read a Python [float] as a real
    number.  Here the same methods are written once more over IEEE 754
    binary64, the arithmetic the interpreter performs: every operation
    rounds to nearest, ties to even.  These definitions run, rounding
    included, on concrete inputs; they show where a fact of exact
    arithmetic is not a fact of the program. *)

Module Float64.

Import PrimFloat.
Local Open Scope float_scope.

(** Comparison operators on floats; a comparison with NaN is false. *)
Definition gtb (x y : float) : bool := y <? x.
Definition geb (x y : float) : bool := y <=? x.

(** [a / b]: raises on a zero divisor, of either sign. *)
Definition div (a b : float) : result float :=
  if b =? 0 then Raise ZeroDivisionError else Ok (a / b).

(** [math.sqrt(x)] *)
Definition sqrt (x : float) : result float :=
  if x <? 0 then Raise ValueError else Ok (PrimFloat.sqrt x).

(** [min(a, b)] *)
Definition min (a b : float) : float := if b <? a then b else a.

(** [class Battery] *)
Module Battery.

Record config : Type := mk_config {
  capacity : option float;
  efficiency : option float;
  discharge_depth : option float;
  initial_state : option float
}.

Record t : Type := mk {
  capacity_kwh : float;
  efficiency_rt : float;
  min_soc_limit_pct : float;
  current_energy_kwh : float;
  efficiency_ow : float
}.

Definition set_current_energy_kwh (self : t) (e : float) : t :=
  mk (capacity_kwh self) (efficiency_rt self) (min_soc_limit_pct self)
     e (efficiency_ow self).

(** [Battery.__init__] *)
Definition init (config_data : config) : result t :=
  let capacity_kwh := get (capacity config_data) 13.5 in
  let efficiency_rt := get (efficiency config_data) 0.90 in
  let min_soc_limit_pct := get (discharge_depth config_data) 0.05 in
  let initial_state_pct := get (initial_state config_data) 0.0 in
  let current_energy_kwh := capacity_kwh * initial_state_pct in
  efficiency_ow <- sqrt efficiency_rt ;;
  Ok (mk capacity_kwh efficiency_rt min_soc_limit_pct
         current_energy_kwh efficiency_ow).

(** [Battery.charge] *)
Definition charge (self : t) (energy_input_kwh : float) : result (float * t) :=
  let energy_to_store := energy_input_kwh * efficiency_ow self in
  let space_available := capacity_kwh self - current_energy_kwh self in
  '(energy_to_store, real_input) <-
    (if gtb energy_to_store space_available
     then
       real_input <- div space_available (efficiency_ow self) ;;
       Ok (space_available, real_input)
     else
       Ok (energy_to_store, energy_input_kwh)) ;;
  Ok (real_input,
      set_current_energy_kwh self (current_energy_kwh self + energy_to_store)).

(** [Battery.discharge] *)
Definition discharge (self : t) (energy_needed_kwh : float) : result (float * t) :=
  let min_energy_kwh := capacity_kwh self * min_soc_limit_pct self in
  let available_energy := current_energy_kwh self - min_energy_kwh in
  if available_energy <=? 0 then Ok (0.0, self)
  else
    energy_to_drain <- div energy_needed_kwh (efficiency_ow self) ;;
    let '(energy_to_drain, real_output) :=
      if gtb energy_to_drain available_energy
      then (available_energy, available_energy * efficiency_ow self)
      else (energy_to_drain, energy_needed_kwh) in
    Ok (real_output,
        set_current_energy_kwh self (current_energy_kwh self - energy_to_drain)).

(** The reserve floor, [capacity * min_soc_limit_pct]. *)
Definition floor (self : t) : float := capacity_kwh self * min_soc_limit_pct self.

(** What [__init__] builds with every key at its default but the initial
    state of charge. *)
Definition default_config (initial_state_pct : float) : config :=
  mk_config None None None (Some initial_state_pct).

End Battery.

(** [class EnergyManager] *)
Module EnergyManager.

Record t : Type := mk {
  strategy_name : string
}.

Record FlowRecord : Type := mk_flow {
  solar_to_load : float;
  solar_to_battery : float;
  solar_to_grid : float;
  grid_import : float;
  battery_discharge : float;
  curtailed : float
}.

Definition set_solar_to_load (log : FlowRecord) (v : float) : FlowRecord :=
  mk_flow v (solar_to_battery log) (solar_to_grid log) (grid_import log)
          (battery_discharge log) (curtailed log).
Definition set_solar_to_battery (log : FlowRecord) (v : float) : FlowRecord :=
  mk_flow (solar_to_load log) v (solar_to_grid log) (grid_import log)
          (battery_discharge log) (curtailed log).
Definition set_solar_to_grid (log : FlowRecord) (v : float) : FlowRecord :=
  mk_flow (solar_to_load log) (solar_to_battery log) v (grid_import log)
          (battery_discharge log) (curtailed log).
Definition set_grid_import (log : FlowRecord) (v : float) : FlowRecord :=
  mk_flow (solar_to_load log) (solar_to_battery log) (solar_to_grid log) v
          (battery_discharge log) (curtailed log).
Definition set_battery_discharge (log : FlowRecord) (v : float) : FlowRecord :=
  mk_flow (solar_to_load log) (solar_to_battery log) (solar_to_grid log)
          (grid_import log) v (curtailed log).
Definition set_curtailed (log : FlowRecord) (v : float) : FlowRecord :=
  mk_flow (solar_to_load log) (solar_to_battery log) (solar_to_grid log)
          (grid_import log) (battery_discharge log) v.

Definition empty_log : FlowRecord := mk_flow 0.0 0.0 0.0 0.0 0.0 0.0.

(** Strategy 1. *)
Definition _run_load_priority (solar load : float) (battery : Battery.t)
    (grid_limit : float) (log : FlowRecord) : result (Battery.t * FlowRecord) :=
  (* 1. Power the House *)
  '(excess_solar, battery, log) <-
    (if geb solar load then
       let log := set_solar_to_load log load in
       Ok (solar - load, battery, log)
     else
       let log := set_solar_to_load log solar in
       let excess_solar := 0.0 in
       let deficit := load - solar in
       '(discharged, battery) <- Battery.discharge battery deficit ;;
       let log := set_battery_discharge log discharged in
       let remaining_deficit := deficit - discharged in
       let log :=
         if gtb remaining_deficit 0
         then set_grid_import log remaining_deficit
         else log in
       Ok (excess_solar, battery, log)) ;;
  (* 2. Charge Battery with Excess *)
  '(excess_solar, battery, log) <-
    (if gtb excess_solar 0 then
       '(charged, battery) <- Battery.charge battery excess_solar ;;
       let log := set_solar_to_battery log charged in
       Ok (excess_solar - charged, battery, log)
     else Ok (excess_solar, battery, log)) ;;
  (* 3. Export to Grid *)
  let '(excess_solar, log) :=
    if gtb excess_solar 0 then
      let to_export := min excess_solar grid_limit in
      let log := set_solar_to_grid log to_export in
      (excess_solar - to_export, log)
    else (excess_solar, log) in
  (* 4. Curtailment *)
  let log :=
    if gtb excess_solar 0 then set_curtailed log excess_solar else log in
  Ok (battery, log).

(** Strategy 2. *)
Definition _run_charge_priority (solar load : float) (battery : Battery.t)
    (grid_limit : float) (log : FlowRecord) : result (Battery.t * FlowRecord) :=
  let remaining_solar := solar in
  (* 1. Charge Battery First *)
  '(remaining_solar, battery, log) <-
    (if gtb remaining_solar 0 then
       '(charged, battery) <- Battery.charge battery remaining_solar ;;
       let log := set_solar_to_battery log charged in
       Ok (remaining_solar - charged, battery, log)
     else Ok (remaining_solar, battery, log)) ;;
  (* 2. Power House Second *)
  let '(remaining_solar, log) :=
    if geb remaining_solar load then
      let log := set_solar_to_load log load in
      (remaining_solar - load, log)
    else
      let log := set_solar_to_load log remaining_solar in
      let deficit := load - remaining_solar in
      let remaining_solar := 0.0 in
      let log := set_grid_import log deficit in
      (remaining_solar, log) in
  (* 3. Export Third *)
  let '(remaining_solar, log) :=
    if gtb remaining_solar 0 then
      let to_export := min remaining_solar grid_limit in
      let log := set_solar_to_grid log to_export in
      (remaining_solar - to_export, log)
    else (remaining_solar, log) in
  Ok (battery, set_curtailed log remaining_solar).

(** Strategy 3. *)
Definition _run_produce_priority (solar load : float) (battery : Battery.t)
    (grid_limit : float) (log : FlowRecord) : result (Battery.t * FlowRecord) :=
  let remaining_solar := solar in
  (* 1. Export First *)
  let to_export := min remaining_solar grid_limit in
  let log := set_solar_to_grid log to_export in
  let remaining_solar := remaining_solar - to_export in
  (* 2. Charge Battery Second *)
  '(remaining_solar, battery, log) <-
    (if gtb remaining_solar 0 then
       '(charged, battery) <- Battery.charge battery remaining_solar ;;
       let log := set_solar_to_battery log charged in
       Ok (remaining_solar - charged, battery, log)
     else Ok (remaining_solar, battery, log)) ;;
  (* 3. Power House Last *)
  '(remaining_solar, battery, log) <-
    (if geb remaining_solar load then
       let log := set_solar_to_load log load in
       Ok (remaining_solar - load, battery, log)
     else
       let log := set_solar_to_load log remaining_solar in
       let deficit := load - remaining_solar in
       let remaining_solar := 0.0 in
       '(discharged, battery) <- Battery.discharge battery deficit ;;
       let log := set_battery_discharge log discharged in
       let remaining_deficit := deficit - discharged in
       let log := set_grid_import log remaining_deficit in
       Ok (remaining_solar, battery, log)) ;;
  Ok (battery, set_curtailed log remaining_solar).

(** [EnergyManager.decide_energy_flow] *)
Definition decide_energy_flow (self : t) (solar_gen_kw load_demand_kw : float)
    (battery : Battery.t) (grid_limit_kw : float) : result (FlowRecord * Battery.t) :=
  let flow_log := empty_log in
  '(battery, flow_log) <-
    (if String.eqb (strategy_name self) "LOAD_PRIORITY" then
       _run_load_priority solar_gen_kw load_demand_kw battery grid_limit_kw flow_log
     else if String.eqb (strategy_name self) "CHARGE_PRIORITY" then
       _run_charge_priority solar_gen_kw load_demand_kw battery grid_limit_kw flow_log
     else if String.eqb (strategy_name self) "PRODUCE_PRIORITY" then
       _run_produce_priority solar_gen_kw load_demand_kw battery grid_limit_kw flow_log
     else
       _run_load_priority solar_gen_kw load_demand_kw battery grid_limit_kw flow_log) ;;
  Ok (flow_log, battery).


End EnergyManager.

End Float64.

(** ** More of the Python runtime: what [environment.py] and [engine.py] use *)

Module PyMore.

(** The exceptions these two files can see: a missing dictionary key, an
    index out of range, and those of [Py.exn]. *)
Inductive exception : Set :=
| KeyError (key : string)
| IndexError
| Builtin (e : exn).

Inductive outcome (A : Type) : Type :=
| Done (a : A)
| Fail (e : exception).

Arguments Done {A} a.
Arguments Fail {A} e.

Definition and_then {A B : Type} (c : outcome A) (k : A -> outcome B)
  : outcome B :=
  match c with
  | Done a => k a
  | Fail e => Fail e
  end.

(** A call into [components.py] or [strategy.py]. *)
Definition lift {A : Type} (r : result A) : outcome A :=
  match r with
  | Ok a => Done a
  | Raise e => Fail (Builtin e)
  end.

(** [d[key]] on a key that may be absent. *)
Definition item {A : Type} (key : string) (entry : option A) : outcome A :=
  match entry with
  | Some v => Done v
  | None => Fail (KeyError key)
  end.

(** [d.get(key)] on a dictionary literal, its entries in source order. *)
Fixpoint lookup {A : Type} (key : string) (d : list (string * A)) : option A :=
  match d with
  | [] => None
  | (k, v) :: d' => if String.eqb key k then Some v else lookup key d'
  end.

(** [x % y] on floats: the remainder has the sign of the divisor.  It is
    the exact remainder of the reals; the interpreter's is the remainder of
    the rounded [x]. *)
Definition float_mod (x y : R) : result R :=
  if Req_dec_T y 0 then Raise ZeroDivisionError
  else Ok (x - y * IZR (Int_part (x / y))).

(** [int(x)] on a float: truncation toward zero. *)
Definition int_of_float (x : R) : Z :=
  if x <? 0 then (- Int_part (- x))%Z else Int_part x.

(** [random.uniform(a, b)] is [a + (b - a) * random()]. *)
Definition uniform (a b : R) (g : rng) : R * rng :=
  let '(u, g) := Py.random g in
  (a + (b - a) * u, g).

(** [itertools.accumulate]: the running sums. *)
Fixpoint accumulate_from (acc : R) (weights : list R) : list R :=
  match weights with
  | [] => []
  | w :: weights' => (acc + w) :: accumulate_from (acc + w) weights'
  end.

Definition accumulate (weights : list R) : list R :=
  match weights with
  | [] => []
  | w :: weights' => w :: accumulate_from w weights'
  end.

(** [bisect.bisect_right(a, x, 0, hi)] on a non-decreasing list: the number
    of entries among the first [hi] that do not exceed [x]. *)
Fixpoint bisect (a : list R) (x : R) (hi : nat) : nat :=
  match hi, a with
  | S hi', c :: a' => if x <? c then O else S (bisect a' x hi')
  | _, _ => O
  end.

(** [a[-1]] *)
Fixpoint last_item (a : list R) : outcome R :=
  match a with
  | [] => Fail IndexError
  | [c] => Done c
  | _ :: a' => last_item a'
  end.

(** [random.choices(population, weights=weights, k=1)[0]]: one draw, scaled
    by the total weight and located among the running sums.  The running
    sums are those of the reals; the interpreter rounds them, so a draw
    next to the boundary of two categories can select the other one. *)
Definition choices {A : Type} (population : list A) (weights : list R)
    (g : rng) : outcome (A * rng) :=
  let n := List.length population in
  let cum_weights := accumulate weights in
  if negb (Nat.eqb (List.length cum_weights) n) then Fail (Builtin ValueError)
  else
    and_then (last_item cum_weights) (fun final =>
      let total := final + 0.0 in
      if total <=? 0.0 then Fail (Builtin ValueError)
      else
        let hi := (n - 1)%nat in
        let '(u, g) := Py.random g in
        match nth_error population (bisect cum_weights (u * total) hi) with
        | Some v => Done (v, g)
        | None => Fail IndexError
        end).

End PyMore.

Notation "x <~ c ;; k" := (PyMore.and_then c (fun x => k))
  (at level 61, c at next level, right associativity) : py_scope.
Notation "' p <~ c ;; k" := (PyMore.and_then c (fun p => k))
  (at level 61, p pattern, c at next level, right associativity) : py_scope.

(** ** [class Weather] *)

Module Weather.

Import PyMore.

(** The key of the ['simulation'] section that the weather reads. *)
Record config : Type := mk_config {
  season : option string
}.

Record t : Type := mk {
  self_season : string;
  season_weights : list (string * list R)
}.

Definition init (config_data : config) : t :=
  mk (get (season config_data) "Summer"%string)
     [ ("Spring"%string, [0.1; 0.3; 0.4; 0.2]);
       ("Summer"%string, [0.05; 0.15; 0.3; 0.5]);
       ("Fall"%string, [0.2; 0.4; 0.3; 0.1]);
       ("Winter"%string, [0.3; 0.4; 0.2; 0.1]) ].

Definition get_cloud_coverage (self : t) (g : rng) : outcome (R * rng) :=
  let weights :=
    get (lookup (self_season self) (season_weights self))
        [0.25; 0.25; 0.25; 0.25] in
  '(category, g) <~ choices [0; 1; 2; 3]%nat weights g ;;
  if Nat.eqb category 0 then Done (uniform 0.0 0.2 g)
  else if Nat.eqb category 1 then Done (uniform 0.2 0.6 g)
  else if Nat.eqb category 2 then Done (uniform 0.6 0.8 g)
  else Done (uniform 0.8 1.0 g).

(** The band of each category. *)
Definition band (category : nat) : R * R :=
  match category with
  | 0%nat => (0.0, 0.2)
  | 1%nat => (0.2, 0.6)
  | 2%nat => (0.6, 0.8)
  | _ => (0.8, 1.0)
  end.

End Weather.

(** ** [class HomeLoad] *)

Module HomeLoad.

Import PyMore.

Record config : Type := mk_config {
  base_load_kw : option R;
  peak_load_kw : option R;
  peak_start_hour : option R;
  peak_end_hour : option R
}.

Record t : Type := mk {
  self_base_load_kw : R;
  self_peak_load_kw : R;
  peak_start : R;
  peak_end : R
}.

Definition init (config_data : config) : t :=
  mk (get (base_load_kw config_data) 0.5)
     (get (peak_load_kw config_data) 3.0)
     (get (peak_start_hour config_data) 18)
     (get (peak_end_hour config_data) 21).

Definition get_current_load (self : t) (hour_of_day : R) (g : rng) : R * rng :=
  let current_load := self_base_load_kw self in
  let '(spike, g) :=
    if (peak_start self <=? hour_of_day) && (hour_of_day <=? peak_end self)
    then uniform 0 (self_peak_load_kw self) g
    else uniform 0 (self_peak_load_kw self * 0.1) g in
  (current_load + spike, g).

End HomeLoad.

(** ** [class UtilityGrid] *)

Module UtilityGrid.

Record config : Type := mk_config {
  export_limit_kw : option R;
  cost_import_cents : option R;
  price_export_cents : option R
}.

Record t : Type := mk {
  self_export_limit_kw : R;
  cost_import : R;
  price_export : R
}.

Definition init (config_data : config) : t :=
  mk (get (export_limit_kw config_data) 20.0)
     (get (cost_import_cents config_data) 0.75)
     (get (price_export_cents config_data) 0.90).

Definition calculate_cost (self : t) (imported_kwh exported_kwh : R) : R :=
  let cost := imported_kwh * cost_import self in
  let earnings := exported_kwh * price_export self in
  cost - earnings.

End UtilityGrid.

(** ** [class SimulationEngine] *)

Module SimulationEngine.

Import PyMore.

(** The ['simulation'] and ['solar'] sections, and the whole configuration:
    a key or a section may be absent. *)
Record simulation_section : Type := mk_simulation {
  duration_days : option Z;
  time_step_minutes : option Z;
  season : option string
}.

Record solar_section : Type := mk_solar {
  panel_peak_kw : option R;
  inverter_max_kw : option R;
  inverter_failure_rate : option R;
  failure_duration_min_hours : option Z;
  failure_duration_max_hours : option Z
}.

Record config : Type := mk_config {
  section_simulation : option simulation_section;
  section_battery : option Battery.config;
  section_solar : option solar_section;
  section_load : option HomeLoad.config;
  section_grid : option UtilityGrid.config;
  section_strategy : option EnergyManager.config
}.

(** What each component reads of the section it is given. *)
Definition panel_view (s : solar_section) : SolarPanel.config :=
  SolarPanel.mk_config (panel_peak_kw s).

Definition inverter_view (s : solar_section) : Inverter.config :=
  Inverter.mk_config (inverter_max_kw s) (inverter_failure_rate s)
    (failure_duration_min_hours s) (failure_duration_max_hours s).

Definition weather_view (s : simulation_section) : Weather.config :=
  Weather.mk_config (season s).

(** One row of the results. *)
Record StepRecord : Type := mk_record {
  time_min : Z;
  day : Z;
  hour : R;
  solar_gen_kw : R;
  load_kw : R;
  battery_soc_kwh : R;
  grid_import_kw : R;
  grid_export_kw : R;
  cost_cents : R;
  cloud_cover : R
}.

(** The engine: its fields, and [env.now] of its SimPy environment. *)
Record t : Type := mk {
  now : Z;
  duration_hours : Z;
  step_minutes : Z;
  battery : Battery.t;
  solar_panel : SolarPanel.t;
  inverter : Inverter.t;
  weather : Weather.t;
  home_load : HomeLoad.t;
  grid : UtilityGrid.t;
  energy_manager : EnergyManager.t;
  results : list StepRecord
}.

(** [SimulationEngine.__init__] *)
Definition init (config : config) : outcome t :=
  sim_config <~ item "simulation" (section_simulation config) ;;
  days <~ item "duration_days" (duration_days sim_config) ;;
  let duration_hours := (days * 24)%Z in
  let step_minutes := get (time_step_minutes sim_config) 60%Z in
  battery_config <~ item "battery" (section_battery config) ;;
  battery <~ lift (Battery.init battery_config) ;;
  solar_config <~ item "solar" (section_solar config) ;;
  let solar_panel := SolarPanel.init (panel_view solar_config) in
  let inverter := Inverter.init (inverter_view solar_config) in
  let weather := Weather.init (weather_view sim_config) in
  load_config <~ item "load" (section_load config) ;;
  let home_load := HomeLoad.init load_config in
  grid_config <~ item "grid" (section_grid config) ;;
  let grid := UtilityGrid.init grid_config in
  strategy_config <~ item "strategy" (section_strategy config) ;;
  let energy_manager := EnergyManager.init strategy_config in
  Done (mk 0 duration_hours step_minutes battery solar_panel inverter
           weather home_load grid energy_manager []).

(** One pass through the body of [_simulation_loop], up to and including
    its [yield]: the row is appended, then the timeout is created (which
    raises on a negative delay) and the clock moves to its due time. *)
Definition iteration (self : t) (g : rng) : outcome (t * rng) :=
  let current_time_min := now self in
  current_hour <~ lift (float_mod (IZR current_time_min / 60) 24) ;;
  let day_number := int_of_float (IZR current_time_min / (60 * 24)) in
  '(cloud_cover, g) <~ Weather.get_cloud_coverage (weather self) g ;;
  let dc_solar_kw :=
    SolarPanel.get_generation (solar_panel self) current_hour cloud_cover in
  '(ac_solar_kw, inverter', g) <~
    lift (Inverter.clip_power (inverter self) dc_solar_kw g) ;;
  let '(load_kw, g) :=
    HomeLoad.get_current_load (home_load self) current_hour g in
  '(flow_decision, battery') <~
    lift (EnergyManager.decide_energy_flow (energy_manager self)
            ac_solar_kw load_kw (battery self)
            (UtilityGrid.self_export_limit_kw (grid self))) ;;
  let grid_import := EnergyManager.grid_import flow_decision in
  let grid_export := EnergyManager.solar_to_grid flow_decision in
  let step_cost :=
    UtilityGrid.calculate_cost (grid self) grid_import grid_export in
  let row :=
    mk_record current_time_min day_number current_hour ac_solar_kw load_kw
      (Battery.current_energy_kwh battery') grid_import grid_export
      step_cost cloud_cover in
  let results' := results self ++ [row] in
  if (step_minutes self <? 0)%Z then Fail (Builtin ValueError)
  else
    Done (mk (now self + step_minutes self) (duration_hours self)
             (step_minutes self) battery' (solar_panel self) inverter'
             (weather self) (home_load self) (grid self)
             (energy_manager self) results',
          g).

(** The first [n] passes of the loop. *)
Fixpoint iterations (n : nat) (self : t) (g : rng) : outcome (t * rng) :=
  match n with
  | O => Done (self, g)
  | S n' =>
      '(self', g') <~ iteration self g ;; iterations n' self' g'
  end.

(** [env.run(until)] on the loop: a pass runs whenever its due time is
    before [until]; the stop event, due at [until], goes first when both
    are due.  The fuel bounds the passes; [None] is a run still going. *)
Fixpoint passes (fuel : nat) (until : Z) (self : t) (g : rng)
  : option (outcome (t * rng)) :=
  if (until <=? now self)%Z then Some (Done (self, g))
  else
    match fuel with
    | O => None
    | S fuel' =>
        match iteration self g with
        | Done (self', g') => passes fuel' until self' g'
        | Fail e => Some (Fail e)
        end
    end.

(** [SimulationEngine.run]: the rows, as the data frame holds them.
    [env.run] refuses an [until] that is not after the current time. *)
Definition run (fuel : nat) (self : t) (g : rng)
  : option (outcome (list StepRecord * rng)) :=
  let until := (duration_hours self * 60)%Z in
  if (until <=? now self)%Z then Some (Fail (Builtin ValueError))
  else
    match passes fuel until self g with
    | None => None
    | Some (Done (self', g')) => Some (Done (results self', g'))
    | Some (Fail e) => Some (Fail e)
    end.

(** The default configuration: every section present and empty but for
    the number of days. *)
Definition default_config (days : Z) : config :=
  mk_config
    (Some (mk_simulation (Some days) None None))
    (Some (Battery.mk_config None None None None))
    (Some (mk_solar None None None None None))
    (Some (HomeLoad.mk_config None None None None))
    (Some (UtilityGrid.mk_config None None None))
    (Some (EnergyManager.mk_config None)).

(** A configuration used in the examples: the defaults, but for a battery
    that starts half full. *)
Definition sample_config (days : Z) : config :=
  mk_config
    (Some (mk_simulation (Some days) None None))
    (Some (Battery.mk_config None None None (Some 0.5)))
    (Some (mk_solar None None None None None))
    (Some (HomeLoad.mk_config None None None None))
    (Some (UtilityGrid.mk_config None None None))
    (Some (EnergyManager.mk_config None)).

(** The engine [__init__] builds from it. *)
Definition sample_engine (days : Z) : t :=
  mk 0 (days * 24) 60
     (Battery.mk 13.5 0.90 0.05 (13.5 * 0.5) (R_sqrt.sqrt 0.90))
     (SolarPanel.init (SolarPanel.mk_config None))
     (Inverter.init (Inverter.mk_config None None None None))
     (Weather.init (Weather.mk_config None))
     (HomeLoad.init (HomeLoad.mk_config None None None None))
     (UtilityGrid.init (UtilityGrid.mk_config None None None))
     (EnergyManager.init (EnergyManager.mk_config None))
     [].

End SimulationEngine.

(** ** State predicates used by the properties below *)

Module Invariant.

(** The repair counter agrees with the flag: it is 0 on a working inverter
    and counts at least one remaining hour, at most the longest repair, on
    a broken one. *)
Definition counter_agrees (s : Inverter.t) : Prop :=
  if Inverter.is_broken s
  then (1 <= Inverter.hours_until_repair s <= Inverter.max_repair_time s)%Z
  else Inverter.hours_until_repair s = 0%Z.

(** Two states of one inverter: the constant fields agree. *)
Definition same_inverter (s s' : Inverter.t) : Prop :=
  Inverter.max_output_kw s' = Inverter.max_output_kw s /\
  Inverter.failure_probability s' = Inverter.failure_probability s /\
  Inverter.min_repair_time s' = Inverter.min_repair_time s /\
  Inverter.max_repair_time s' = Inverter.max_repair_time s.

(** The generator after [n] draws. *)
Definition drawn (n : nat) (g : rng) : rng := Nat.iter n advance g.

(** Every field of a flow log is non-negative. *)
Definition nonneg_flows (log : EnergyManager.FlowRecord) : Prop :=
  0 <= EnergyManager.solar_to_load log /\
  0 <= EnergyManager.solar_to_battery log /\
  0 <= EnergyManager.solar_to_grid log /\
  0 <= EnergyManager.grid_import log /\
  0 <= EnergyManager.battery_discharge log /\
  0 <= EnergyManager.curtailed log.

(** What holds after a dispatch procedure run on battery [b]: [P] of the
    battery and the log it leaves when it returns; and when it raises, the
    one-way efficiency of [b] is zero. *)
Definition after_dispatch (b : Battery.t)
    (P : Battery.t -> EnergyManager.FlowRecord -> Prop)
    (r : result (Battery.t * EnergyManager.FlowRecord)) : Prop :=
  match r with
  | Ok (b', log) => P b' log
  | Raise _ => Battery.efficiency_ow b = 0
  end.

(** The limits of an engine are physically meaningful. *)
Definition engine_ok (e : SimulationEngine.t) : Prop :=
  0 <= Inverter.max_output_kw (SimulationEngine.inverter e) /\
  0 <= UtilityGrid.self_export_limit_kw (SimulationEngine.grid e) /\
  0 <= HomeLoad.self_peak_load_kw (SimulationEngine.home_load e).

(** A row is within the physical limits of the engine [e]. *)
Definition row_ok (e : SimulationEngine.t)
    (row : SimulationEngine.StepRecord) : Prop :=
  0 <= SimulationEngine.cloud_cover row <= 1 /\
  0 <= SimulationEngine.solar_gen_kw row
    <= Inverter.max_output_kw (SimulationEngine.inverter e) /\
  HomeLoad.self_base_load_kw (SimulationEngine.home_load e)
    <= SimulationEngine.load_kw row
    <= HomeLoad.self_base_load_kw (SimulationEngine.home_load e)
       + HomeLoad.self_peak_load_kw (SimulationEngine.home_load e) /\
  0 <= SimulationEngine.grid_export_kw row
    <= UtilityGrid.self_export_limit_kw (SimulationEngine.grid e) /\
  SimulationEngine.cost_cents row
    = UtilityGrid.calculate_cost (SimulationEngine.grid e)
        (SimulationEngine.grid_import_kw row)
        (SimulationEngine.grid_export_kw row).

(** Two states of one engine: everything but the clock, the battery, the
    inverter and the rows agrees, and so do the constants of those two. *)
Definition same_engine (e e' : SimulationEngine.t) : Prop :=
  SimulationEngine.duration_hours e' = SimulationEngine.duration_hours e /\
  SimulationEngine.step_minutes e' = SimulationEngine.step_minutes e /\
  SimulationEngine.solar_panel e' = SimulationEngine.solar_panel e /\
  SimulationEngine.weather e' = SimulationEngine.weather e /\
  SimulationEngine.home_load e' = SimulationEngine.home_load e /\
  SimulationEngine.grid e' = SimulationEngine.grid e /\
  SimulationEngine.energy_manager e' = SimulationEngine.energy_manager e /\
  Battery.same_constants (SimulationEngine.battery e)
    (SimulationEngine.battery e') /\
  same_inverter (SimulationEngine.inverter e) (SimulationEngine.inverter e').

(** Nothing in the engine can raise: the weather is one [__init__] built,
    the repair range is not empty, the battery's one-way efficiency is not
    zero and the time step is not negative. *)
Definition engine_runs (e : SimulationEngine.t) : Prop :=
  (exists config_data : Weather.config,
      SimulationEngine.weather e = Weather.init config_data) /\
  (Inverter.min_repair_time (SimulationEngine.inverter e)
   <= Inverter.max_repair_time (SimulationEngine.inverter e))%Z /\
  Battery.efficiency_ow (SimulationEngine.battery e) <> 0 /\
  (0 <= SimulationEngine.step_minutes e)%Z.

(** The draws ahead are the same: only the cursor moved. *)
Definition same_tape (g g' : rng) : Prop :=
  tape_float g' = tape_float g /\ tape_int g' = tape_int g.

End Invariant.

(** * Properties *)

(** ** Comparisons and arithmetic of the runtime *)

Section PyFacts.

Variables x y : R.

Lemma ltb_true : x < y -> (x <? y) = true.
Proof. unfold ltb; destruct (Rlt_dec x y); intros; [reflexivity | lra]. Qed.

Lemma ltb_false : y <= x -> (x <? y) = false.
Proof. unfold ltb; destruct (Rlt_dec x y); intros; [lra | reflexivity]. Qed.

Lemma leb_true : x <= y -> (x <=? y) = true.
Proof. unfold leb; destruct (Rle_dec x y); intros; [reflexivity | lra]. Qed.

Lemma leb_false : y < x -> (x <=? y) = false.
Proof. unfold leb; destruct (Rle_dec x y); intros; [lra | reflexivity]. Qed.

Lemma gtb_true : y < x -> (x >? y) = true.
Proof. unfold gtb; destruct (Rgt_dec x y); intros; [reflexivity | lra]. Qed.

Lemma gtb_false : x <= y -> (x >? y) = false.
Proof. unfold gtb; destruct (Rgt_dec x y); intros; [lra | reflexivity]. Qed.

Lemma geb_true : y <= x -> (x >=? y) = true.
Proof. unfold geb; destruct (Rge_dec x y); intros; [reflexivity | lra]. Qed.

Lemma geb_false : x < y -> (x >=? y) = false.
Proof. unfold geb; destruct (Rge_dec x y); intros; [lra | reflexivity]. Qed.

Lemma ltb_cases : (x < y /\ (x <? y) = true) \/ (y <= x /\ (x <? y) = false).
Proof. destruct (Rlt_le_dec x y); [left | right]; auto using ltb_true, ltb_false. Qed.

Lemma leb_cases : (x <= y /\ (x <=? y) = true) \/ (y < x /\ (x <=? y) = false).
Proof. destruct (Rle_lt_dec x y); [left | right]; auto using leb_true, leb_false. Qed.

Lemma gtb_cases : (y < x /\ (x >? y) = true) \/ (x <= y /\ (x >? y) = false).
Proof. destruct (Rlt_le_dec y x); [left | right]; auto using gtb_true, gtb_false. Qed.

Lemma geb_cases : (y <= x /\ (x >=? y) = true) \/ (x < y /\ (x >=? y) = false).
Proof. destruct (Rle_lt_dec y x); [left | right]; auto using geb_true, geb_false. Qed.

Lemma div_ok : y <> 0 -> Py.div x y = Ok (x / y).
Proof. unfold Py.div; destruct (Req_dec_T y 0); intros; [contradiction | reflexivity]. Qed.

Lemma div_zero : Py.div x 0 = Raise ZeroDivisionError.
Proof. unfold Py.div; destruct (Req_dec_T 0 0); [reflexivity | contradiction]. Qed.

Lemma div_cases :
  (y <> 0 /\ Py.div x y = Ok (x / y)) \/
  (y = 0 /\ Py.div x y = Raise ZeroDivisionError).
Proof.
  destruct (Req_dec_T y 0) as [Hy | Hy]; [right | left].
  - split; [assumption | ]. unfold Py.div.
    destruct (Req_dec_T y 0); [reflexivity | contradiction].
  - auto using div_ok.
Qed.

End PyFacts.

(** The two-argument [min] and [max] are those of the reals. *)
Lemma min_Rmin (x y : R) : Py.min x y = Rmin x y.
Proof.
  unfold Py.min, Rmin.
  destruct (ltb_cases y x) as [[H ->] | [H ->]], (Rle_dec x y); lra.
Qed.

Lemma max_Rmax (x y : R) : Py.max x y = Rmax x y.
Proof.
  unfold Py.max, Rmax.
  destruct (gtb_cases y x) as [[H ->] | [H ->]], (Rle_dec x y); lra.
Qed.

(** Evaluates a comparison between two numerals. *)
Ltac eval_cmp :=
  repeat first
    [ rewrite ltb_true by lra | rewrite ltb_false by lra
    | rewrite leb_true by lra | rewrite leb_false by lra
    | rewrite gtb_true by lra | rewrite gtb_false by lra
    | rewrite geb_true by lra | rewrite geb_false by lra
    | rewrite div_ok by lra ].

(** Two batteries with equal fields are equal. *)
Lemma battery_ext (b b' : Battery.t) :
  Battery.capacity_kwh b = Battery.capacity_kwh b' ->
  Battery.efficiency_rt b = Battery.efficiency_rt b' ->
  Battery.min_soc_limit_pct b = Battery.min_soc_limit_pct b' ->
  Battery.current_energy_kwh b = Battery.current_energy_kwh b' ->
  Battery.efficiency_ow b = Battery.efficiency_ow b' ->
  b = b'.
Proof. destruct b, b'; cbn; intros; subst; reflexivity. Qed.

Lemma ok_pair_ext {A : Type} (r r' : R) (a a' : A) :
  r = r' -> a = a' -> Ok (r, a) = Ok (r', a').
Proof. intros; subst; reflexivity. Qed.

Ltac same_battery := apply battery_ext; cbn; lra.
Ltac same_outcome := apply ok_pair_ext; [cbn; lra | same_battery].

(** ** Battery *)

Section BatteryFacts.

Import Battery.

Variable b : Battery.t.

Lemma set_current_energy_kwh_same :
  set_current_energy_kwh b (current_energy_kwh b) = b.
Proof. destruct b; reflexivity. Qed.

(** *** [charge], branch by branch *)

Lemma charge_absorbed (x : R) :
  x * efficiency_ow b <= capacity_kwh b - current_energy_kwh b ->
  charge b x =
  Ok (x, set_current_energy_kwh b (current_energy_kwh b + x * efficiency_ow b)).
Proof. intros H. unfold charge. rewrite gtb_false by lra. reflexivity. Qed.

Lemma charge_clipped (x : R) :
  capacity_kwh b - current_energy_kwh b < x * efficiency_ow b ->
  efficiency_ow b <> 0 ->
  charge b x =
  Ok ((capacity_kwh b - current_energy_kwh b) / efficiency_ow b,
      set_current_energy_kwh b
        (current_energy_kwh b + (capacity_kwh b - current_energy_kwh b))).
Proof.
  intros H He. unfold charge. rewrite gtb_true by lra.
  rewrite div_ok by assumption. reflexivity.
Qed.

Lemma charge_raises (x : R) (e : exn) :
  charge b x = Raise e -> efficiency_ow b = 0.
Proof.
  unfold charge.
  destruct (gtb_cases (x * efficiency_ow b)
              (capacity_kwh b - current_energy_kwh b)) as [[H ->] | [H ->]];
    [ | discriminate ].
  destruct (div_cases (capacity_kwh b - current_energy_kwh b)
              (efficiency_ow b)) as [[He ->] | [He ->]];
    [discriminate | auto].
Qed.

(** What a returning [charge] did: it kept the constants, and either took
    the whole input or filled the battery with the part of it that fits. *)
Lemma charge_returns (x r : R) (b' : Battery.t) :
  charge b x = Ok (r, b') ->
  same_constants b b' /\
  ((x * efficiency_ow b <= capacity_kwh b - current_energy_kwh b /\
    r = x /\
    current_energy_kwh b' = current_energy_kwh b + x * efficiency_ow b) \/
   (capacity_kwh b - current_energy_kwh b < x * efficiency_ow b /\
    efficiency_ow b <> 0 /\
    r * efficiency_ow b = capacity_kwh b - current_energy_kwh b /\
    current_energy_kwh b' = capacity_kwh b)).
Proof.
  unfold charge.
  destruct (gtb_cases (x * efficiency_ow b)
              (capacity_kwh b - current_energy_kwh b)) as [[H ->] | [H ->]].
  - destruct (div_cases (capacity_kwh b - current_energy_kwh b)
                (efficiency_ow b)) as [[He ->] | [He ->]];
      [ | discriminate ].
    cbn. intros [= <- <-]. split; [repeat split | right].
    repeat split; cbn; try lra. field; assumption.
  - cbn. intros [= <- <-]. split; [repeat split | left].
    repeat split; cbn; lra.
Qed.

Lemma charge_le (x r : R) (b' : Battery.t) :
  0 <= efficiency_ow b -> charge b x = Ok (r, b') -> r <= x.
Proof.
  intros He H. apply charge_returns in H.
  destruct H as [_ [(_ & -> & _) | (Hc & Hn & Hr & _)]]; [lra | ].
  assert (0 < efficiency_ow b) by lra. nra.
Qed.

(** *** [discharge], branch by branch *)

Lemma discharge_empty (x : R) :
  current_energy_kwh b <= floor b -> discharge b x = Ok (0, b).
Proof.
  unfold floor, discharge. intros H. rewrite leb_true by lra.
  f_equal. f_equal. lra.
Qed.

Lemma discharge_full (x : R) :
  floor b < current_energy_kwh b ->
  efficiency_ow b <> 0 ->
  x / efficiency_ow b <= current_energy_kwh b - floor b ->
  discharge b x =
  Ok (x, set_current_energy_kwh b (current_energy_kwh b - x / efficiency_ow b)).
Proof.
  unfold floor, discharge. intros H He Hx. rewrite leb_false by lra.
  rewrite div_ok by assumption. cbn. rewrite gtb_false by lra. reflexivity.
Qed.

Lemma discharge_clipped (x : R) :
  floor b < current_energy_kwh b ->
  efficiency_ow b <> 0 ->
  current_energy_kwh b - floor b < x / efficiency_ow b ->
  discharge b x =
  Ok ((current_energy_kwh b - floor b) * efficiency_ow b,
      set_current_energy_kwh b
        (current_energy_kwh b - (current_energy_kwh b - floor b))).
Proof.
  unfold floor, discharge. intros H He Hx. rewrite leb_false by lra.
  rewrite div_ok by assumption. cbn. rewrite gtb_true by lra. reflexivity.
Qed.

Lemma discharge_raises (x : R) (e : exn) :
  discharge b x = Raise e -> efficiency_ow b = 0.
Proof.
  unfold discharge.
  destruct (leb_cases (current_energy_kwh b
                       - capacity_kwh b * min_soc_limit_pct b) 0)
    as [[H ->] | [H ->]]; [discriminate | ].
  destruct (div_cases x (efficiency_ow b)) as [[He ->] | [He ->]]; [ | auto].
  cbn. destruct (_ >? _); discriminate.
Qed.

Lemma discharge_returns (x r : R) (b' : Battery.t) :
  discharge b x = Ok (r, b') ->
  same_constants b b' /\
  ((current_energy_kwh b <= floor b /\ r = 0 /\ b' = b) \/
   (floor b < current_energy_kwh b /\ efficiency_ow b <> 0 /\
    x / efficiency_ow b <= current_energy_kwh b - floor b /\
    r = x /\
    current_energy_kwh b' = current_energy_kwh b - x / efficiency_ow b) \/
   (floor b < current_energy_kwh b /\ efficiency_ow b <> 0 /\
    current_energy_kwh b - floor b < x / efficiency_ow b /\
    r = (current_energy_kwh b - floor b) * efficiency_ow b /\
    current_energy_kwh b' = floor b)).
Proof.
  destruct (Rle_lt_dec (current_energy_kwh b) (floor b)) as [Hf | Hf].
  - rewrite discharge_empty by assumption. intros [= <- <-].
    split; [repeat split | left; auto].
  - destruct (Req_dec_T (efficiency_ow b) 0) as [He | He].
    + intros H. exfalso. revert H. unfold floor in Hf. unfold discharge.
      rewrite leb_false by lra. rewrite He, div_zero. discriminate.
    + destruct (Rle_lt_dec (x / efficiency_ow b)
                  (current_energy_kwh b - floor b)) as [Hx | Hx].
      * rewrite discharge_full by assumption. intros [= <- <-].
        split; [repeat split | right; left]. repeat split; auto.
      * rewrite discharge_clipped by assumption. intros [= <- <-].
        split; [repeat split | right; right]. repeat split; auto. cbn. lra.
Qed.

(** A positive request is never over-served. *)
Lemma discharge_le (x r : R) (b' : Battery.t) :
  0 < x -> discharge b x = Ok (r, b') -> r <= x.
Proof.
  intros Hx H. apply discharge_returns in H.
  destruct H as [_ [(_ & -> & _) | [(_ & _ & _ & -> & _) | (Hf & He & Hc & -> & _)]]];
    try lra.
  destruct (Rlt_le_dec 0 (efficiency_ow b)) as [Hp | Hn].
  - apply (Rmult_lt_compat_r (efficiency_ow b)) in Hc; [ | assumption].
    replace (x / efficiency_ow b * efficiency_ow b) with x in Hc
      by (field; assumption).
    lra.
  - exfalso. assert (Hneg : efficiency_ow b < 0) by lra.
    assert (x / efficiency_ow b < 0).
    { unfold Rdiv. apply Rinv_lt_0_compat in Hneg. nra. }
    lra.
Qed.

End BatteryFacts.

Section BatteryRuns.

Import Battery.

Lemma sqrt_quarter : R_sqrt.sqrt 0.25 = 0.5.
Proof. apply sqrt_lem_1; lra. Qed.

Lemma sample_constructed (energy : R) : constructed (sample energy).
Proof. split; cbn; [lra | symmetry; apply sqrt_quarter]. Qed.

(** The sample battery is the one [__init__] builds. *)
Lemma init_sample (soc : R) :
  init (mk_config (Some 8) (Some 0.25) (Some 0.25) (Some soc))
  = Ok (sample (8 * soc)).
Proof.
  unfold init, Py.sqrt. cbn. rewrite ltb_false by lra. cbn.
  rewrite sqrt_quarter. reflexivity.
Qed.

Lemma constructed_efficiency_ow (b : Battery.t) :
  constructed b ->
  0 <= efficiency_ow b /\ efficiency_ow b * efficiency_ow b = efficiency_rt b.
Proof.
  intros [Hrt ->]. split; [apply sqrt_pos | apply sqrt_sqrt; assumption].
Qed.

(** [__init__] raises exactly on a negative efficiency, and otherwise builds
    a [constructed] battery holding [capacity * initial_state]. *)
Lemma init_returns (config_data : config) (b : Battery.t) :
  init config_data = Ok b ->
  constructed b /\
  capacity_kwh b = get (capacity config_data) 13.5 /\
  min_soc_limit_pct b = get (discharge_depth config_data) 0.05 /\
  current_energy_kwh b =
    get (capacity config_data) 13.5 * get (initial_state config_data) 0.0.
Proof.
  unfold init, Py.sqrt.
  destruct (ltb_cases (get (efficiency config_data) 0.90) 0) as [[H ->] | [H ->]];
    cbn; [discriminate | ].
  intros [= <-]. repeat split; cbn; auto.
Qed.

Lemma same_constants_refl (b : Battery.t) : same_constants b b.
Proof. repeat split. Qed.

Lemma same_constants_trans (b1 b2 b3 : Battery.t) :
  same_constants b1 b2 -> same_constants b2 b3 -> same_constants b1 b3.
Proof.
  unfold same_constants. intros (? & ? & ? & ?) (? & ? & ? & ?).
  repeat split; congruence.
Qed.

Lemma same_constants_floor (b b' : Battery.t) :
  same_constants b b' -> floor b' = floor b.
Proof. unfold floor. intros (-> & _ & -> & _). reflexivity. Qed.

End BatteryRuns.

(** C1, as the code has it: a call that returns keeps the constants of the
    battery and leaves the stored energy at
    [current + min(x * efficiency_ow, capacity - current)] for [charge(x)],
    and at [current - min(x / efficiency_ow, current - floor)] for
    [discharge(x)] above the reserve floor (unchanged at or below it).  So
    on a battery within its bounds, with a request and a one-way efficiency
    that are not negative, [charge] does not lower the stored energy, which
    stays at or above the floor, and [discharge] does not raise it, which
    stays at or below the capacity. *)
Theorem stored_energy_after_call (b b' : Battery.t) (c : Battery.call) (r : R) :
  Battery.perform b c = Ok (r, b') ->
  Battery.same_constants b b' /\
  match c with
  | Battery.Charge x =>
      Battery.current_energy_kwh b' =
        Battery.current_energy_kwh b
        + Rmin (x * Battery.efficiency_ow b)
               (Battery.capacity_kwh b - Battery.current_energy_kwh b) /\
      (Battery.soc_bounds b -> 0 <= x -> 0 <= Battery.efficiency_ow b ->
       Battery.current_energy_kwh b <= Battery.current_energy_kwh b' /\
       Battery.floor b' <= Battery.current_energy_kwh b')
  | Battery.Discharge x =>
      Battery.current_energy_kwh b' =
        (if Battery.current_energy_kwh b - Battery.floor b <=? 0
         then Battery.current_energy_kwh b
         else Battery.current_energy_kwh b
              - Rmin (x / Battery.efficiency_ow b)
                     (Battery.current_energy_kwh b - Battery.floor b)) /\
      (Battery.soc_bounds b -> 0 <= x -> 0 <= Battery.efficiency_ow b ->
       Battery.current_energy_kwh b' <= Battery.current_energy_kwh b /\
       Battery.current_energy_kwh b' <= Battery.capacity_kwh b')
  end.
Proof.
  intros H. destruct c as [x | x]; cbn in H.
  - apply charge_returns in H. destruct H as [Hk H]. split; [exact Hk | ].
    pose proof (same_constants_floor _ _ Hk) as Hfl.
    assert (Hcur : Battery.current_energy_kwh b' =
                   Battery.current_energy_kwh b
                   + Rmin (x * Battery.efficiency_ow b)
                       (Battery.capacity_kwh b - Battery.current_energy_kwh b)).
    { destruct H as [(Hroom & _ & ->) | (Hfull & _ & _ & ->)].
      - rewrite Rmin_left by exact Hroom. reflexivity.
      - rewrite Rmin_right by lra. lra. }
    split; [exact Hcur | ].
    intros [Hlo Hhi] Hx He. rewrite Hfl, Hcur.
    assert (0 <= x * Battery.efficiency_ow b) by nra.
    assert (0 <= Rmin (x * Battery.efficiency_ow b)
                   (Battery.capacity_kwh b - Battery.current_energy_kwh b)).
    { apply Rmin_glb; lra. }
    lra.
  - apply discharge_returns in H. destruct H as [Hk H]. split; [exact Hk | ].
    assert (Hcap : Battery.capacity_kwh b' = Battery.capacity_kwh b)
      by apply Hk.
    destruct H as [(Hlow & _ & ->) | [(Hhigh & Hne & Hroom & _ & Hcur)
                                     | (Hhigh & Hne & Hclip & _ & Hcur)]].
    + rewrite leb_true by lra. split; [reflexivity | ]. intros [_ Hhi] _ _. lra.
    + rewrite leb_false by lra. rewrite Rmin_left by exact Hroom.
      split; [exact Hcur | ]. intros [_ Hhi] Hx He. rewrite Hcur, Hcap.
      assert (Hp : 0 < Battery.efficiency_ow b) by lra.
      assert (0 <= x / Battery.efficiency_ow b).
      { apply Rmult_le_pos; [lra | ]. left. apply Rinv_0_lt_compat. exact Hp. }
      lra.
    + rewrite leb_false by lra. rewrite Rmin_right by lra.
      split; [lra | ]. intros [_ Hhi] _ _. rewrite Hcur, Hcap. lra.
Qed.

(** [charge(2)] on the sample battery holding 4 kWh. *)
Lemma stored_energy_after_call_witness :
  Battery.current_energy_kwh (Battery.sample 5) = 4 + Rmin (2 * 0.5) (8 - 4) /\
  4 <= Battery.current_energy_kwh (Battery.sample 5) /\
  Battery.floor (Battery.sample 5) <= Battery.current_energy_kwh (Battery.sample 5).
Proof.
  assert (Hc : Battery.perform (Battery.sample 4) (Battery.Charge 2)
               = Ok (2, Battery.sample 5)).
  { cbn. rewrite charge_absorbed by (cbn; lra). same_outcome. }
  destruct (stored_energy_after_call _ _ _ _ Hc) as (_ & Hcur & Hdir).
  split; [exact Hcur | ].
  apply Hdir.
  - unfold Battery.soc_bounds, Battery.floor. cbn. lra.
  - lra.
  - cbn. lra.
Defined.

(** C1 fails as stated: on a battery holding 4 kWh between a floor of 2 kWh
    and a capacity of 8 kWh, [charge(-6)] leaves 1 kWh, below the floor. *)
Lemma soc_bounds_broken_by_negative_charge :
  Battery.soc_bounds (Battery.sample 4) /\
  Battery.after (Battery.sample 4) [Battery.Charge (-6)] = Battery.sample 1 /\
  ~ Battery.soc_bounds (Battery.after (Battery.sample 4) [Battery.Charge (-6)]).
Proof.
  assert (E : Battery.after (Battery.sample 4) [Battery.Charge (-6)]
              = Battery.sample 1).
  { cbn. rewrite charge_absorbed by (cbn; lra). same_battery. }
  split; [ | split; [exact E | rewrite E]];
    unfold Battery.soc_bounds, Battery.floor; cbn; lra.
Qed.

(** C3, as the code has it: a zero request is a no-op returning 0, for
    [charge] on a battery that is not above capacity and for [discharge] on
    a battery whose one-way efficiency is not zero; and on a battery at or
    below its reserve floor [discharge] is a no-op returning 0 for every
    request, negative ones included. *)
Theorem zero_request_is_noop (b : Battery.t) :
  (Battery.current_energy_kwh b <= Battery.capacity_kwh b ->
   Battery.charge b 0 = Ok (0, b)) /\
  (Battery.efficiency_ow b <> 0 ->
   Battery.discharge b 0 = Ok (0, b)) /\
  (Battery.current_energy_kwh b <= Battery.floor b ->
   forall x : R, Battery.discharge b x = Ok (0, b)).
Proof.
  split; [ | split].
  - intros H. rewrite charge_absorbed by lra. same_outcome.
  - intros He.
    destruct (Rle_lt_dec (Battery.current_energy_kwh b) (Battery.floor b)).
    + apply discharge_empty; assumption.
    + rewrite discharge_full by (try assumption; unfold Rdiv; lra).
      same_outcome.
  - intros H x. apply discharge_empty; assumption.
Qed.

Lemma zero_request_is_noop_witness :
  Battery.charge (Battery.sample 4) 0 = Ok (0, Battery.sample 4) /\
  Battery.discharge (Battery.sample 4) 0 = Ok (0, Battery.sample 4) /\
  Battery.discharge (Battery.sample 2) (-1) = Ok (0, Battery.sample 2).
Proof.
  split; [ | split].
  - apply (proj1 (zero_request_is_noop (Battery.sample 4))). cbn. lra.
  - apply (proj1 (proj2 (zero_request_is_noop (Battery.sample 4)))). cbn. lra.
  - apply (proj2 (proj2 (zero_request_is_noop (Battery.sample 2)))).
    unfold Battery.floor. cbn. lra.
Defined.

(** C3 fails as stated: on a battery holding 4 kWh (floor 2, capacity 8,
    one-way efficiency 0.5) [charge(-6)] returns -6 and leaves 1 kWh, and
    [discharge(-1)] returns -1 and leaves 6 kWh. *)
Lemma negative_request_is_not_noop :
  Battery.charge (Battery.sample 4) (-6) = Ok (-6, Battery.sample 1) /\
  Battery.charge (Battery.sample 4) (-6) <> Ok (0, Battery.sample 4) /\
  Battery.discharge (Battery.sample 4) (-1) = Ok (-1, Battery.sample 6) /\
  Battery.discharge (Battery.sample 4) (-1) <> Ok (0, Battery.sample 4).
Proof.
  assert (Ec : Battery.charge (Battery.sample 4) (-6) = Ok (-6, Battery.sample 1)).
  { rewrite charge_absorbed by (cbn; lra). same_outcome. }
  assert (Ed : Battery.discharge (Battery.sample 4) (-1) = Ok (-1, Battery.sample 6)).
  { rewrite discharge_full by (unfold Battery.floor; cbn; lra). same_outcome. }
  repeat split; try assumption.
  - rewrite Ec. intros [= H _]. lra.
  - rewrite Ed. intros [= H _]. lra.
Qed.

(** C5, as the code has it: each direction loses energy.  On a battery as
    [__init__] builds it with a round-trip efficiency of at most 1, the
    one-way efficiency is at most 1; a [charge(x)], [x >= 0], that is
    absorbed in full returns [x] and adds [x * efficiency_ow <= x] to the
    stored energy; a [discharge(y)], [y >= 0], that is not clipped returns
    [y] and takes [y / efficiency_ow >= y] from it. *)
Theorem each_way_loses_energy (b : Battery.t) (x y : R) :
  Battery.constructed b ->
  Battery.efficiency_rt b <= 1 ->
  0 <= x ->
  0 <= y ->
  Battery.efficiency_ow b <= 1 /\
  (x * Battery.efficiency_ow b
     <= Battery.capacity_kwh b - Battery.current_energy_kwh b ->
   Battery.charge b x =
     Ok (x, Battery.set_current_energy_kwh b
              (Battery.current_energy_kwh b + x * Battery.efficiency_ow b)) /\
   x * Battery.efficiency_ow b <= x) /\
  (Battery.floor b < Battery.current_energy_kwh b ->
   Battery.efficiency_ow b <> 0 ->
   y / Battery.efficiency_ow b
     <= Battery.current_energy_kwh b - Battery.floor b ->
   Battery.discharge b y =
     Ok (y, Battery.set_current_energy_kwh b
              (Battery.current_energy_kwh b - y / Battery.efficiency_ow b)) /\
   y <= y / Battery.efficiency_ow b).
Proof.
  intros Hc Hrt Hx Hy.
  destruct (constructed_efficiency_ow _ Hc) as [He Hsq].
  assert (Hle : Battery.efficiency_ow b <= 1) by nra.
  split; [exact Hle | split].
  - intros Hroom. split; [apply charge_absorbed; exact Hroom | nra].
  - intros Hf Hne Hroom. split; [apply discharge_full; assumption | ].
    assert (Hp : 0 < Battery.efficiency_ow b) by lra.
    apply (Rmult_le_reg_r (Battery.efficiency_ow b)); [exact Hp | ].
    replace (y / Battery.efficiency_ow b * Battery.efficiency_ow b) with y
      by (field; exact Hne).
    nra.
Qed.

(** On the sample battery holding 4 kWh: [charge(2)] stores 1 kWh and
    [discharge(0.25)] takes 0.5 kWh. *)
Lemma each_way_loses_energy_witness :
  Battery.efficiency_ow (Battery.sample 4) <= 1 /\
  Battery.charge (Battery.sample 4) 2 = Ok (2, Battery.sample 5) /\
  Battery.discharge (Battery.sample 4) 0.25 = Ok (0.25, Battery.sample 3.5).
Proof.
  destruct (each_way_loses_energy (Battery.sample 4) 2 0.25) as (He & Hc & Hd).
  - apply sample_constructed.
  - cbn. lra.
  - lra.
  - lra.
  - split; [exact He | split].
    + rewrite (proj1 (Hc ltac:(cbn; lra))). same_outcome.
    + rewrite (proj1 (Hd ltac:(unfold Battery.floor; cbn; lra)
                         ltac:(cbn; lra)
                         ltac:(unfold Battery.floor; cbn; lra))).
      same_outcome.
Defined.



(** ** Solar panel *)

Section SolarPanelFacts.

Import SolarPanel.

Variable panel : SolarPanel.t.

Lemma get_generation_night (hour cloud : R) :
  hour < 6 \/ 18 < hour -> get_generation panel hour cloud = 0.
Proof.
  intros [H | H]; unfold get_generation.
  - rewrite ltb_true by assumption. cbn. lra.
  - rewrite gtb_true by assumption. rewrite orb_true_r. lra.
Qed.

Lemma get_generation_day (hour cloud : R) :
  6 <= hour <= 18 ->
  get_generation panel hour cloud =
  Rmax 0 (peak_power_kw panel * sin ((hour - 6) * PI / 12) * (1 - cloud)).
Proof.
  intros [Hlo Hhi]. unfold get_generation.
  rewrite ltb_false, gtb_false by assumption. cbn.
  rewrite max_Rmax.
  replace ((hour - 6) * (PI / (18 - 6))) with ((hour - 6) * PI / 12) by field.
  f_equal. lra.
Qed.

Lemma get_generation_nonneg (hour cloud : R) :
  0 <= get_generation panel hour cloud.
Proof.
  unfold get_generation.
  destruct ((hour <? 6) || (hour >? 18)); [lra | ].
  rewrite max_Rmax.
  eapply Rle_trans; [ | apply Rmax_l]. lra.
Qed.

End SolarPanelFacts.

(** Inside the window, with the angle as the code computes it. *)
Lemma get_generation_window (panel : SolarPanel.t) (hour cloud : R) :
  6 <= hour <= 18 ->
  SolarPanel.get_generation panel hour cloud =
  Rmax 0 (SolarPanel.peak_power_kw panel * sin ((hour - 6) * (PI / 12))
          * (1 - cloud)).
Proof.
  intros [Hlo Hhi]. unfold SolarPanel.get_generation.
  rewrite ltb_false, gtb_false by assumption. cbn.
  rewrite max_Rmax.
  replace (18 - 6) with 12 by lra.
  f_equal. lra.
Qed.

(** C7, as the code has it: [get_generation] is 0 outside the window
    [[6, 18]] for every cloud value; at hour 12 under a clear sky it is
    [max(0, peak)], the peak power when that is not negative; it is 0 at
    hour 6; inside the window, hour 18 included, it is
    [max(0, peak * sin((hour - 6) * (pi / 12)) * (1 - cloud))]; and it is
    never negative. *)
Theorem get_generation_by_hour (panel : SolarPanel.t) (hour cloud : R) :
  (hour < 6 \/ 18 < hour -> SolarPanel.get_generation panel hour cloud = 0) /\
  SolarPanel.get_generation panel 12 0
    = Rmax 0 (SolarPanel.peak_power_kw panel) /\
  (0 <= SolarPanel.peak_power_kw panel ->
   SolarPanel.get_generation panel 12 0 = SolarPanel.peak_power_kw panel) /\
  SolarPanel.get_generation panel 6 cloud = 0 /\
  (6 <= hour <= 18 ->
   SolarPanel.get_generation panel hour cloud =
   Rmax 0 (SolarPanel.peak_power_kw panel
           * sin ((hour - 6) * (PI / 12)) * (1 - cloud))) /\
  0 <= SolarPanel.get_generation panel hour cloud.
Proof.
  assert (Hnoon : SolarPanel.get_generation panel 12 0
                  = Rmax 0 (SolarPanel.peak_power_kw panel)).
  { rewrite get_generation_window by lra.
    replace ((12 - 6) * (PI / 12)) with (PI / 2) by field.
    rewrite sin_PI2. f_equal. lra. }
  repeat split.
  - apply get_generation_night.
  - exact Hnoon.
  - intros Hp. rewrite Hnoon. apply Rmax_right. exact Hp.
  - rewrite get_generation_window by lra.
    replace ((6 - 6) * (PI / 12)) with 0 by field.
    rewrite sin_0, Rmult_0_r, Rmult_0_l, Rmax_left; lra.
  - apply get_generation_window.
  - apply get_generation_nonneg.
Qed.

(** The default 5 kW panel, at 3 am, at noon and at 3 pm. *)
Lemma get_generation_by_hour_witness :
  SolarPanel.get_generation (SolarPanel.init (SolarPanel.mk_config None)) 3 0.3 = 0 /\
  SolarPanel.get_generation (SolarPanel.init (SolarPanel.mk_config None)) 12 0 = 5.0 /\
  SolarPanel.get_generation (SolarPanel.init (SolarPanel.mk_config None)) 15 0.3
    = Rmax 0 (5.0 * sin ((15 - 6) * (PI / 12)) * (1 - 0.3)).
Proof.
  pose proof (get_generation_by_hour (SolarPanel.init (SolarPanel.mk_config None))
                3 0.3) as (Hnight & _ & Hnoon & _).
  pose proof (get_generation_by_hour (SolarPanel.init (SolarPanel.mk_config None))
                15 0.3) as (_ & _ & _ & _ & Hday & _).
  split; [ | split].
  - apply Hnight. left. lra.
  - apply Hnoon. cbn. lra.
  - apply Hday. lra.
Defined.

(** C7 fails as stated: a panel configured with a peak power of -5 kW
    returns 0 at hour 12 under a clear sky, not its peak power. *)
Lemma negative_peak_gives_nothing_at_noon :
  SolarPanel.get_generation
    (SolarPanel.init (SolarPanel.mk_config (Some (-5)))) 12 0 = 0 /\
  SolarPanel.get_generation
    (SolarPanel.init (SolarPanel.mk_config (Some (-5)))) 12 0
  <> SolarPanel.peak_power_kw
       (SolarPanel.init (SolarPanel.mk_config (Some (-5)))).
Proof.
  assert (E : SolarPanel.get_generation
                (SolarPanel.init (SolarPanel.mk_config (Some (-5)))) 12 0 = 0).
  { rewrite get_generation_window by lra. cbn.
    replace ((12 - 6) * (PI / 12)) with (PI / 2) by field.
    rewrite sin_PI2. apply Rmax_left. lra. }
  split; [exact E | rewrite E; cbn; lra].
Qed.

(** ** Inverter *)

Section InverterFacts.

Import Inverter.

Lemma randint_range (a b n : Z) (g g' : rng) :
  Py.randint a b g = Ok (n, g') -> (a <= n <= b)%Z.
Proof.
  unfold Py.randint. destruct (Z.leb_spec a b) as [Hab | Hab]; [ | discriminate].
  intros [= <- _].
  pose proof (Z.mod_pos_bound (Z.of_nat (tape_int g (cursor g))) (b - a + 1)).
  lia.
Qed.

Lemma randint_returns (a b : Z) (g : rng) :
  (a <= b)%Z -> exists n : Z, Py.randint a b g = Ok (n, advance g).
Proof.
  intros Hab. unfold Py.randint.
  destruct (Z.leb_spec a b) as [_ | H]; [eauto | lia].
Qed.

Variable s : Inverter.t.

(** The roll leaves the inverter working when the draw is not below the
    failure probability. *)
Lemma roll_passes (g : rng) :
  failure_probability s <= tape_float g (cursor g) ->
  roll s g = Ok (true, s, advance g).
Proof. intros H. unfold roll. cbn. rewrite ltb_false by assumption. reflexivity. Qed.

(** A roll that answers [False] has broken the inverter and drawn its
    repair time in the configured range. *)
Lemma roll_fails (g g' : rng) (s' : Inverter.t) :
  roll s g = Ok (false, s', g') ->
  is_broken s' = true /\
  (min_repair_time s <= hours_until_repair s' <= max_repair_time s)%Z /\
  max_output_kw s' = max_output_kw s /\
  failure_probability s' = failure_probability s /\
  min_repair_time s' = min_repair_time s /\
  max_repair_time s' = max_repair_time s.
Proof.
  unfold roll. cbn.
  destruct (tape_float g (cursor g) <? failure_probability s); [ | discriminate].
  destruct (Py.randint (min_repair_time s) (max_repair_time s) (advance g))
    as [[h g1] | e] eqn:Hr; cbn; [ | discriminate].
  intros [= <- <-]. apply randint_range in Hr. cbn. repeat split; lia.
Qed.

(** A broken inverter with more than one hour to go stays broken: the
    call answers [False], counts one hour down and draws nothing. *)
Lemma check_status_still_broken (g : rng) :
  is_broken s = true ->
  (1 < hours_until_repair s)%Z ->
  check_status s g =
  Ok (false, set_hours_until_repair s (hours_until_repair s - 1), g).
Proof.
  intros Hb Hh. unfold check_status. rewrite Hb. cbn.
  destruct (Z.leb_spec (hours_until_repair s - 1) 0); [lia | reflexivity].
Qed.

(** With at most one hour to go, the same call completes the repair and
    then rolls for a new failure. *)
Lemma check_status_repairs (g : rng) :
  is_broken s = true ->
  (hours_until_repair s <= 1)%Z ->
  check_status s g =
  roll (set_is_broken
          (set_hours_until_repair s (hours_until_repair s - 1)) false) g.
Proof.
  intros Hb Hh. unfold check_status. rewrite Hb. cbn.
  destruct (Z.leb_spec (hours_until_repair s - 1) 0); [reflexivity | lia].
Qed.

Lemma check_status_working (g : rng) :
  is_broken s = false -> check_status s g = roll s g.
Proof. intros Hb. unfold check_status. rewrite Hb. reflexivity. Qed.

(** [check_status] answers whether the inverter is working afterwards. *)
Lemma check_status_answer (g g' : rng) (s' : Inverter.t) (working : bool) :
  check_status s g = Ok (working, s', g') ->
  is_broken s' = true ->
  working = false.
Proof.
  destruct working; [ | reflexivity].
  unfold check_status, roll. cbn.
  destruct (is_broken s) eqn:Hb; cbn.
  - destruct (hours_until_repair s - 1 <=? 0)%Z; [ | discriminate].
    destruct (_ <? _); [ | intros [= <- _]; cbn; discriminate].
    destruct (Py.randint _ _ _) as [[? ?] | ?]; cbn; discriminate.
  - destruct (_ <? _); [ | intros [= <- _]; congruence].
    destruct (Py.randint _ _ _) as [[? ?] | ?]; cbn; discriminate.
Qed.

End InverterFacts.

Section InverterRuns.

Import Inverter.

(** The sample inverter starts as [__init__] leaves the default one. *)
Lemma init_sample_inverter :
  init (mk_config None None None None) = sample false 0.
Proof. reflexivity. Qed.

Lemma set_hours_until_repair_same (s : Inverter.t) :
  set_hours_until_repair s (hours_until_repair s) = s.
Proof. destruct s; reflexivity. Qed.

(** While the repair counter stays above the number of calls made, every
    call returns 0, counts one hour down and draws nothing. *)
Lemma clip_steps_outage (inputs : list R) :
  forall (s : Inverter.t) (g : rng),
    is_broken s = true ->
    (Z.of_nat (List.length inputs) < hours_until_repair s)%Z ->
    clip_steps s inputs g =
    Ok (map (fun _ => 0) inputs,
        set_hours_until_repair s
          (hours_until_repair s - Z.of_nat (List.length inputs)),
        g).
Proof.
  induction inputs as [ | dc inputs IH]; intros s g Hb Hh.
  - cbn. rewrite Z.sub_0_r, set_hours_until_repair_same. reflexivity.
  - cbn [clip_steps List.length] in *. unfold clip_power at 1.
    rewrite check_status_still_broken by (assumption || lia). cbn [bind negb].
    rewrite IH by (cbn; (assumption || lia)). cbn [bind map].
    change (hours_until_repair
              (set_hours_until_repair s (hours_until_repair s - 1)))
      with (hours_until_repair s - 1)%Z.
    replace (hours_until_repair s - 1 - Z.of_nat (List.length inputs))%Z
      with (hours_until_repair s - Z.of_nat (S (List.length inputs)))%Z by lia.
    replace 0.0 with 0 by lra. reflexivity.
Qed.

Lemma clip_steps_app (inputs inputs' : list R) :
  forall (s s1 : Inverter.t) (g g1 : rng) (acs : list R),
    clip_steps s inputs g = Ok (acs, s1, g1) ->
    clip_steps s (inputs ++ inputs') g =
    ('(acs', s2, g2) <- clip_steps s1 inputs' g1 ;; Ok (acs ++ acs', s2, g2)).
Proof.
  induction inputs as [ | dc inputs IH]; intros s s1 g g1 acs; cbn.
  - intros [= <- <- <-]. destruct (clip_steps s inputs' g) as [[[? ?] ?] | ?];
      reflexivity.
  - destruct (clip_power s dc g) as [[[ac sa] ga] | e]; cbn; [ | discriminate].
    destruct (clip_steps sa inputs ga) as [[[acs0 sb] gb] | e] eqn:Hrest; cbn;
      [ | discriminate].
    intros [= <- <- <-]. rewrite (IH _ _ _ _ _ Hrest).
    destruct (clip_steps sb inputs' gb) as [[[? ?] ?] | ?]; reflexivity.
Qed.

End InverterRuns.

(** C6: take a [clip_power] call that rolls for a failure and leaves the
    inverter broken.  That call returns 0 and the repair time [d] it drew is
    an integer of [[min_repair_time, max_repair_time]].  The next [d - 1]
    calls return exactly 0, so the outage spans [d] steps; the call after
    them completes the repair and, when its roll leaves the inverter
    working, returns [min(dc, max_output_kw)]. *)
Theorem outage_until_repaired
    (s0 s : Inverter.t) (g0 g : rng) (dc0 out0 : R) :
  Inverter.is_broken s0 = false \/ (Inverter.hours_until_repair s0 <= 1)%Z ->
  Inverter.clip_power s0 dc0 g0 = Ok (out0, s, g) ->
  Inverter.is_broken s = true ->
  out0 = 0 /\
  (Inverter.min_repair_time s0 <= Inverter.hours_until_repair s
   <= Inverter.max_repair_time s0)%Z /\
  forall (outage : list R) (dc : R),
    Inverter.hours_until_repair s = (Z.of_nat (List.length outage) + 1)%Z ->
    Inverter.clip_steps s outage g =
      Ok (map (fun _ => 0) outage, Inverter.set_hours_until_repair s 1, g) /\
    (Inverter.failure_probability s <= tape_float g (cursor g) ->
     Inverter.clip_steps s (outage ++ [dc]) g =
       Ok (map (fun _ => 0) outage ++ [Rmin dc (Inverter.max_output_kw s)],
           Inverter.set_is_broken (Inverter.set_hours_until_repair s 0) false,
           advance g)).
Proof.
  intros Hroll Hclip Hb.
  unfold Inverter.clip_power in Hclip.
  destruct (Inverter.check_status s0 g0) as [[[working s1] g1] | e] eqn:Hcs;
    cbn in Hclip; [ | discriminate].
  assert (s1 = s /\ g1 = g) as [-> ->].
  { destruct working; cbn in Hclip; injection Hclip; auto. }
  pose proof (check_status_answer _ _ _ _ _ Hcs Hb) as ->.
  cbn in Hclip. injection Hclip as Hout.
  assert (Hrange : (Inverter.min_repair_time s0 <= Inverter.hours_until_repair s
                    <= Inverter.max_repair_time s0)%Z).
  { destruct (Inverter.is_broken s0) eqn:Hb0.
    - destruct Hroll as [Hroll | Hroll]; [discriminate | ].
      rewrite check_status_repairs in Hcs by assumption.
      apply roll_fails in Hcs. cbn in Hcs. tauto.
    - rewrite check_status_working in Hcs by assumption.
      apply roll_fails in Hcs. tauto. }
  split; [lra | split; [exact Hrange | ]].
  intros outage dc Hd.
  assert (Hpre : Inverter.clip_steps s outage g =
                 Ok (map (fun _ => 0) outage,
                     Inverter.set_hours_until_repair s 1, g)).
  { rewrite clip_steps_outage by (assumption || lia).
    replace (Inverter.hours_until_repair s - Z.of_nat (List.length outage))%Z
      with 1%Z by lia.
    reflexivity. }
  split; [exact Hpre | intros Hu].
  rewrite (clip_steps_app _ [dc] _ _ _ _ _ Hpre).
  cbn [Inverter.clip_steps]. unfold Inverter.clip_power.
  rewrite check_status_repairs by (cbn; (assumption || lia)).
  rewrite roll_passes by exact Hu.
  cbn. rewrite min_Rmin. reflexivity.
Qed.

(** The default inverter fails on its first call and draws 4 hours: that
    call and the next three return 0, the fourth returns [min(5, 4)]. *)
Lemma outage_until_repaired_witness :
  Inverter.clip_power (Inverter.sample false 0) 5 Inverter.sample_rng
    = Ok (0.0, Inverter.sample true 4, advance (advance Inverter.sample_rng)) /\
  Inverter.clip_steps (Inverter.sample true 4) [3; 3; 3; 5]
      (advance (advance Inverter.sample_rng))
    = Ok ([0; 0; 0; Rmin 5 4.0], Inverter.sample false 0,
          advance (advance (advance Inverter.sample_rng))).
Proof.
  assert (E : Inverter.clip_power (Inverter.sample false 0) 5 Inverter.sample_rng
              = Ok (0.0, Inverter.sample true 4,
                    advance (advance Inverter.sample_rng))).
  { unfold Inverter.clip_power, Inverter.check_status, Inverter.roll. cbn.
    rewrite ltb_true by lra. reflexivity. }
  split; [exact E | ].
  destruct (outage_until_repaired (Inverter.sample false 0)
              (Inverter.sample true 4) Inverter.sample_rng
              (advance (advance Inverter.sample_rng)) 5 0.0
              (or_introl eq_refl) E eq_refl)
    as (_ & _ & H).
  destruct (H [3; 3; 3] 5 eq_refl) as [_ H'].
  apply H'. cbn. lra.
Defined.

(** C10: on a broken inverter whose repair counter is 1, one [check_status]
    call completes the repair and then rolls for a new failure; so, the
    failure probability being positive, some draw makes that very call
    answer [False] and leave the inverter broken again with a freshly drawn
    repair time. *)
Theorem repair_then_refail (s : Inverter.t) :
  Inverter.is_broken s = true ->
  Inverter.hours_until_repair s = 1%Z ->
  0 < Inverter.failure_probability s ->
  (Inverter.min_repair_time s <= Inverter.max_repair_time s)%Z ->
  (forall g : rng,
      Inverter.check_status s g =
      Inverter.roll
        (Inverter.set_is_broken (Inverter.set_hours_until_repair s 0) false) g) /\
  exists (g g' : rng) (s' : Inverter.t),
    fair g /\
    Inverter.check_status s g = Ok (false, s', g') /\
    Inverter.is_broken s' = true /\
    (Inverter.min_repair_time s <= Inverter.hours_until_repair s'
     <= Inverter.max_repair_time s)%Z.
Proof.
  intros Hb Hh Hp Hmm.
  assert (Hcs : forall g : rng,
             Inverter.check_status s g =
             Inverter.roll
               (Inverter.set_is_broken
                  (Inverter.set_hours_until_repair s 0) false) g).
  { intros g. rewrite check_status_repairs by (assumption || lia).
    rewrite Hh. reflexivity. }
  split; [exact Hcs | ].
  set (g := mk_rng (fun _ => 0) (fun _ => O) O).
  destruct (randint_returns _ _ (advance g) Hmm) as [h Hr].
  assert (Hroll : Inverter.check_status s g =
                  Ok (false,
                      Inverter.set_hours_until_repair
                        (Inverter.set_is_broken s true) h,
                      advance (advance g))).
  { rewrite Hcs. unfold Inverter.roll. cbn.
    rewrite ltb_true by exact Hp. cbn in Hr. rewrite Hr. reflexivity. }
  exists g, (advance (advance g)),
    (Inverter.set_hours_until_repair (Inverter.set_is_broken s true) h).
  split; [intros n; cbn; lra | ].
  split; [exact Hroll | ].
  rewrite Hcs in Hroll. apply roll_fails in Hroll. cbn in Hroll. tauto.
Qed.

Lemma repair_then_refail_witness :
  Inverter.check_status (Inverter.sample true 1) Inverter.sample_rng
    = Inverter.roll (Inverter.sample false 0) Inverter.sample_rng /\
  exists (g g' : rng) (s' : Inverter.t),
    fair g /\
    Inverter.check_status (Inverter.sample true 1) g = Ok (false, s', g') /\
    Inverter.is_broken s' = true /\
    (4 <= Inverter.hours_until_repair s' <= 72)%Z.
Proof.
  destruct (repair_then_refail (Inverter.sample true 1)) as [Hcs Hex].
  - reflexivity.
  - reflexivity.
  - cbn. lra.
  - cbn. lia.
  - split; [apply Hcs | exact Hex].
Defined.

(** ** Dispatch strategy *)

Section StrategyFacts.

Import EnergyManager.

Lemma flow_ext (log log' : FlowRecord) :
  solar_to_load log = solar_to_load log' ->
  solar_to_battery log = solar_to_battery log' ->
  solar_to_grid log = solar_to_grid log' ->
  grid_import log = grid_import log' ->
  battery_discharge log = battery_discharge log' ->
  curtailed log = curtailed log' ->
  log = log'.
Proof. destruct log, log'; cbn; intros; subst; reflexivity. Qed.

(** The name decides among three procedures; an unknown name runs the
    first. *)
Lemma decide_energy_flow_dispatch (self : EnergyManager.t)
    (solar load grid_limit : R) (b : Battery.t) :
  let finish (r : result (Battery.t * FlowRecord)) :=
    ('(battery, flow_log) <- r ;; Ok (flow_log, battery)) in
  decide_energy_flow self solar load b grid_limit
    = finish (_run_load_priority solar load b grid_limit empty_log) \/
  decide_energy_flow self solar load b grid_limit
    = finish (_run_charge_priority solar load b grid_limit empty_log) \/
  decide_energy_flow self solar load b grid_limit
    = finish (_run_produce_priority solar load b grid_limit empty_log).
Proof.
  unfold decide_energy_flow. cbn.
  destruct (String.eqb (strategy_name self) "LOAD_PRIORITY"); [auto | ].
  destruct (String.eqb (strategy_name self) "CHARGE_PRIORITY"); [auto | ].
  destruct (String.eqb (strategy_name self) "PRODUCE_PRIORITY"); auto.
Qed.

End StrategyFacts.

(** One step through a dispatch procedure: the outcome of the next battery
    call or of the next comparison. *)
Ltac dispatch_step :=
  match goal with
  | |- context [Battery.discharge ?b ?x] =>
      let Hd := fresh "Hd" in
      destruct (Battery.discharge b x) as [[? ?] | ?] eqn:Hd
  | |- context [Battery.charge ?b ?x] =>
      let Hc := fresh "Hc" in
      destruct (Battery.charge b x) as [[? ?] | ?] eqn:Hc
  | |- context [?a <? ?b] => destruct (ltb_cases a b) as [[? ->] | [? ->]]
  | |- context [?a >=? ?b] => destruct (geb_cases a b) as [[? ->] | [? ->]]
  | |- context [?a >? ?b] => destruct (gtb_cases a b) as [[? ->] | [? ->]]
  end; cbn.

(** A battery call that raised did so on a zero one-way efficiency, which
    the calls before it left as it was. *)
Ltac raised :=
  repeat match goal with
    | H : Battery.charge _ _ = Ok _ |- _ =>
        apply charge_returns in H; destruct H as [(_ & _ & _ & ?) _]
    | H : Battery.discharge _ _ = Ok _ |- _ =>
        apply discharge_returns in H; destruct H as [(_ & _ & _ & ?) _]
    | H : Battery.charge _ _ = Raise _ |- _ => apply charge_raises in H
    | H : Battery.discharge _ _ = Raise _ |- _ => apply discharge_raises in H
    end;
  congruence.


(** Evaluates a dispatch on concrete numbers, one battery call at a time. *)
Ltac run_dispatch :=
  repeat (eval_cmp; cbn;
          try rewrite charge_clipped by (cbn; lra);
          try rewrite charge_absorbed by (cbn; lra);
          try rewrite discharge_empty by (unfold Battery.floor; cbn; lra);
          try rewrite discharge_full by (unfold Battery.floor; cbn; lra);
          try rewrite discharge_clipped by (unfold Battery.floor; cbn; lra)).

Section DispatchExamples.

Import EnergyManager.

(** 10 kW of solar, a 2 kW load, a full battery and a 5 kW export limit,
    under each policy. *)
Lemma load_priority_full_battery :
  decide_energy_flow load_priority 10 2 (Battery.sample 8) 5
  = Ok (mk_flow 2 0 5 0 0 3, Battery.sample 8).
Proof.
  unfold decide_energy_flow, load_priority, _run_load_priority, Py.min.
  run_dispatch.
  f_equal. f_equal; [apply flow_ext; cbn; lra | same_battery].
Qed.

Lemma produce_priority_full_battery :
  decide_energy_flow produce_priority 10 2 (Battery.sample 8) 5
  = Ok (mk_flow 2 0 5 0 0 3, Battery.sample 8).
Proof.
  unfold decide_energy_flow, produce_priority, _run_produce_priority, Py.min.
  run_dispatch.
  f_equal. f_equal; [apply flow_ext; cbn; lra | same_battery].
Qed.

(** 2 kW of solar and a 3 kW load on a battery holding 6 kWh: the battery
    delivers the 1 kW deficit and drains 2 kWh for it. *)
Lemma load_priority_deficit :
  decide_energy_flow load_priority 2 3 (Battery.sample 6) 5
  = Ok (mk_flow 2 0 0 0 1 0, Battery.sample 4).
Proof.
  unfold decide_energy_flow, load_priority, _run_load_priority, Py.min.
  run_dispatch.
  f_equal. f_equal; [apply flow_ext; cbn; lra | same_battery].
Qed.

(** 2 kW of solar and a 5 kW load on a full battery: the battery delivers
    the whole 3 kW deficit, nothing is imported. *)
Lemma load_priority_battery_covers :
  decide_energy_flow load_priority 2 5 (Battery.sample 8) 5
  = Ok (mk_flow 2 0 0 0 3 0, Battery.sample 2).
Proof.
  unfold decide_energy_flow, load_priority, _run_load_priority, Py.min.
  run_dispatch.
  f_equal. f_equal; [apply flow_ext; cbn; lra | same_battery].
Qed.

(** Under [CHARGE_PRIORITY] the battery takes the solar first and is not
    discharged for the load: the 3 kW load is imported. *)
Lemma charge_priority_imports :
  decide_energy_flow charge_priority 2 3 (Battery.sample 6) 5
  = Ok (mk_flow 0 2 0 3 0 0, Battery.sample 7).
Proof.
  unfold decide_energy_flow, charge_priority, _run_charge_priority, Py.min.
  run_dispatch.
  f_equal. f_equal; [apply flow_ext; cbn; lra | same_battery].
Qed.

(** A missing name is [LOAD_PRIORITY], and so is an unknown one. *)
Lemma init_default : init (mk_config None) = load_priority.
Proof. reflexivity. Qed.

Lemma unknown_name_falls_back (solar load grid_limit : R) (b : Battery.t) :
  decide_energy_flow (mk "ECO") solar load b grid_limit
  = decide_energy_flow load_priority solar load b grid_limit.
Proof. reflexivity. Qed.

End DispatchExamples.

Section DispatchAccounts.

Import EnergyManager.

Variables (solar load grid_limit : R) (b : Battery.t).

(** *** What is imported *)




(** *** What is curtailed *)




End DispatchAccounts.




Section ProducePriority.

Import EnergyManager.

Variables (solar load grid_limit : R) (b : Battery.t).

(** What is curtailed under [PRODUCE_PRIORITY]: the solar left after
    export, charging and load. *)
Lemma produce_priority_curtails :
  dispatched b
    (fun log =>
       solar_to_grid log = Rmin solar grid_limit /\
       curtailed log =
         Rmax 0 (solar - solar_to_grid log - solar_to_battery log - load))
    (_run_produce_priority solar load b grid_limit empty_log).
Proof.
  unfold dispatched, _run_produce_priority. rewrite min_Rmin.
  repeat dispatch_step; try raised.
  all: split; [reflexivity | ].
  all: unfold Rmax; destruct (Rle_dec _ _); lra.
Qed.

End ProducePriority.

(** C4, as the code has it: under [PRODUCE_PRIORITY] the [curtailed] field
    is [max(0, solar - solar_to_grid - solar_to_battery - load_demand)],
    where [solar_to_grid = min(solar, grid_limit)]: zero when the solar left
    after export and charging does not exceed the load, and the surplus
    over the load otherwise. *)
Theorem produce_priority_curtailed
    (solar_gen_kw load_demand_kw grid_limit_kw : R) (battery : Battery.t) :
  match EnergyManager.decide_energy_flow EnergyManager.produce_priority
          solar_gen_kw load_demand_kw battery grid_limit_kw with
  | Ok (log, _) =>
      EnergyManager.solar_to_grid log = Rmin solar_gen_kw grid_limit_kw /\
      EnergyManager.curtailed log =
        Rmax 0 (solar_gen_kw - EnergyManager.solar_to_grid log
                - EnergyManager.solar_to_battery log - load_demand_kw)
  | Raise _ => Battery.efficiency_ow battery = 0
  end.
Proof.
  pose proof (produce_priority_curtails solar_gen_kw load_demand_kw
                grid_limit_kw battery) as H.
  unfold EnergyManager.decide_energy_flow, EnergyManager.produce_priority.
  cbn [EnergyManager.strategy_name String.eqb Ascii.eqb Bool.eqb].
  destruct (EnergyManager._run_produce_priority _ _ _ _ _) as [[b' log] | e];
    exact H.
Qed.

(** C4 fails as stated: with 10 kW of solar, a 2 kW load, a 5 kW export
    limit and a full battery, [PRODUCE_PRIORITY] exports 5, charges 0,
    serves 2 and curtails 3. *)
Lemma produce_priority_curtails_surplus :
  EnergyManager.decide_energy_flow EnergyManager.produce_priority 10 2
    (Battery.sample 8) 5
  = Ok (EnergyManager.mk_flow 2 0 5 0 0 3, Battery.sample 8) /\
  EnergyManager.curtailed (EnergyManager.mk_flow 2 0 5 0 0 3) <> 0.
Proof.
  split; [apply produce_priority_full_battery | cbn; lra].
Qed.

(** ** The program on binary64 inputs

    Runs of [Float64], the battery and the dispatch over the arithmetic of
    the interpreter. *)

Section Binary64Runs.

Import PrimFloat.
Import Float64.
Local Open Scope float_scope.

(** The default battery built half full: 6.75 kWh of 13.5, above a floor
    of 0.675 kWh, with a round-trip efficiency of 0.9. *)
Lemma default_battery_half_full :
  exists b : Battery.t,
    Battery.init (Battery.default_config 0.5) = Ok b /\
    Battery.capacity_kwh b = 13.5 /\
    Battery.current_energy_kwh b = 6.75 /\
    Battery.floor b = 0.675 /\
    Battery.efficiency_rt b = 0.9.
Proof. eexists. split; [vm_compute; reflexivity | ]. repeat split. Qed.

(** A clipped [discharge] can land below the reserve floor:
    [discharge(100)] on the default battery holding 6.75 kWh leaves
    [6.75 - (6.75 - 0.675)], which rounds to 0.6749999999999998. *)
Lemma discharge_lands_below_floor :
  exists (delivered : float) (b b' : Battery.t),
    Battery.init (Battery.default_config 0.5) = Ok b /\
    Battery.discharge b 100 = Ok (delivered, b') /\
    Battery.current_energy_kwh b' = 0.6749999999999998 /\
    Battery.floor b' = 0.675 /\
    (Battery.current_energy_kwh b' <? Battery.floor b') = true.
Proof.
  eexists _, _, _. split; [vm_compute; reflexivity | ].
  split; [vm_compute; reflexivity | ]. repeat split.
Qed.

(** A clipped [charge] can land above the capacity: on a battery of
    0.3 kWh built holding 0.03 kWh, [charge(1000)] leaves
    [0.03 + (0.3 - 0.03)], which rounds to 0.30000000000000004; the next
    [charge] then reports a negative input. *)
Lemma charge_lands_above_capacity :
  exists (taken taken' : float) (b b' b'' : Battery.t),
    Battery.init (Battery.mk_config (Some 0.3) None None (Some 0.1)) = Ok b /\
    Battery.charge b 1000 = Ok (taken, b') /\
    Battery.current_energy_kwh b' = 0.30000000000000004 /\
    (Battery.capacity_kwh b' <? Battery.current_energy_kwh b') = true /\
    Battery.charge b' 3 = Ok (taken', b'') /\
    (taken' <? 0) = true.
Proof.
  eexists _, _, _, _, _. split; [vm_compute; reflexivity | ].
  split; [vm_compute; reflexivity | ].
  split; [reflexivity | ]. split; [reflexivity | ].
  split; [vm_compute; reflexivity | ]. reflexivity.
Qed.

(** C5 fails as stated: on the default battery holding 6.75 kWh,
    [charge(1e-16)] is absorbed in full and [discharge(3e-16)], not
    clipped, leaves the stored energy at its level before the charge: the
    round trip delivers three times its input.  At ordinary sizes the
    delivered energy misses [x * efficiency] by a rounding error:
    [charge(1)] followed by the [discharge] that brings the stored energy
    back delivers 0.9000000000000001, not [1 * 0.9]. *)
Lemma round_trip_gives_back_more :
  exists b b1 b2 : Battery.t,
    Battery.init (Battery.default_config 0.5) = Ok b /\
    Battery.charge b 1e-16 = Ok (1e-16, b1) /\
    Battery.discharge b1 3e-16 = Ok (3e-16, b2) /\
    Battery.current_energy_kwh b2 = Battery.current_energy_kwh b /\
    (3e-16 <? 1e-16) = false /\
    exists b3 b4 : Battery.t,
      Battery.charge b 1 = Ok (1, b3) /\
      Battery.discharge b3 0.9000000000000001 = Ok (0.9000000000000001, b4) /\
      Battery.current_energy_kwh b4 = Battery.current_energy_kwh b /\
      (0.9000000000000001 =? 1 * Battery.efficiency_rt b) = false.
Proof.
  eexists _, _, _. split; [vm_compute; reflexivity | ].
  split; [vm_compute; reflexivity | ].
  split; [vm_compute; reflexivity | ].
  split; [reflexivity | ]. split; [reflexivity | ].
  eexists _, _. split; [vm_compute; reflexivity | ].
  split; [vm_compute; reflexivity | ].
  split; reflexivity.
Qed.



End Binary64Runs.

(** * Further properties of the code *)

(** ** Battery: accounting, bounds and errors *)

(** X2: on a battery that is not above capacity and whose one-way
    efficiency is not negative, [charge] of a non-negative input returns;
    it reports between 0 and the input and never lowers the stored
    energy. *)
Theorem charge_is_bounded (b : Battery.t) (x : R) :
  0 <= Battery.efficiency_ow b ->
  Battery.current_energy_kwh b <= Battery.capacity_kwh b ->
  0 <= x ->
  exists (r : R) (b' : Battery.t),
    Battery.charge b x = Ok (r, b') /\
    0 <= r <= x /\
    Battery.current_energy_kwh b <= Battery.current_energy_kwh b' /\
    Battery.same_constants b b'.
Proof.
  intros He Hcap Hx.
  destruct (Rle_lt_dec (x * Battery.efficiency_ow b)
              (Battery.capacity_kwh b - Battery.current_energy_kwh b))
    as [Hroom | Hfull].
  - eexists _, _. split; [apply charge_absorbed; assumption | ].
    cbn. repeat split; try lra. nra.
  - assert (Hp : 0 < Battery.efficiency_ow b) by nra.
    eexists _, _. split; [apply charge_clipped; lra | ].
    cbn. assert (H0 : 0 <= (Battery.capacity_kwh b - Battery.current_energy_kwh b)
                          / Battery.efficiency_ow b).
    { apply Rmult_le_pos; [lra | ]. left. apply Rinv_0_lt_compat. exact Hp. }
    repeat split; try lra.
    apply (Rmult_le_reg_r (Battery.efficiency_ow b)); [exact Hp | ].
    replace ((Battery.capacity_kwh b - Battery.current_energy_kwh b)
             / Battery.efficiency_ow b * Battery.efficiency_ow b)
      with (Battery.capacity_kwh b - Battery.current_energy_kwh b)
      by (field; lra).
    lra.
Qed.

Lemma charge_is_bounded_witness :
  exists (r : R) (b' : Battery.t),
    Battery.charge (Battery.sample 4) 100 = Ok (r, b') /\
    0 <= r <= 100 /\
    4 <= Battery.current_energy_kwh b' /\
    Battery.same_constants (Battery.sample 4) b'.
Proof.
  apply (charge_is_bounded (Battery.sample 4) 100); cbn; lra.
Defined.

(** X4: on a battery whose one-way efficiency is positive, [discharge] of a
    non-negative request returns; it delivers between 0 and the request,
    never raises the stored energy, and leaves a battery at or below its
    reserve floor as it is. *)
Theorem discharge_is_bounded (b : Battery.t) (x : R) :
  0 < Battery.efficiency_ow b ->
  0 <= x ->
  exists (r : R) (b' : Battery.t),
    Battery.discharge b x = Ok (r, b') /\
    0 <= r <= x /\
    Battery.current_energy_kwh b' <= Battery.current_energy_kwh b /\
    (Battery.current_energy_kwh b <= Battery.floor b -> b' = b) /\
    Battery.same_constants b b'.
Proof.
  intros He Hx.
  assert (Hq : 0 <= x / Battery.efficiency_ow b).
  { apply Rmult_le_pos; [lra | ]. left. apply Rinv_0_lt_compat. exact He. }
  destruct (Rle_lt_dec (Battery.current_energy_kwh b) (Battery.floor b))
    as [Hlow | Hhigh].
  - exists 0, b. split; [apply discharge_empty; assumption | ].
    repeat split; auto; lra.
  - destruct (Rle_lt_dec (x / Battery.efficiency_ow b)
                (Battery.current_energy_kwh b - Battery.floor b))
      as [Hroom | Hclip].
    + eexists _, _. split; [apply discharge_full; lra | ].
      cbn. repeat split; try lra.
    + eexists _, _. split; [apply discharge_clipped; lra | ].
      cbn. repeat split; try lra; try nra.
      apply (Rmult_lt_compat_r (Battery.efficiency_ow b)) in Hclip;
        [ | exact He].
      replace (x / Battery.efficiency_ow b * Battery.efficiency_ow b)
        with x in Hclip by (field; lra).
      lra.
Qed.

Lemma discharge_is_bounded_witness :
  exists (r : R) (b' : Battery.t),
    Battery.discharge (Battery.sample 4) 100 = Ok (r, b') /\
    0 <= r <= 100 /\
    Battery.current_energy_kwh b' <= 4 /\
    (4 <= Battery.floor (Battery.sample 4) -> b' = Battery.sample 4) /\
    Battery.same_constants (Battery.sample 4) b'.
Proof.
  apply (discharge_is_bounded (Battery.sample 4) 100); cbn; lra.
Defined.

(** X5: the only exception of the two methods is the division by a zero
    one-way efficiency: [discharge] raises exactly on a battery above its
    reserve floor whose one-way efficiency is 0, and [charge] exactly on a
    battery above its capacity whose one-way efficiency is 0. *)
Theorem battery_raises_iff (b : Battery.t) (x : R) (e : exn) :
  (Battery.discharge b x = Raise e <->
   e = ZeroDivisionError /\ Battery.efficiency_ow b = 0 /\
   Battery.floor b < Battery.current_energy_kwh b) /\
  (Battery.charge b x = Raise e <->
   e = ZeroDivisionError /\ Battery.efficiency_ow b = 0 /\
   Battery.capacity_kwh b < Battery.current_energy_kwh b).
Proof.
  split; split.
  - intros H. pose proof (discharge_raises _ _ _ H) as He.
    destruct (Rle_lt_dec (Battery.current_energy_kwh b) (Battery.floor b))
      as [Hlow | Hhigh].
    + rewrite discharge_empty in H by assumption. discriminate.
    + revert H. unfold Battery.discharge, Battery.floor in *.
      rewrite leb_false by lra. rewrite He, div_zero. cbn.
      intros [= <-]. auto.
  - intros (-> & He & Hhigh). unfold Battery.discharge, Battery.floor in *.
    rewrite leb_false by lra. rewrite He, div_zero. reflexivity.
  - intros H. pose proof (charge_raises _ _ _ H) as He.
    destruct (Rle_lt_dec (Battery.current_energy_kwh b) (Battery.capacity_kwh b))
      as [Hlow | Hhigh].
    + rewrite charge_absorbed in H by (rewrite He; lra). discriminate.
    + revert H. unfold Battery.charge.
      rewrite gtb_true by (rewrite He; lra). rewrite He, div_zero. cbn.
      intros [= <-]. auto.
  - intros (-> & He & Hhigh). unfold Battery.charge.
    rewrite gtb_true by (rewrite He; lra). rewrite He, div_zero. reflexivity.
Qed.

(** X6: [Battery.__init__] raises exactly when the configured round-trip
    efficiency (0.90 when absent) is negative, and the exception is the
    domain error of the square root. *)
Theorem battery_init_raises_iff (config_data : Battery.config) (e : exn) :
  Battery.init config_data = Raise e <->
  e = ValueError /\ get (Battery.efficiency config_data) 0.90 < 0.
Proof.
  unfold Battery.init, Py.sqrt.
  destruct (ltb_cases (get (Battery.efficiency config_data) 0.90) 0)
    as [[H ->] | [H ->]]; cbn; split.
  - intros [= <-]. auto.
  - intros [-> _]. reflexivity.
  - discriminate.
  - intros [_ Hneg]. lra.
Qed.

(** X7: built with a capacity and a round-trip efficiency that are not
    negative and with [discharge_depth <= initial_state <= 1], a battery
    starts within its state-of-charge bounds. *)
Theorem battery_init_within_bounds (config_data : Battery.config) :
  0 <= get (Battery.capacity config_data) 13.5 ->
  0 <= get (Battery.efficiency config_data) 0.90 ->
  get (Battery.discharge_depth config_data) 0.05
    <= get (Battery.initial_state config_data) 0.0 <= 1 ->
  exists b : Battery.t,
    Battery.init config_data = Ok b /\
    Battery.constructed b /\
    Battery.soc_bounds b.
Proof.
  intros Hcap Heff [Hlo Hhi].
  destruct (Battery.init config_data) as [b | e] eqn:Hi.
  - exists b. split; [reflexivity | ].
    apply init_returns in Hi. destruct Hi as (Hc & Hk & Hm & He).
    split; [exact Hc | ].
    unfold Battery.soc_bounds, Battery.floor. rewrite He, Hk, Hm. nra.
  - exfalso. revert Hi. unfold Battery.init, Py.sqrt.
    rewrite ltb_false by assumption. discriminate.
Qed.

Lemma battery_init_within_bounds_witness :
  exists b : Battery.t,
    Battery.init (Battery.mk_config None None None (Some 0.5)) = Ok b /\
    Battery.constructed b /\
    Battery.soc_bounds b.
Proof.
  apply (battery_init_within_bounds
           (Battery.mk_config None None None (Some 0.5))); cbn; lra.
Defined.

Lemma battery_raises_iff_witness :
  Battery.discharge (Battery.mk 8 0 0.25 4 0) 1 = Raise ZeroDivisionError /\
  Battery.charge (Battery.mk 8 0 0.25 9 0) 1 = Raise ZeroDivisionError.
Proof.
  split.
  - apply (proj1 (battery_raises_iff (Battery.mk 8 0 0.25 4 0) 1
                    ZeroDivisionError)).
    unfold Battery.floor. cbn. repeat split; lra.
  - apply (proj2 (battery_raises_iff (Battery.mk 8 0 0.25 9 0) 1
                    ZeroDivisionError)).
    cbn. repeat split; lra.
Defined.

Lemma battery_init_raises_iff_witness :
  Battery.init (Battery.mk_config None (Some (-1)) None None) = Raise ValueError.
Proof.
  apply (battery_init_raises_iff
           (Battery.mk_config None (Some (-1)) None None) ValueError).
  cbn. split; [reflexivity | lra].
Defined.

(** ** Solar panel: the shape of the day *)

Section SolarDay.

Import SolarPanel.

Variable panel : SolarPanel.t.

(** Inside the window the sun angle runs from 0 to pi, where the sine lies
    between 0 and 1. *)
Lemma sun_sine_range (hour : R) :
  6 <= hour <= 18 -> 0 <= sin ((hour - 6) * PI / 12) <= 1.
Proof.
  intros [Hlo Hhi]. pose proof PI_RGT_0 as Hpi.
  split; [ | apply SIN_bound].
  apply sin_ge_0; nra.
Qed.

Lemma clear_sky_nonneg (hour : R) :
  0 <= peak_power_kw panel ->
  6 <= hour <= 18 ->
  0 <= peak_power_kw panel * sin ((hour - 6) * PI / 12) <= peak_power_kw panel.
Proof.
  intros Hp Hh. pose proof (sun_sine_range hour Hh). nra.
Qed.

End SolarDay.

(** X10: for a peak power that is not negative and a cloud coverage between
    0 and 1, the generation never exceeds [peak * (1 - cloud)], hence never
    the peak power, at any hour. *)
Theorem generation_at_most_peak (panel : SolarPanel.t) (hour cloud : R) :
  0 <= SolarPanel.peak_power_kw panel ->
  0 <= cloud <= 1 ->
  SolarPanel.get_generation panel hour cloud
    <= SolarPanel.peak_power_kw panel * (1 - cloud) /\
  SolarPanel.get_generation panel hour cloud <= SolarPanel.peak_power_kw panel.
Proof.
  intros Hp Hc.
  assert (Hbound : SolarPanel.get_generation panel hour cloud
                   <= SolarPanel.peak_power_kw panel * (1 - cloud)).
  { destruct (Rlt_le_dec hour 6) as [Hearly | Hlo].
    - rewrite get_generation_night by (left; assumption). nra.
    - destruct (Rlt_le_dec 18 hour) as [Hlate | Hhi].
      + rewrite get_generation_night by (right; assumption). nra.
      + rewrite get_generation_day by lra.
        pose proof (clear_sky_nonneg panel hour Hp (conj Hlo Hhi)) as Hs.
        apply Rmax_lub; nra. }
  split; [exact Hbound | nra].
Qed.

Lemma generation_at_most_peak_witness :
  SolarPanel.get_generation (SolarPanel.mk 5.0) 10 0.3 <= 5.0 * (1 - 0.3) /\
  SolarPanel.get_generation (SolarPanel.mk 5.0) 10 0.3 <= 5.0.
Proof.
  apply (generation_at_most_peak (SolarPanel.mk 5.0) 10 0.3); cbn; lra.
Defined.

(** X12: for a peak power that is not negative, more cloud never gives more
    power: the generation is non-increasing in the cloud coverage. *)
Theorem generation_decreases_with_cloud
    (panel : SolarPanel.t) (hour cloud cloud' : R) :
  0 <= SolarPanel.peak_power_kw panel ->
  cloud <= cloud' ->
  SolarPanel.get_generation panel hour cloud'
    <= SolarPanel.get_generation panel hour cloud.
Proof.
  intros Hp Hc.
  destruct (Rlt_le_dec hour 6) as [Hearly | Hlo].
  - rewrite !get_generation_night by (left; assumption). lra.
  - destruct (Rlt_le_dec 18 hour) as [Hlate | Hhi].
    + rewrite !get_generation_night by (right; assumption). lra.
    + rewrite !get_generation_day by lra.
      pose proof (clear_sky_nonneg panel hour Hp (conj Hlo Hhi)) as Hs.
      apply Rmax_lub.
      * apply Rmax_l.
      * eapply Rle_trans; [ | apply Rmax_r]. nra.
Qed.

Lemma generation_decreases_with_cloud_witness :
  SolarPanel.get_generation (SolarPanel.mk 5.0) 10 0.8
    <= SolarPanel.get_generation (SolarPanel.mk 5.0) 10 0.3.
Proof.
  apply (generation_decreases_with_cloud (SolarPanel.mk 5.0) 10 0.3 0.8);
    cbn; lra.
Defined.

(** ** Inverter: counter, output and errors *)

Section InverterSteps.

Import Inverter Invariant.

Lemma fair_advance (g : rng) : fair g -> fair (advance g).
Proof. intros H n. apply H. Qed.

Lemma fair_drawn (n : nat) (g : rng) : fair g -> fair (drawn n g).
Proof.
  intros H. induction n as [ | n IH]; cbn; [exact H | ].
  apply fair_advance. exact IH.
Qed.

Lemma drawn_succ (n : nat) (g : rng) : drawn n (advance g) = drawn (S n) g.
Proof.
  unfold drawn. induction n as [ | n IH]; cbn; [reflexivity | ].
  f_equal. exact IH.
Qed.

Lemma same_inverter_refl (s : Inverter.t) : same_inverter s s.
Proof. repeat split. Qed.

Lemma same_inverter_trans (s1 s2 s3 : Inverter.t) :
  same_inverter s1 s2 -> same_inverter s2 s3 -> same_inverter s1 s3.
Proof.
  unfold same_inverter. intros (? & ? & ? & ?) (? & ? & ? & ?).
  repeat split; congruence.
Qed.

(** What a returning roll did. *)
Lemma roll_returns (s s' : Inverter.t) (g g' : rng) (working : bool) :
  roll s g = Ok (working, s', g') ->
  same_inverter s s' /\
  ((working = true /\ s' = s /\ g' = advance g /\
    failure_probability s <= tape_float g (cursor g)) \/
   (working = false /\ is_broken s' = true /\
    tape_float g (cursor g) < failure_probability s /\
    (min_repair_time s <= hours_until_repair s' <= max_repair_time s)%Z)).
Proof.
  destruct working.
  - unfold roll. cbn.
    destruct (ltb_cases (tape_float g (cursor g)) (failure_probability s))
      as [[Hu ->] | [Hu ->]].
    + destruct (Py.randint _ _ _) as [[? ?] | ?]; cbn; discriminate.
    + intros [= <- <-]. split; [apply same_inverter_refl | left; auto].
  - intros H. pose proof (roll_fails _ _ _ _ H) as (Hb & Hr & Hk).
    split; [exact Hk | right]. repeat split; try assumption; try lia.
    revert H. unfold roll. cbn.
    destruct (ltb_cases (tape_float g (cursor g)) (failure_probability s))
      as [[Hu ->] | [Hu ->]]; [auto | discriminate].
Qed.

(** One status check keeps the counter in agreement with the flag, when
    every repair takes at least an hour. *)
Lemma check_status_keeps_counter
    (s s' : Inverter.t) (g g' : rng) (working : bool) :
  (1 <= min_repair_time s)%Z ->
  counter_agrees s ->
  check_status s g = Ok (working, s', g') ->
  counter_agrees s' /\ same_inverter s s' /\ working = negb (is_broken s').
Proof.
  intros Hmin Hinv H. unfold counter_agrees in Hinv.
  destruct (is_broken s) eqn:Hb.
  - destruct (Z_le_gt_dec (hours_until_repair s) 1) as [Hlast | Hmore].
    + rewrite check_status_repairs in H by assumption.
      apply roll_returns in H.
      destruct H as [Hk [(-> & -> & _) | (-> & Hb' & _ & Hr)]].
      * unfold counter_agrees. cbn. repeat split. lia.
      * assert (Hk' : same_inverter s s') by exact Hk.
        pose proof Hk' as (_ & _ & Hmn & Hmx). cbn in Hr.
        unfold counter_agrees. rewrite Hb'.
        split; [lia | split; [exact Hk' | reflexivity]].
    + rewrite check_status_still_broken in H by (assumption || lia).
      injection H as <- <- <-.
      unfold counter_agrees. cbn. rewrite Hb.
      split; [lia | split; [repeat split | reflexivity]].
  - rewrite check_status_working in H by assumption.
    apply roll_returns in H.
    destruct H as [Hk [(-> & -> & _) | (-> & Hb' & _ & Hr)]].
    + unfold counter_agrees. rewrite Hb.
      split; [exact Hinv | split; [exact Hk | reflexivity]].
    + pose proof Hk as (_ & _ & Hmn & Hmx).
      unfold counter_agrees. rewrite Hb'.
      split; [lia | split; [exact Hk | reflexivity]].
Qed.

(** What [clip_power] returns is decided by the state it leaves. *)
Lemma clip_power_returns
    (s s' : Inverter.t) (g g' : rng) (dc out : R) :
  clip_power s dc g = Ok (out, s', g') ->
  exists working : bool,
    check_status s g = Ok (working, s', g') /\
    out = if working then Rmin dc (max_output_kw s') else 0.
Proof.
  unfold clip_power.
  destruct (check_status s g) as [[[working s1] g1] | e]; cbn;
    [ | discriminate].
  destruct working; cbn; intros [= <- <- <-].
  - exists true. split; [reflexivity | apply min_Rmin].
  - exists false. split; [reflexivity | lra].
Qed.

(** The draws ahead survive every call: only the cursor moves. *)
Lemma same_tape_refl (g : rng) : same_tape g g.
Proof. split; reflexivity. Qed.

Lemma same_tape_advance (g : rng) : same_tape g (advance g).
Proof. split; reflexivity. Qed.

Lemma same_tape_trans (g1 g2 g3 : rng) :
  same_tape g1 g2 -> same_tape g2 g3 -> same_tape g1 g3.
Proof. intros [? ?] [? ?]. split; congruence. Qed.

Lemma same_tape_fair (g g' : rng) : same_tape g g' -> fair g -> fair g'.
Proof. intros [Hf _] H n. rewrite Hf. apply H. Qed.

Lemma roll_same_tape (s s' : Inverter.t) (g g' : rng) (working : bool) :
  roll s g = Ok (working, s', g') -> same_tape g g'.
Proof.
  unfold roll, Py.randint. cbn.
  destruct (_ <? _); [ | intros [= _ _ <-]; apply same_tape_advance].
  destruct (_ <=? _)%Z; cbn; [ | discriminate].
  intros [= _ _ <-]. split; reflexivity.
Qed.

(** What a returning status check did. *)
Lemma check_status_returns
    (s s' : Inverter.t) (g g' : rng) (working : bool) :
  check_status s g = Ok (working, s', g') ->
  same_inverter s s' /\ working = negb (is_broken s') /\ same_tape g g'.
Proof.
  intros H. destruct (is_broken s) eqn:Hb.
  - destruct (Z_le_gt_dec (hours_until_repair s) 1) as [Hl | Hm].
    + rewrite check_status_repairs in H by assumption.
      pose proof (roll_same_tape _ _ _ _ _ H) as Ht.
      apply roll_returns in H. cbn in H.
      destruct H as [Hk [(-> & -> & _) | (-> & -> & _)]];
        (split; [exact Hk | split; [reflexivity | exact Ht]]).
    + rewrite check_status_still_broken in H by (assumption || lia).
      injection H as <- <- <-. cbn. rewrite Hb.
      split; [repeat split | split; [reflexivity | apply same_tape_refl]].
  - rewrite check_status_working in H by assumption.
    pose proof (roll_same_tape _ _ _ _ _ H) as Ht.
    apply roll_returns in H.
    destruct H as [Hk [(-> & -> & _) | (-> & -> & _)]].
    + rewrite Hb. split; [exact Hk | split; [reflexivity | exact Ht]].
    + split; [exact Hk | split; [reflexivity | exact Ht]].
Qed.

(** For a DC input and a clipping limit that are not negative, the output
    is between 0 and the limit. *)
Lemma clip_power_range (s s' : Inverter.t) (g g' : rng) (dc out : R) :
  0 <= dc -> 0 <= max_output_kw s ->
  clip_power s dc g = Ok (out, s', g') ->
  0 <= out <= max_output_kw s /\ same_inverter s s' /\ same_tape g g'.
Proof.
  intros Hdc Hmax H. apply clip_power_returns in H.
  destruct H as (working & Hcs & ->).
  apply check_status_returns in Hcs. destruct Hcs as (Hk & _ & Ht).
  split; [ | split; assumption].
  destruct Hk as (-> & _).
  destruct working; [ | lra].
  unfold Rmin. destruct (Rle_dec dc (max_output_kw s)); lra.
Qed.

End InverterSteps.

(** X13: when every repair takes at least an hour
    ([min_repair_time >= 1]), a run of [clip_power] calls keeps the repair
    counter in agreement with the flag: 0 on a working inverter, between 1
    and [max_repair_time] on a broken one.  The constants are kept and
    there is one output per input. *)
Theorem counter_agrees_with_flag (inputs : list R) :
  forall (s s' : Inverter.t) (g g' : rng) (outputs : list R),
    (1 <= Inverter.min_repair_time s)%Z ->
    Invariant.counter_agrees s ->
    Inverter.clip_steps s inputs g = Ok (outputs, s', g') ->
    Invariant.counter_agrees s' /\
    Invariant.same_inverter s s' /\
    List.length outputs = List.length inputs.
Proof.
  induction inputs as [ | dc inputs IH]; intros s s' g g' outputs Hmin Hinv; cbn.
  - intros [= <- <- <-]. auto using same_inverter_refl.
  - destruct (Inverter.clip_power s dc g) as [[[ac s1] g1] | e] eqn:Hclip; cbn;
      [ | discriminate].
    destruct (Inverter.clip_steps s1 inputs g1) as [[[acs s2] g2] | e] eqn:Hrest;
      cbn; [ | discriminate].
    intros [= <- <- <-].
    apply clip_power_returns in Hclip. destruct Hclip as (working & Hcs & _).
    destruct (check_status_keeps_counter _ _ _ _ _ Hmin Hinv Hcs)
      as (Hinv1 & Hk1 & _).
    assert (Hmin1 : (1 <= Inverter.min_repair_time s1)%Z).
    { destruct Hk1 as (_ & _ & -> & _). exact Hmin. }
    destruct (IH _ _ _ _ _ Hmin1 Hinv1 Hrest) as (Hinv2 & Hk2 & Hlen).
    split; [exact Hinv2 | split].
    + eapply same_inverter_trans; eassumption.
    + cbn. rewrite Hlen. reflexivity.
Qed.

Lemma counter_agrees_with_flag_witness :
  Invariant.counter_agrees (Inverter.sample true 4) /\
  Invariant.same_inverter (Inverter.sample false 0) (Inverter.sample true 4) /\
  List.length [0.0] = List.length [5].
Proof.
  apply (counter_agrees_with_flag [5] (Inverter.sample false 0)
           (Inverter.sample true 4) Inverter.sample_rng
           (advance (advance Inverter.sample_rng)) [0.0]).
  - cbn. lia.
  - reflexivity.
  - cbn [Inverter.clip_steps].
    unfold Inverter.clip_power, Inverter.check_status, Inverter.roll. cbn.
    rewrite ltb_true by lra. reflexivity.
Defined.

(** X14: the power [clip_power] returns is decided by the state it leaves:
    0 when the inverter is left broken, [min(dc, max_output_kw)] when it is
    left working; so for a DC input and a clipping limit that are not
    negative the output lies between 0 and both of them.  The constant
    fields are never changed. *)
Theorem clip_power_output
    (s s' : Inverter.t) (g g' : rng) (dc out : R) :
  Inverter.clip_power s dc g = Ok (out, s', g') ->
  out = (if Inverter.is_broken s' then 0
         else Rmin dc (Inverter.max_output_kw s)) /\
  Invariant.same_inverter s s' /\
  (0 <= dc -> 0 <= Inverter.max_output_kw s ->
   0 <= out <= dc /\ out <= Inverter.max_output_kw s).
Proof.
  intros H. apply clip_power_returns in H. destruct H as (working & Hcs & ->).
  assert (Hk : Invariant.same_inverter s s' /\
               working = negb (Inverter.is_broken s')).
  { apply check_status_returns in Hcs. tauto. }
  destruct Hk as [Hk ->].
  pose proof Hk as (Hmax & _). rewrite Hmax.
  split; [destruct (Inverter.is_broken s'); reflexivity | ].
  split; [exact Hk | ].
  intros Hdc Hm.
  destruct (Inverter.is_broken s'); cbn; [lra | ].
  unfold Rmin. destruct (Rle_dec dc (Inverter.max_output_kw s)); lra.
Qed.

Lemma clip_power_output_witness :
  0.0 = 0 /\
  Invariant.same_inverter (Inverter.sample false 0) (Inverter.sample true 4) /\
  (0 <= 5 -> 0 <= 4.0 -> 0 <= 0.0 <= 5 /\ 0.0 <= 4.0).
Proof.
  apply (clip_power_output (Inverter.sample false 0) (Inverter.sample true 4)
           Inverter.sample_rng (advance (advance Inverter.sample_rng)) 5 0.0).
  unfold Inverter.clip_power, Inverter.check_status, Inverter.roll. cbn.
  rewrite ltb_true by lra. reflexivity.
Defined.

(** X15: [clip_power] raises exactly when it rolls for a failure (the
    inverter is working, or its repair ends with this call), the draw is
    below the failure probability, and the repair range is empty
    ([max_repair_time < min_repair_time]); the exception is the one of
    [random.randint]. *)
Theorem clip_power_raises_iff (s : Inverter.t) (g : rng) (dc : R) (e : exn) :
  Inverter.clip_power s dc g = Raise e <->
  e = ValueError /\
  (Inverter.is_broken s = false \/ (Inverter.hours_until_repair s <= 1)%Z) /\
  tape_float g (cursor g) < Inverter.failure_probability s /\
  (Inverter.max_repair_time s < Inverter.min_repair_time s)%Z.
Proof.
  assert (Hroll : forall s0 : Inverter.t,
             Inverter.roll s0 g = Raise e <->
             e = ValueError /\
             tape_float g (cursor g) < Inverter.failure_probability s0 /\
             (Inverter.max_repair_time s0 < Inverter.min_repair_time s0)%Z).
  { intros s0. unfold Inverter.roll, Py.randint. cbn.
    destruct (ltb_cases (tape_float g (cursor g))
                (Inverter.failure_probability s0)) as [[Hu ->] | [Hu ->]].
    - destruct (Z.leb_spec (Inverter.min_repair_time s0)
                  (Inverter.max_repair_time s0)) as [Hle | Hgt]; cbn; split.
      + discriminate.
      + intros (_ & _ & Hlt). lia.
      + intros [= <-]. auto.
      + intros (-> & _). reflexivity.
    - split; [discriminate | intros (_ & Hlt & _); lra]. }
  assert (Hclip : Inverter.clip_power s dc g = Raise e <->
                  Inverter.check_status s g = Raise e).
  { unfold Inverter.clip_power.
    destruct (Inverter.check_status s g) as [[[[ | ] s1] g1] | e1]; cbn;
      split; try discriminate; intros [= ->]; reflexivity. }
  rewrite Hclip.
  destruct (Inverter.is_broken s) eqn:Hb.
  - destruct (Z_le_gt_dec (Inverter.hours_until_repair s) 1) as [Hl | Hm].
    + rewrite check_status_repairs by assumption. rewrite Hroll. cbn. tauto.
    + rewrite check_status_still_broken by (assumption || lia).
      split; [discriminate | ].
      intros (_ & [Hf | Hh] & _); [discriminate | lia].
  - rewrite check_status_working by assumption. rewrite Hroll. tauto.
Qed.

Section NoFailures.

Import Inverter Invariant.

Variable s : Inverter.t.

Hypothesis never_fails : failure_probability s <= 0.
Hypothesis working : is_broken s = false.

(** X16: with a failure probability that is not positive, a working
    inverter never breaks: every call returns [min(dc, max_output_kw)],
    leaves the inverter as it is and consumes one draw. *)
Theorem zero_failure_rate_never_breaks (inputs : list R) (g : rng) :
  fair g ->
  clip_steps s inputs g
  = Ok (map (fun dc => Rmin dc (max_output_kw s)) inputs, s,
        drawn (List.length inputs) g).
Proof.
  revert g. induction inputs as [ | dc inputs IH]; intros g Hfair.
  - reflexivity.
  - cbn [clip_steps List.length map]. unfold clip_power.
    rewrite check_status_working by exact working.
    rewrite roll_passes by (pose proof (Hfair (cursor g)); lra).
    cbn [bind negb].
    rewrite IH by (apply fair_advance; exact Hfair).
    cbn [bind]. rewrite min_Rmin, drawn_succ. reflexivity.
Qed.

End NoFailures.

Lemma zero_failure_rate_never_breaks_witness :
  Inverter.clip_steps (Inverter.mk 4.0 0 4 72 false 0) [3; 5]
    Inverter.sample_rng
  = Ok (map (fun dc => Rmin dc 4.0) [3; 5], Inverter.mk 4.0 0 4 72 false 0,
        Invariant.drawn 2 Inverter.sample_rng).
Proof.
  apply (zero_failure_rate_never_breaks (Inverter.mk 4.0 0 4 72 false 0)).
  - cbn. lra.
  - reflexivity.
  - intros [ | n]; cbn; lra.
Defined.

Lemma clip_power_raises_iff_witness :
  Inverter.clip_power (Inverter.mk 4.0 0.005 72 4 false 0) 5
    Inverter.sample_rng = Raise ValueError.
Proof.
  apply (clip_power_raises_iff (Inverter.mk 4.0 0.005 72 4 false 0)
           Inverter.sample_rng 5 ValueError).
  cbn. repeat split; auto; try lra; lia.
Defined.

(** ** Dispatch: what every step guarantees *)

Section BatteryCallFacts.

Import Battery.

Variables (b b' : Battery.t) (x r : R).

(** What the dispatch procedures use of a [charge] that returned. *)
Lemma charge_facts :
  charge b x = Ok (r, b') ->
  same_constants b b' /\
  (0 <= efficiency_ow b -> r <= x) /\
  (0 <= efficiency_ow b -> current_energy_kwh b <= capacity_kwh b -> 0 <= x ->
   0 <= r /\ current_energy_kwh b <= current_energy_kwh b' /\
   current_energy_kwh b' <= capacity_kwh b).
Proof.
  intros H. pose proof H as H'. apply charge_returns in H'.
  destruct H' as [Hk Hc]. split; [exact Hk | split].
  - intros He. eapply charge_le; eassumption.
  - intros He Hcap Hx.
    destruct Hc as [(Hroom & -> & ->) | (Hfull & Hne & Hr & ->)].
    + assert (0 <= x * efficiency_ow b) by nra. lra.
    + assert (Hp : 0 < efficiency_ow b) by lra.
      repeat split; try lra. nra.
Qed.

(** What they use of a [discharge] that returned. *)
Lemma discharge_facts :
  discharge b x = Ok (r, b') ->
  same_constants b b' /\
  (0 < x -> r <= x) /\
  (0 <= efficiency_ow b -> 0 <= x ->
   0 <= r /\ current_energy_kwh b' <= current_energy_kwh b).
Proof.
  intros H. pose proof H as H'. apply discharge_returns in H'.
  destruct H' as [Hk Hd]. split; [exact Hk | split].
  - intros Hx. eapply discharge_le; eassumption.
  - intros He Hx.
    destruct Hd as [(_ & -> & ->) | [(_ & Hne & _ & -> & ->) | (Hf & Hne & _ & -> & ->)]].
    + lra.
    + assert (Hp : 0 < efficiency_ow b) by lra.
      assert (0 <= x / efficiency_ow b).
      { apply Rmult_le_pos; [lra | ]. left. apply Rinv_0_lt_compat. exact Hp. }
      lra.
    + assert (Hp : 0 < efficiency_ow b) by lra. split; [nra | lra].
Qed.

End BatteryCallFacts.

(** One step through a dispatch procedure, the comparisons that are
    already decidable first, so that a battery call is met with its
    argument in final form. *)
Ltac dispatch_next :=
  match goal with
  | |- context [?a <? ?b] => destruct (ltb_cases a b) as [[? ->] | [? ->]]
  | |- context [?a >=? ?b] => destruct (geb_cases a b) as [[? ->] | [? ->]]
  | |- context [?a >? ?b] => destruct (gtb_cases a b) as [[? ->] | [? ->]]
  | |- context [Battery.discharge ?b ?x] =>
      let Hd := fresh "Hd" in
      destruct (Battery.discharge b x) as [[? ?] | ?] eqn:Hd
  | |- context [Battery.charge ?b ?x] =>
      let Hc := fresh "Hc" in
      destruct (Battery.charge b x) as [[? ?] | ?] eqn:Hc
  end; cbn.

(** Replaces each battery call that returned by what is known of it, and
    discharges the premises that linear arithmetic proves. *)
Ltac battery_facts :=
  repeat match goal with
    | H : Battery.charge _ _ = Ok _ |- _ =>
        apply charge_facts in H; destruct H as ((? & ? & ? & ?) & ? & ?)
    | H : Battery.discharge _ _ = Ok _ |- _ =>
        apply discharge_facts in H; destruct H as ((? & ? & ? & ?) & ? & ?)
    end;
  repeat match goal with
    | H : ?P -> _ |- _ =>
        let HP := fresh in
        assert (HP : P) by lra; specialize (H HP); clear HP
    end;
  repeat match goal with
    | H : _ /\ _ |- _ => destruct H
    end.

Section DispatchCases.

Import EnergyManager Invariant.

Variables (solar load grid_limit : R) (b : Battery.t).

(** A property of all three procedures is one of [decide_energy_flow],
    whatever the name. *)
Lemma decide_energy_flow_cases (self : EnergyManager.t)
    (P : Battery.t -> FlowRecord -> Prop) :
  after_dispatch b P (_run_load_priority solar load b grid_limit empty_log) ->
  after_dispatch b P (_run_charge_priority solar load b grid_limit empty_log) ->
  after_dispatch b P (_run_produce_priority solar load b grid_limit empty_log) ->
  match decide_energy_flow self solar load b grid_limit with
  | Ok (log, b') => P b' log
  | Raise _ => Battery.efficiency_ow b = 0
  end.
Proof.
  intros Hl Hc Hp.
  destruct (decide_energy_flow_dispatch self solar load grid_limit b)
    as [-> | [-> | ->]].
  - destruct (_run_load_priority _ _ _ _ _) as [[b' log] | e]; exact Hl.
  - destruct (_run_charge_priority _ _ _ _ _) as [[b' log] | e]; exact Hc.
  - destruct (_run_produce_priority _ _ _ _ _) as [[b' log] | e]; exact Hp.
Qed.

(** A name other than ["PRODUCE_PRIORITY"] runs one of the other two. *)
Lemma decide_energy_flow_not_produce (self : EnergyManager.t)
    (P : Battery.t -> FlowRecord -> Prop) :
  strategy_name self <> "PRODUCE_PRIORITY"%string ->
  after_dispatch b P (_run_load_priority solar load b grid_limit empty_log) ->
  after_dispatch b P (_run_charge_priority solar load b grid_limit empty_log) ->
  match decide_energy_flow self solar load b grid_limit with
  | Ok (log, b') => P b' log
  | Raise _ => Battery.efficiency_ow b = 0
  end.
Proof.
  intros Hname Hl Hc. unfold decide_energy_flow. cbn.
  destruct (String.eqb (strategy_name self) "LOAD_PRIORITY").
  - destruct (_run_load_priority _ _ _ _ _) as [[b' log] | e]; exact Hl.
  - destruct (String.eqb (strategy_name self) "CHARGE_PRIORITY").
    + destruct (_run_charge_priority _ _ _ _ _) as [[b' log] | e]; exact Hc.
    + destruct (String.eqb_spec (strategy_name self) "PRODUCE_PRIORITY")
        as [Heq | _]; [contradiction | ].
      destruct (_run_load_priority _ _ _ _ _) as [[b' log] | e]; exact Hl.
Qed.

End DispatchCases.

(** X17: for solar, load and export limit that are not negative, on a
    battery that is not above capacity and whose one-way efficiency is not
    negative, every field of the log that [decide_energy_flow] returns is
    non-negative, whatever the strategy name. *)
Theorem flows_are_nonnegative (self : EnergyManager.t)
    (solar_gen_kw load_demand_kw grid_limit_kw : R) (battery : Battery.t) :
  0 <= solar_gen_kw ->
  0 <= load_demand_kw ->
  0 <= grid_limit_kw ->
  0 <= Battery.efficiency_ow battery ->
  Battery.current_energy_kwh battery <= Battery.capacity_kwh battery ->
  match EnergyManager.decide_energy_flow self solar_gen_kw load_demand_kw
          battery grid_limit_kw with
  | Ok (log, _) => Invariant.nonneg_flows log
  | Raise _ => Battery.efficiency_ow battery = 0
  end.
Proof.
  intros Hs Hl Hg He Hcap.
  apply (decide_energy_flow_cases solar_gen_kw load_demand_kw grid_limit_kw
           battery self (fun _ log => Invariant.nonneg_flows log)).
  - unfold Invariant.after_dispatch, Invariant.nonneg_flows,
      EnergyManager._run_load_priority, Py.min.
    repeat dispatch_next; try raised; battery_facts; repeat split; lra.
  - unfold Invariant.after_dispatch, Invariant.nonneg_flows,
      EnergyManager._run_charge_priority, Py.min.
    repeat dispatch_next; try raised; battery_facts; repeat split; lra.
  - unfold Invariant.after_dispatch, Invariant.nonneg_flows,
      EnergyManager._run_produce_priority, Py.min.
    repeat dispatch_next; try raised; battery_facts; repeat split; lra.
Qed.

Lemma flows_are_nonnegative_witness :
  Invariant.nonneg_flows (EnergyManager.mk_flow 2 0 5 0 0 3).
Proof.
  pose proof (flows_are_nonnegative EnergyManager.load_priority 10 2 5
                (Battery.sample 8)) as H.
  rewrite load_priority_full_battery in H.
  apply H; cbn; lra.
Defined.

(** X18: for an export limit that is not negative, the export recorded by
    [decide_energy_flow] never exceeds the limit, whatever the strategy
    name, the other inputs and the battery. *)
Theorem export_within_limit (self : EnergyManager.t)
    (solar_gen_kw load_demand_kw grid_limit_kw : R) (battery : Battery.t) :
  0 <= grid_limit_kw ->
  match EnergyManager.decide_energy_flow self solar_gen_kw load_demand_kw
          battery grid_limit_kw with
  | Ok (log, _) => EnergyManager.solar_to_grid log <= grid_limit_kw
  | Raise _ => Battery.efficiency_ow battery = 0
  end.
Proof.
  intros Hg.
  apply (decide_energy_flow_cases solar_gen_kw load_demand_kw grid_limit_kw
           battery self
           (fun _ log => EnergyManager.solar_to_grid log <= grid_limit_kw)).
  - unfold Invariant.after_dispatch, EnergyManager._run_load_priority, Py.min.
    repeat dispatch_next; try raised; lra.
  - unfold Invariant.after_dispatch, EnergyManager._run_charge_priority, Py.min.
    repeat dispatch_next; try raised; lra.
  - unfold Invariant.after_dispatch, EnergyManager._run_produce_priority, Py.min.
    repeat dispatch_next; try raised; lra.
Qed.

Lemma export_within_limit_witness :
  EnergyManager.solar_to_grid (EnergyManager.mk_flow 2 0 5 0 0 3) <= 5.
Proof.
  pose proof (export_within_limit EnergyManager.produce_priority 10 2 5
                (Battery.sample 8)) as H.
  rewrite produce_priority_full_battery in H.
  apply H. lra.
Defined.

(** X19: under [CHARGE_PRIORITY] the battery is never discharged: the log
    records no discharge, the load that solar does not serve is imported,
    and (on a battery that is not above capacity, with a one-way efficiency
    that is not negative) the stored energy does not decrease. *)
Theorem charge_priority_never_discharges
    (solar_gen_kw load_demand_kw grid_limit_kw : R) (battery : Battery.t) :
  0 <= Battery.efficiency_ow battery ->
  Battery.current_energy_kwh battery <= Battery.capacity_kwh battery ->
  match EnergyManager.decide_energy_flow EnergyManager.charge_priority
          solar_gen_kw load_demand_kw battery grid_limit_kw with
  | Ok (log, battery') =>
      EnergyManager.battery_discharge log = 0 /\
      EnergyManager.grid_import log
        = load_demand_kw - EnergyManager.solar_to_load log /\
      Battery.current_energy_kwh battery
        <= Battery.current_energy_kwh battery'
  | Raise _ => Battery.efficiency_ow battery = 0
  end.
Proof.
  intros He Hcap.
  unfold EnergyManager.decide_energy_flow, EnergyManager.charge_priority,
    EnergyManager._run_charge_priority, Py.min.
  cbn [EnergyManager.strategy_name String.eqb Ascii.eqb Bool.eqb].
  repeat dispatch_next; try raised; battery_facts; repeat split; lra.
Qed.

Lemma charge_priority_never_discharges_witness :
  EnergyManager.battery_discharge (EnergyManager.mk_flow 0 2 0 3 0 0) = 0 /\
  EnergyManager.grid_import (EnergyManager.mk_flow 0 2 0 3 0 0)
    = 3 - EnergyManager.solar_to_load (EnergyManager.mk_flow 0 2 0 3 0 0) /\
  Battery.current_energy_kwh (Battery.sample 6)
    <= Battery.current_energy_kwh (Battery.sample 7).
Proof.
  pose proof (charge_priority_never_discharges 2 3 5 (Battery.sample 6)) as H.
  rewrite charge_priority_imports in H.
  apply H; cbn; lra.
Defined.

(** X20: under every strategy name but ["PRODUCE_PRIORITY"], a step never
    both imports from and exports to the grid, and never both charges and
    discharges the battery. *)
Theorem no_round_trips_outside_produce_priority (self : EnergyManager.t)
    (solar_gen_kw load_demand_kw grid_limit_kw : R) (battery : Battery.t) :
  EnergyManager.strategy_name self <> "PRODUCE_PRIORITY"%string ->
  match EnergyManager.decide_energy_flow self solar_gen_kw load_demand_kw
          battery grid_limit_kw with
  | Ok (log, _) =>
      (EnergyManager.grid_import log = 0 \/
       EnergyManager.solar_to_grid log = 0) /\
      (EnergyManager.solar_to_battery log = 0 \/
       EnergyManager.battery_discharge log = 0)
  | Raise _ => Battery.efficiency_ow battery = 0
  end.
Proof.
  intros Hname.
  apply (decide_energy_flow_not_produce solar_gen_kw load_demand_kw
           grid_limit_kw battery self
           (fun _ log =>
              (EnergyManager.grid_import log = 0 \/
               EnergyManager.solar_to_grid log = 0) /\
              (EnergyManager.solar_to_battery log = 0 \/
               EnergyManager.battery_discharge log = 0)));
    [exact Hname | | ].
  - unfold Invariant.after_dispatch, EnergyManager._run_load_priority, Py.min.
    repeat dispatch_next; try raised;
      (split; [first [left; lra | right; lra] | first [left; lra | right; lra]]).
  - unfold Invariant.after_dispatch, EnergyManager._run_charge_priority, Py.min.
    repeat dispatch_next; try raised;
      (split; [first [left; lra | right; lra] | first [left; lra | right; lra]]).
Qed.

Lemma no_round_trips_outside_produce_priority_witness :
  (EnergyManager.grid_import (EnergyManager.mk_flow 2 0 0 0 1 0) = 0 \/
   EnergyManager.solar_to_grid (EnergyManager.mk_flow 2 0 0 0 1 0) = 0) /\
  (EnergyManager.solar_to_battery (EnergyManager.mk_flow 2 0 0 0 1 0) = 0 \/
   EnergyManager.battery_discharge (EnergyManager.mk_flow 2 0 0 0 1 0) = 0).
Proof.
  pose proof (no_round_trips_outside_produce_priority
                EnergyManager.load_priority 2 3 5 (Battery.sample 6)) as H.
  rewrite load_priority_deficit in H.
  apply H. cbn. discriminate.
Defined.

(** X22: a strategy name that is neither ["CHARGE_PRIORITY"] nor
    ["PRODUCE_PRIORITY"] is served as ["LOAD_PRIORITY"]. *)
Theorem unknown_strategy_is_load_priority (self : EnergyManager.t)
    (solar_gen_kw load_demand_kw grid_limit_kw : R) (battery : Battery.t) :
  EnergyManager.strategy_name self <> "CHARGE_PRIORITY"%string ->
  EnergyManager.strategy_name self <> "PRODUCE_PRIORITY"%string ->
  EnergyManager.decide_energy_flow self solar_gen_kw load_demand_kw
    battery grid_limit_kw
  = EnergyManager.decide_energy_flow EnergyManager.load_priority
      solar_gen_kw load_demand_kw battery grid_limit_kw.
Proof.
  intros Hc Hp. unfold EnergyManager.decide_energy_flow.
  destruct (String.eqb_spec (EnergyManager.strategy_name self) "CHARGE_PRIORITY")
    as [Heq | _]; [contradiction | ].
  destruct (String.eqb_spec (EnergyManager.strategy_name self) "PRODUCE_PRIORITY")
    as [Heq | _]; [contradiction | ].
  destruct (String.eqb (EnergyManager.strategy_name self) "LOAD_PRIORITY");
    reflexivity.
Qed.

Lemma unknown_strategy_is_load_priority_witness :
  EnergyManager.decide_energy_flow (EnergyManager.mk "ECO") 10 2
    (Battery.sample 8) 5
  = EnergyManager.decide_energy_flow EnergyManager.load_priority 10 2
      (Battery.sample 8) 5.
Proof.
  apply (unknown_strategy_is_load_priority (EnergyManager.mk "ECO") 10 2 5
           (Battery.sample 8)); cbn; discriminate.
Defined.

(** ** Weather, load and grid *)

Section RandomFacts.

Import PyMore.

(** A fair draw scaled into [[a, b]] stays there. *)
Lemma uniform_range (a b : R) (g : rng) :
  fair g -> a <= b ->
  a <= fst (uniform a b g) <= b /\ snd (uniform a b g) = advance g.
Proof.
  intros Hfair Hab. unfold uniform. cbn.
  pose proof (Hfair (cursor g)) as [Hlo Hhi].
  split; [ | reflexivity]. split; nra.
Qed.

Lemma bisect_le (a : list R) (x : R) :
  forall hi : nat, (bisect a x hi <= hi)%nat.
Proof.
  induction a as [ | c a IH]; intros [ | hi]; cbn; try lia.
  destruct (x <? c); [lia | ]. specialize (IH hi). lia.
Qed.

(** Four weights of positive total always select one of the four
    categories, at the cost of one draw. *)
Lemma choices_of_four (w0 w1 w2 w3 : R) (g : rng) :
  0 < w0 + w1 + w2 + w3 ->
  exists category : nat,
    (category <= 3)%nat /\
    choices [0; 1; 2; 3]%nat [w0; w1; w2; w3] g = Done (category, advance g).
Proof.
  intros Htotal. unfold choices. cbn [accumulate accumulate_from List.length
    Nat.eqb negb last_item and_then].
  rewrite leb_false by lra. cbn [Py.random Nat.sub].
  set (k := bisect _ _ _).
  assert (Hk : (k <= 3)%nat) by apply bisect_le.
  exists k. split; [exact Hk | ].
  destruct k as [ | [ | [ | [ | k]]]]; try reflexivity. lia.
Qed.

End RandomFacts.

Section WeatherFacts.

Import PyMore Weather.

(** Whatever category is drawn, the coverage lies in its band. *)
Lemma coverage_in_band (category : nat) (g : rng) :
  fair g ->
  (if Nat.eqb category 0 then Done (uniform 0.0 0.2 g)
   else if Nat.eqb category 1 then Done (uniform 0.2 0.6 g)
   else if Nat.eqb category 2 then Done (uniform 0.6 0.8 g)
   else Done (uniform 0.8 1.0 g))
  = Done (uniform (fst (band category)) (snd (band category)) g) /\
  0 <= fst (band category) <= snd (band category) /\
  snd (band category) <= 1.
Proof.
  intros Hfair.
  destruct category as [ | [ | [ | category]]]; cbn; repeat split; lra.
Qed.

(** The weights of every season, known or not, have four entries of
    positive total. *)
Lemma season_weights_shape (config_data : Weather.config) :
  exists w0 w1 w2 w3 : R,
    get (lookup (self_season (init config_data))
           (season_weights (init config_data)))
        [0.25; 0.25; 0.25; 0.25]
    = [w0; w1; w2; w3] /\
    0 < w0 + w1 + w2 + w3.
Proof.
  cbn.
  destruct (String.eqb _ "Spring"); [eexists _, _, _, _; split; [reflexivity | lra] | ].
  destruct (String.eqb _ "Summer"); [eexists _, _, _, _; split; [reflexivity | lra] | ].
  destruct (String.eqb _ "Fall"); [eexists _, _, _, _; split; [reflexivity | lra] | ].
  destruct (String.eqb _ "Winter"); eexists _, _, _, _; split;
    try reflexivity; lra.
Qed.

End WeatherFacts.

(** X23: for every season, known or not, [get_cloud_coverage] returns (it
    never raises), consumes two draws, and its value is a fraction,
    between 0 and 1. *)
Theorem cloud_coverage_is_a_fraction (config_data : Weather.config) (g : rng) :
  fair g ->
  exists coverage : R,
    Weather.get_cloud_coverage (Weather.init config_data) g
    = PyMore.Done (coverage, advance (advance g)) /\
    0 <= coverage <= 1.
Proof.
  intros Hfair. unfold Weather.get_cloud_coverage.
  destruct (season_weights_shape config_data) as (w0 & w1 & w2 & w3 & -> & Hw).
  destruct (choices_of_four w0 w1 w2 w3 g Hw) as (category & _ & ->).
  cbn [PyMore.and_then].
  pose proof (fair_advance g Hfair) as Hfair'.
  destruct (coverage_in_band category (advance g) Hfair')
    as (-> & Hband & Htop).
  destruct (uniform_range (fst (Weather.band category))
              (snd (Weather.band category)) (advance g) Hfair' (proj2 Hband))
    as [Hin Hg].
  exists (fst (PyMore.uniform (fst (Weather.band category))
                 (snd (Weather.band category)) (advance g))).
  split; [ | lra].
  rewrite <- Hg. rewrite <- surjective_pairing. reflexivity.
Qed.

Lemma cloud_coverage_is_a_fraction_witness :
  exists coverage : R,
    Weather.get_cloud_coverage (Weather.init (Weather.mk_config None))
      Inverter.sample_rng
    = PyMore.Done (coverage, advance (advance Inverter.sample_rng)) /\
    0 <= coverage <= 1.
Proof.
  apply (cloud_coverage_is_a_fraction (Weather.mk_config None)
           Inverter.sample_rng).
  intros [ | n]; cbn; lra.
Defined.

(** X24: for a peak load that is not negative, the load drawn is at least
    the base load and at most the base load plus the peak load; outside the
    peak window it is at most the base load plus a tenth of the peak load.
    One draw is consumed. *)
Theorem load_is_bounded (self : HomeLoad.t) (hour_of_day : R) (g : rng) :
  fair g ->
  0 <= HomeLoad.self_peak_load_kw self ->
  HomeLoad.self_base_load_kw self
    <= fst (HomeLoad.get_current_load self hour_of_day g)
    <= HomeLoad.self_base_load_kw self + HomeLoad.self_peak_load_kw self /\
  (hour_of_day < HomeLoad.peak_start self \/
   HomeLoad.peak_end self < hour_of_day ->
   fst (HomeLoad.get_current_load self hour_of_day g)
     <= HomeLoad.self_base_load_kw self
        + 0.1 * HomeLoad.self_peak_load_kw self) /\
  snd (HomeLoad.get_current_load self hour_of_day g) = advance g.
Proof.
  intros Hfair Hpeak. unfold HomeLoad.get_current_load.
  pose proof (uniform_range 0 (HomeLoad.self_peak_load_kw self) g Hfair Hpeak)
    as [Hin Hg].
  assert (Htenth : 0 <= HomeLoad.self_peak_load_kw self * 0.1) by lra.
  pose proof (uniform_range 0 (HomeLoad.self_peak_load_kw self * 0.1) g
                Hfair Htenth) as [Hin' Hg'].
  destruct (leb_cases (HomeLoad.peak_start self) hour_of_day)
    as [[Hs ->] | [Hs ->]];
    destruct (leb_cases hour_of_day (HomeLoad.peak_end self))
      as [[He ->] | [He ->]]; cbn [andb].
  - destruct (PyMore.uniform 0 (HomeLoad.self_peak_load_kw self) g)
      as [spike g1]. cbn in *.
    repeat split; try assumption; try lra; try (intros [H | H]; lra).
  - destruct (PyMore.uniform 0 (HomeLoad.self_peak_load_kw self * 0.1) g)
      as [spike g1]. cbn in *.
    repeat split; try assumption; try lra; try (intros [H | H]; lra).
  - destruct (PyMore.uniform 0 (HomeLoad.self_peak_load_kw self * 0.1) g)
      as [spike g1]. cbn in *.
    repeat split; try assumption; try lra; try (intros [H | H]; lra).
  - destruct (PyMore.uniform 0 (HomeLoad.self_peak_load_kw self * 0.1) g)
      as [spike g1]. cbn in *.
    repeat split; try assumption; try lra; try (intros [H | H]; lra).
Qed.

Lemma load_is_bounded_witness :
  0.5 <= fst (HomeLoad.get_current_load
                (HomeLoad.init (HomeLoad.mk_config None None None None))
                19 Inverter.sample_rng) <= 0.5 + 3.0.
Proof.
  apply (load_is_bounded
           (HomeLoad.init (HomeLoad.mk_config None None None None))
           19 Inverter.sample_rng).
  - intros [ | n]; cbn; lra.
  - cbn. lra.
Defined.

(** ** Simulation engine *)

Section TimeOfDay.

Import PyMore.

(** The floor of a quotient of integers is their integer quotient. *)
Lemma Int_part_quotient (t d : Z) :
  (0 < d)%Z -> Int_part (IZR t / IZR d) = (t / d)%Z.
Proof.
  intros Hd. symmetry. apply Int_part_spec.
  assert (HdR : 0 < IZR d) by (apply IZR_lt; exact Hd).
  pose proof (Z.div_mod t d ltac:(lia)) as Hdm.
  pose proof (Z.mod_pos_bound t d Hd) as Hm.
  assert (Ht : IZR t = IZR d * IZR (t / d) + IZR (t mod d)).
  { rewrite <- mult_IZR, <- plus_IZR. f_equal. exact Hdm. }
  assert (Hm0 : 0 <= IZR (t mod d)) by (apply IZR_le; lia).
  assert (Hm1 : IZR (t mod d) < IZR d) by (apply IZR_lt; lia).
  assert (Hq : IZR t / IZR d = IZR (t / d) + IZR (t mod d) / IZR d).
  { rewrite Ht. field. lra. }
  assert (Hf0 : 0 <= IZR (t mod d) / IZR d).
  { apply Rmult_le_pos; [lra | ]. left. apply Rinv_0_lt_compat. lra. }
  assert (Hf1 : IZR (t mod d) / IZR d < 1).
  { apply (Rmult_lt_reg_r (IZR d)); [lra | ].
    replace (IZR (t mod d) / IZR d * IZR d) with (IZR (t mod d))
      by (field; lra).
    lra. }
  lra.
Qed.

(** The hour of day of minute [t]. *)
Lemma hour_of_minute (t : Z) :
  float_mod (IZR t / 60) 24 = Ok (IZR (t mod 1440) / 60) /\
  0 <= IZR (t mod 1440) / 60 < 24.
Proof.
  pose proof (Z.mod_pos_bound t 1440 ltac:(lia)) as Hm.
  assert (Hm0 : 0 <= IZR (t mod 1440)) by (apply IZR_le; lia).
  assert (Hm1 : IZR (t mod 1440) < 1440) by (apply IZR_lt; lia).
  split; [ | lra].
  unfold float_mod. destruct (Req_dec_T 24 0) as [H | _]; [lra | ].
  f_equal.
  replace (IZR t / 60 / 24) with (IZR t / IZR 1440) by (field; lra).
  rewrite Int_part_quotient by lia.
  pose proof (Z.div_mod t 1440 ltac:(lia)) as Hdm.
  assert (Ht : IZR t = 1440 * IZR (t / 1440) + IZR (t mod 1440)).
  { rewrite <- mult_IZR, <- plus_IZR. f_equal. exact Hdm. }
  rewrite Ht at 1. field.
Qed.

(** On a whole hour, the hour of day is an integer. *)
Lemma whole_hour (t : Z) :
  (t mod 60 = 0)%Z -> IZR (t mod 1440) / 60 = IZR ((t / 60) mod 24).
Proof.
  intros Hwhole.
  assert (Ht : t = (60 * (t / 60))%Z).
  { pose proof (Z.div_mod t 60 ltac:(lia)). lia. }
  assert (Hm : (t mod 1440 = 60 * ((t / 60) mod 24))%Z).
  { rewrite Ht at 1. change 1440%Z with (60 * 24)%Z.
    apply Z.mul_mod_distr_l; lia. }
  rewrite Hm, mult_IZR. field.
Qed.

(** The day of minute [t], from the start of the run on. *)
Lemma day_of_minute (t : Z) :
  (0 <= t)%Z -> int_of_float (IZR t / (60 * 24)) = (t / 1440)%Z.
Proof.
  intros Ht. unfold int_of_float.
  assert (H0 : 0 <= IZR t) by (apply IZR_le; exact Ht).
  rewrite ltb_false by (apply Rmult_le_pos; [lra | ];
                        left; apply Rinv_0_lt_compat; lra).
  replace (IZR t / (60 * 24)) with (IZR t / IZR 1440) by (field; lra).
  apply Int_part_quotient. lia.
Qed.

End TimeOfDay.

Section EngineParts.

Import PyMore Invariant.

Lemma choices_returns {A : Type} (population : list A) (weights : list R)
    (g g1 : rng) (v : A) :
  choices population weights g = Done (v, g1) -> g1 = advance g.
Proof.
  unfold choices.
  destruct (negb _); [discriminate | ].
  destruct (last_item _) as [final | e]; cbn; [ | discriminate].
  destruct (_ <=? _); [discriminate | ].
  destruct (nth_error _ _); [ | discriminate].
  intros [= _ <-]. reflexivity.
Qed.

(** Whatever the weather object, a coverage it returns is a fraction. *)
Lemma cloud_coverage_range (w : Weather.t) (g g' : rng) (coverage : R) :
  fair g ->
  Weather.get_cloud_coverage w g = Done (coverage, g') ->
  0 <= coverage <= 1 /\ same_tape g g'.
Proof.
  intros Hfair. unfold Weather.get_cloud_coverage.
  destruct (choices _ _ g) as [[category g1] | e] eqn:Hch; cbn [and_then];
    [ | discriminate].
  apply choices_returns in Hch. subst g1.
  pose proof (fair_advance g Hfair) as Hfair'.
  destruct (coverage_in_band category (advance g) Hfair')
    as (-> & Hband & Htop).
  destruct (uniform_range (fst (Weather.band category))
              (snd (Weather.band category)) (advance g) Hfair' (proj2 Hband))
    as [Hin Hg].
  destruct (uniform _ _ _) as [c g2]. cbn in Hin, Hg.
  intros [= <- <-]. split; [lra | ].
  subst g2. split; reflexivity.
Qed.

(** The weather [__init__] builds always returns. *)
Lemma cloud_coverage_returns (config_data : Weather.config) (g : rng) :
  exists (coverage : R) (g' : rng),
    Weather.get_cloud_coverage (Weather.init config_data) g
    = Done (coverage, g').
Proof.
  unfold Weather.get_cloud_coverage.
  destruct (season_weights_shape config_data) as (w0 & w1 & w2 & w3 & -> & Hw).
  destruct (choices_of_four w0 w1 w2 w3 g Hw) as (category & _ & ->).
  cbn [and_then].
  assert (Hpair : forall p : R * rng,
             exists (coverage : R) (g' : rng),
               @Done (R * rng) p = Done (coverage, g'))
    by (intros [c g']; eauto).
  repeat (destruct (Nat.eqb category _); [apply Hpair | ]). apply Hpair.
Qed.

Lemma current_load_range (h : HomeLoad.t) (hour : R) (g : rng) :
  fair g ->
  0 <= HomeLoad.self_peak_load_kw h ->
  HomeLoad.self_base_load_kw h
    <= fst (HomeLoad.get_current_load h hour g)
    <= HomeLoad.self_base_load_kw h + HomeLoad.self_peak_load_kw h /\
  same_tape g (snd (HomeLoad.get_current_load h hour g)).
Proof.
  intros Hfair Hpeak. unfold HomeLoad.get_current_load.
  assert (Htenth : 0 <= HomeLoad.self_peak_load_kw h * 0.1) by lra.
  destruct ((HomeLoad.peak_start h <=? hour) && (hour <=? HomeLoad.peak_end h)).
  - destruct (uniform_range 0 (HomeLoad.self_peak_load_kw h) g Hfair Hpeak)
      as [Hin Hg].
    destruct (uniform _ _ _) as [spike g1]. cbn in *. subst g1.
    split; [lra | apply same_tape_advance].
  - destruct (uniform_range 0 (HomeLoad.self_peak_load_kw h * 0.1) g
                Hfair Htenth) as [Hin Hg].
    destruct (uniform _ _ _) as [spike g1]. cbn in *. subst g1.
    split; [lra | apply same_tape_advance].
Qed.

End EngineParts.

Section EngineStep.

Import PyMore Invariant SimulationEngine.

(** What the engine relies on of one dispatch: the export is within the
    limit. *)
Lemma decide_energy_flow_summary (m : EnergyManager.t)
    (solar load grid_limit : R) (b : Battery.t) :
  0 <= solar ->
  0 <= grid_limit ->
  match EnergyManager.decide_energy_flow m solar load b grid_limit with
  | Ok (log, b') => 0 <= EnergyManager.solar_to_grid log <= grid_limit
  | Raise _ => Battery.efficiency_ow b = 0
  end.
Proof.
  intros Hsolar Hg.
  apply (decide_energy_flow_cases solar load grid_limit b m
           (fun _ log => 0 <= EnergyManager.solar_to_grid log <= grid_limit)).
  - unfold after_dispatch, EnergyManager._run_load_priority, Py.min.
    repeat dispatch_next; try raised; lra.
  - unfold after_dispatch, EnergyManager._run_charge_priority, Py.min.
    repeat dispatch_next; try raised; lra.
  - unfold after_dispatch, EnergyManager._run_produce_priority, Py.min.
    repeat dispatch_next; try raised; lra.
Qed.

(** The pieces of a pass that returned. *)
Lemma iteration_returns (e e' : SimulationEngine.t) (g g' : rng) :
  iteration e g = Done (e', g') ->
  let hour_now := IZR (now e mod 1440) / 60 in
  exists (cloud ac : R) (g1 g2 : rng) (inv' : Inverter.t)
         (flow : EnergyManager.FlowRecord) (bat' : Battery.t),
    Weather.get_cloud_coverage (weather e) g = Done (cloud, g1) /\
    Inverter.clip_power (inverter e)
      (SolarPanel.get_generation (solar_panel e) hour_now cloud) g1
      = Ok (ac, inv', g2) /\
    EnergyManager.decide_energy_flow (energy_manager e) ac
      (fst (HomeLoad.get_current_load (home_load e) hour_now g2))
      (battery e) (UtilityGrid.self_export_limit_kw (grid e))
      = Ok (flow, bat') /\
    g' = snd (HomeLoad.get_current_load (home_load e) hour_now g2) /\
    (0 <= step_minutes e)%Z /\
    e' = mk (now e + step_minutes e) (duration_hours e) (step_minutes e)
           bat' (solar_panel e) inv' (weather e) (home_load e) (grid e)
           (energy_manager e)
           (results e ++
            [mk_record (now e)
               (int_of_float (IZR (now e) / (60 * 24))) hour_now ac
               (fst (HomeLoad.get_current_load (home_load e) hour_now g2))
               (Battery.current_energy_kwh bat')
               (EnergyManager.grid_import flow)
               (EnergyManager.solar_to_grid flow)
               (UtilityGrid.calculate_cost (grid e)
                  (EnergyManager.grid_import flow)
                  (EnergyManager.solar_to_grid flow))
               cloud]).
Proof.
  unfold iteration. rewrite (proj1 (hour_of_minute (now e))).
  cbn [lift and_then].
  destruct (Weather.get_cloud_coverage (weather e) g) as [[cloud g1] | ex];
    cbn [and_then]; [ | discriminate].
  destruct (Inverter.clip_power _ _ g1) as [[[ac inv'] g2] | ex] eqn:Hclip;
    cbn [lift and_then]; [ | discriminate].
  destruct (HomeLoad.get_current_load _ _ g2) as [load_kw g3] eqn:Hload.
  destruct (EnergyManager.decide_energy_flow _ _ _ _ _) as [[flow bat'] | ex]
    eqn:Hdec; cbn [lift and_then]; [ | discriminate].
  destruct (Z.ltb_spec (step_minutes e) 0) as [Hneg | Hstep]; [discriminate | ].
  intros [= <- <-]. cbn zeta.
  exists cloud, ac, g1, g2, inv', flow, bat'.
  rewrite Hload. cbn [fst snd].
  repeat split; try reflexivity; try assumption.
Qed.

End EngineStep.

Section EngineFacts.

Import PyMore Invariant SimulationEngine.

(** A dispatch that returned kept the constants of the battery. *)
Lemma decide_energy_flow_constants (m : EnergyManager.t)
    (solar load grid_limit : R) (b : Battery.t) :
  match EnergyManager.decide_energy_flow m solar load b grid_limit with
  | Ok (_, b') => Battery.same_constants b b'
  | Raise _ => Battery.efficiency_ow b = 0
  end.
Proof.
  apply (decide_energy_flow_cases solar load grid_limit b m
           (fun b' _ => Battery.same_constants b b')).
  all: unfold after_dispatch, EnergyManager._run_load_priority,
         EnergyManager._run_charge_priority,
         EnergyManager._run_produce_priority, Py.min.
  all: repeat dispatch_next; try raised.
  all: repeat match goal with
         | H : Battery.charge _ _ = Ok _ |- _ =>
             apply charge_returns in H; destruct H as [H _]
         | H : Battery.discharge _ _ = Ok _ |- _ =>
             apply discharge_returns in H; destruct H as [H _]
         end.
  all: eauto using same_constants_refl, same_constants_trans.
Qed.

Lemma same_engine_refl (e : SimulationEngine.t) : same_engine e e.
Proof.
  unfold same_engine.
  repeat split; auto using same_constants_refl, same_inverter_refl.
Qed.

Lemma same_engine_trans (e1 e2 e3 : SimulationEngine.t) :
  same_engine e1 e2 -> same_engine e2 e3 -> same_engine e1 e3.
Proof.
  unfold same_engine.
  intros (? & ? & ? & ? & ? & ? & ? & Hb & Hi)
         (? & ? & ? & ? & ? & ? & ? & Hb' & Hi').
  repeat split; try congruence;
    try (destruct Hb as (? & ? & ? & ?), Hb' as (? & ? & ? & ?); congruence);
    try (destruct Hi as (? & ? & ? & ?), Hi' as (? & ? & ? & ?); congruence).
Qed.

(** A pass that returned changed the clock, the battery state, the
    inverter state and the rows, nothing else. *)
Lemma iteration_same_engine (e e' : SimulationEngine.t) (g g' : rng) :
  iteration e g = Done (e', g') -> same_engine e e'.
Proof.
  intros H. apply iteration_returns in H. cbn zeta in H.
  destruct H as (cloud & ac & g1 & g2 & inv' & flow & bat'
                 & _ & Hclip & Hdec & _ & _ & ->).
  pose proof (decide_energy_flow_constants (energy_manager e) ac
                (fst (HomeLoad.get_current_load (home_load e)
                        (IZR (now e mod 1440) / 60) g2))
                (UtilityGrid.self_export_limit_kw (grid e)) (battery e))
    as Hk.
  rewrite Hdec in Hk.
  apply clip_power_returns in Hclip. destruct Hclip as (w & Hcs & _).
  apply check_status_returns in Hcs. destruct Hcs as (Hi & _).
  unfold same_engine. cbn. repeat split; try apply Hk; apply Hi.
Qed.

End EngineFacts.

Section EngineRuns.

Import PyMore Invariant SimulationEngine.

Lemma row_ok_same_engine (e e' : SimulationEngine.t) (row : StepRecord) :
  same_engine e e' -> (row_ok e row <-> row_ok e' row).
Proof.
  intros (_ & _ & _ & _ & Hh & Hg & _ & _ & Hi).
  destruct Hi as (Hmax & _).
  unfold row_ok. rewrite Hh, Hg, Hmax. tauto.
Qed.

(** One pass keeps the limits of the engine and writes a physical row. *)
Lemma iteration_physical (e e' : SimulationEngine.t) (g g' : rng) :
  engine_ok e ->
  fair g ->
  iteration e g = Done (e', g') ->
  engine_ok e' /\ fair g' /\
  exists row : StepRecord, results e' = results e ++ [row] /\ row_ok e row.
Proof.
  intros (Hmax & Hlim & Hpeak) Hfair H.
  apply iteration_returns in H. cbn zeta in H.
  destruct H as (cloud & ac & g1 & g2 & inv' & flow & bat'
                 & Hcloud & Hclip & Hdec & -> & Hstep & ->).
  destruct (cloud_coverage_range _ _ _ _ Hfair Hcloud) as [Hc Ht1].
  pose proof (same_tape_fair _ _ Ht1 Hfair) as Hfair1.
  pose proof (get_generation_nonneg (solar_panel e)
                (IZR (now e mod 1440) / 60) cloud) as Hdc.
  destruct (clip_power_range _ _ _ _ _ _ Hdc Hmax Hclip) as (Hac & Hki & Ht2).
  pose proof (same_tape_fair _ _ Ht2 Hfair1) as Hfair2.
  destruct (current_load_range (home_load e) (IZR (now e mod 1440) / 60) g2
              Hfair2 Hpeak) as [Hload Ht3].
  pose proof (same_tape_fair _ _ Ht3 Hfair2) as Hfair3.
  pose proof (decide_energy_flow_summary (energy_manager e) ac
                (fst (HomeLoad.get_current_load (home_load e)
                        (IZR (now e mod 1440) / 60) g2))
                (UtilityGrid.self_export_limit_kw (grid e)) (battery e)
                (proj1 Hac) Hlim) as Hexp.
  rewrite Hdec in Hexp.
  split; [ | split; [exact Hfair3 | ]].
  - unfold engine_ok. cbn. destruct Hki as (-> & _). auto.
  - eexists. split; [reflexivity | ].
    unfold row_ok. cbn. repeat split; try lra.
Qed.

Lemma check_status_total (s : Inverter.t) (g : rng) :
  (Inverter.min_repair_time s <= Inverter.max_repair_time s)%Z ->
  exists (w : bool) (s' : Inverter.t) (g' : rng),
    Inverter.check_status s g = Ok (w, s', g').
Proof.
  intros Hmm.
  assert (Hroll : forall s0 : Inverter.t,
             (Inverter.min_repair_time s0 <= Inverter.max_repair_time s0)%Z ->
             exists (w : bool) (s' : Inverter.t) (g' : rng),
               Inverter.roll s0 g = Ok (w, s', g')).
  { intros s0 H0. unfold Inverter.roll. cbn.
    destruct (_ <? _); [ | eauto].
    destruct (randint_returns _ _ (advance g) H0) as [h Hr].
    cbn in Hr. rewrite Hr. cbn. eauto. }
  destruct (Inverter.is_broken s) eqn:Hb.
  - destruct (Z_le_gt_dec (Inverter.hours_until_repair s) 1) as [Hl | Hm].
    + rewrite check_status_repairs by assumption. apply Hroll. exact Hmm.
    + rewrite check_status_still_broken by (assumption || lia). eauto.
  - rewrite check_status_working by assumption. apply Hroll. exact Hmm.
Qed.

Lemma engine_runs_same (e e' : SimulationEngine.t) :
  same_engine e e' -> (0 <= step_minutes e)%Z ->
  engine_runs e -> engine_runs e'.
Proof.
  intros (_ & Hs & _ & Hw & _ & _ & _ & Hb & Hi) Hstep
         ((cfg & Hcfg) & Hmm & He & _).
  destruct Hb as (_ & _ & _ & Ho). destruct Hi as (_ & _ & Hmn & Hmx).
  unfold engine_runs. rewrite Hw, Hmn, Hmx, Ho, Hs. eauto.
Qed.

(** With nothing to raise, a pass returns. *)
Lemma iteration_runs (e : SimulationEngine.t) (g : rng) :
  engine_runs e ->
  exists (e' : SimulationEngine.t) (g' : rng),
    iteration e g = Done (e', g').
Proof.
  intros ((cfg & Hcfg) & Hmm & He & Hstep).
  unfold iteration. rewrite (proj1 (hour_of_minute (now e))).
  cbn [lift and_then]. rewrite Hcfg.
  destruct (cloud_coverage_returns cfg g) as (cloud & g1 & ->).
  cbn [and_then].
  destruct (check_status_total (inverter e) g1 Hmm) as (w & s' & g2 & Hcs).
  unfold Inverter.clip_power. rewrite Hcs. cbn [bind].
  assert (Hstep' : (step_minutes e <? 0)%Z = false) by (apply Z.ltb_ge; exact Hstep).
  destruct w; cbn [negb lift and_then].
  all: destruct (HomeLoad.get_current_load _ _ _) as [load_kw g3].
  all: match goal with
       | |- context [EnergyManager.decide_energy_flow ?m ?s ?l ?b ?x] =>
           pose proof (decide_energy_flow_constants m s l x b) as Hk;
           destruct (EnergyManager.decide_energy_flow m s l b x)
             as [[flow bat'] | ex]
       end; cbn [lift and_then]; [rewrite Hstep'; eauto | contradiction].
Qed.

(** The passes made from time [now] on, [n] of them reaching [until]. *)
Lemma passes_count (until : Z) (n : nat) :
  forall (e : SimulationEngine.t) (g : rng) (fuel : nat),
    engine_runs e ->
    (0 < step_minutes e)%Z ->
    (n <= fuel)%nat ->
    (until <= now e + Z.of_nat n * step_minutes e)%Z ->
    (n = O \/ now e + (Z.of_nat n - 1) * step_minutes e < until)%Z ->
    exists (e' : SimulationEngine.t) (g' : rng),
      passes fuel until e g = Some (Done (e', g')) /\
      map time_min (results e')
      = map time_min (results e)
        ++ map (fun k => (now e + Z.of_nat k * step_minutes e)%Z) (seq 0 n).
Proof.
  induction n as [ | n IH]; intros e g fuel Hruns Hstep Hfuel Hreach Hlast.
  - exists e, g. split.
    + destruct fuel; cbn [passes];
        destruct (Z.leb_spec until (now e)); try reflexivity; lia.
    + cbn. rewrite app_nil_r. reflexivity.
  - destruct fuel as [ | fuel]; [lia | ].
    destruct Hlast as [Hz | Hlast]; [discriminate | ].
    cbn [passes].
    destruct (Z.leb_spec until (now e)) as [Hdone | Hgo]; [nia | ].
    destruct (iteration_runs e g Hruns) as (e1 & g1 & Hit).
    rewrite Hit.
    pose proof (iteration_same_engine _ _ _ _ Hit) as Hsame.
    pose proof Hit as Hit'. apply iteration_returns in Hit'. cbn zeta in Hit'.
    destruct Hit' as (cloud & ac & ga & gb & inv' & flow & bat'
                      & _ & _ & _ & _ & _ & He1).
    assert (Hnow : now e1 = (now e + step_minutes e)%Z) by (rewrite He1; reflexivity).
    assert (Hst : step_minutes e1 = step_minutes e) by (rewrite He1; reflexivity).
    assert (Hres : map time_min (results e1)
                   = map time_min (results e) ++ [now e]).
    { rewrite He1. cbn. rewrite map_app. reflexivity. }
    destruct (IH e1 g1 fuel) as (e' & g' & Hp & Hrows).
    + apply (engine_runs_same e); [exact Hsame | lia | exact Hruns].
    + lia.
    + lia.
    + rewrite Hnow, Hst. lia.
    + destruct n as [ | n]; [left; reflexivity | right].
      rewrite Hnow, Hst. lia.
    + exists e', g'. split; [exact Hp | ].
      rewrite Hrows, Hres, Hnow, Hst. rewrite <- app_assoc. f_equal.
      cbn [seq map app]. f_equal; [f_equal; lia | ].
      rewrite <- seq_shift, map_map. apply map_ext. intros k. lia.
Qed.

End EngineRuns.

(** X26: [SimulationEngine.__init__] returns exactly when the six sections
    and [duration_days] are present and the battery's round-trip efficiency
    (0.90 when absent) is not negative; every other key has a default.  The
    engine it returns is at time 0, has no rows, lasts [24 * duration_days]
    hours, and its inverter is working with a zero repair counter. *)
Theorem engine_init_returns_iff (config : SimulationEngine.config) :
  ((exists e : SimulationEngine.t, SimulationEngine.init config = PyMore.Done e)
   <->
   exists (sim : SimulationEngine.simulation_section) (days : Z)
          (bat : Battery.config) (sol : SimulationEngine.solar_section)
          (ld : HomeLoad.config) (gr : UtilityGrid.config)
          (st : EnergyManager.config),
     SimulationEngine.section_simulation config = Some sim /\
     SimulationEngine.duration_days sim = Some days /\
     SimulationEngine.section_battery config = Some bat /\
     0 <= get (Battery.efficiency bat) 0.90 /\
     SimulationEngine.section_solar config = Some sol /\
     SimulationEngine.section_load config = Some ld /\
     SimulationEngine.section_grid config = Some gr /\
     SimulationEngine.section_strategy config = Some st) /\
  (forall e : SimulationEngine.t,
      SimulationEngine.init config = PyMore.Done e ->
      SimulationEngine.now e = 0%Z /\
      SimulationEngine.results e = [] /\
      (exists (sim : SimulationEngine.simulation_section) (days : Z),
          SimulationEngine.section_simulation config = Some sim /\
          SimulationEngine.duration_days sim = Some days /\
          SimulationEngine.duration_hours e = (days * 24)%Z /\
          SimulationEngine.step_minutes e
          = get (SimulationEngine.time_step_minutes sim) 60%Z) /\
      Invariant.counter_agrees (SimulationEngine.inverter e) /\
      Inverter.is_broken (SimulationEngine.inverter e) = false /\
      Battery.constructed (SimulationEngine.battery e)).
Proof.
  assert (Hraise : forall (bat : Battery.config) (ex : exn),
             Battery.init bat = Raise ex ->
             0 <= get (Battery.efficiency bat) 0.90 -> False).
  { intros bat ex Hb Heff. revert Hb. unfold Battery.init, Py.sqrt.
    rewrite ltb_false by exact Heff. discriminate. }
  assert (Hok : forall (bat : Battery.config) (b : Battery.t),
             Battery.init bat = Ok b ->
             0 <= get (Battery.efficiency bat) 0.90).
  { intros bat b. unfold Battery.init, Py.sqrt.
    destruct (ltb_cases (get (Battery.efficiency bat) 0.90) 0)
      as [[H ->] | [H ->]]; cbn; [discriminate | intros _; exact H]. }
  destruct config as [[[[days | ] step season] | ] [bat | ] [sol | ] [ld | ]
                        [gr | ] [st | ]];
    unfold SimulationEngine.init;
    cbn [SimulationEngine.section_simulation SimulationEngine.section_battery
         SimulationEngine.section_solar SimulationEngine.section_load
         SimulationEngine.section_grid SimulationEngine.section_strategy
         SimulationEngine.duration_days SimulationEngine.time_step_minutes
         PyMore.item PyMore.and_then];
    try (destruct (Battery.init bat) as [b | ex] eqn:Hb);
    cbn [PyMore.lift PyMore.and_then PyMore.item].
  all: try (split;
            [ split;
              [ intros [e He]; discriminate
              | intros (? & ? & ? & ? & ? & ? & ? & H1 & H2 & H3 & H4 & H5
                        & H6 & H7 & H8); cbn in *;
                first [ discriminate
                      | injection H1 as <-; discriminate
                      | injection H3 as <-; exfalso; eapply Hraise;
                        eassumption ] ]
            | intros e He; discriminate ]).
  pose proof (init_returns _ _ Hb) as (Hc & _).
  split; [split | ].
  - intros _. exists (SimulationEngine.mk_simulation (Some days) step season),
      days, bat, sol, ld, gr, st.
    repeat split. eapply Hok. exact Hb.
  - intros _. eexists. reflexivity.
  - intros e [= <-]. cbn.
    repeat split; try assumption; try apply Hc.
    exists (SimulationEngine.mk_simulation (Some days) step season), days.
    repeat split.
Qed.

Lemma engine_init_returns_iff_witness :
  exists e : SimulationEngine.t,
    SimulationEngine.init (SimulationEngine.default_config 1) = PyMore.Done e.
Proof.
  apply (proj2 (proj1 (engine_init_returns_iff
                         (SimulationEngine.default_config 1)))).
  eexists _, _, _, _, _, _, _. cbn.
  repeat split; try reflexivity. cbn. lra.
Defined.

(** X27: a pass of the loop that returns appends exactly one row, stamped
    with the time before the pass; its hour lies in [[0, 24)], and on a
    whole hour (a time that is a multiple of 60 minutes) it is that hour
    of the day; from time 0 on its day is the whole number of days
    elapsed; its state of charge is that of the battery after the
    dispatch.  The clock advances by the (non-negative) time step and the
    components keep their constants. *)
Theorem iteration_appends_one_row
    (e e' : SimulationEngine.t) (g g' : rng) :
  SimulationEngine.iteration e g = PyMore.Done (e', g') ->
  exists row : SimulationEngine.StepRecord,
    SimulationEngine.results e' = SimulationEngine.results e ++ [row] /\
    SimulationEngine.time_min row = SimulationEngine.now e /\
    0 <= SimulationEngine.hour row < 24 /\
    ((SimulationEngine.now e mod 60 = 0)%Z ->
     SimulationEngine.hour row
     = IZR ((SimulationEngine.now e / 60) mod 24)) /\
    ((0 <= SimulationEngine.now e)%Z ->
     SimulationEngine.day row = (SimulationEngine.now e / 1440)%Z) /\
    SimulationEngine.battery_soc_kwh row
    = Battery.current_energy_kwh (SimulationEngine.battery e') /\
    SimulationEngine.now e'
    = (SimulationEngine.now e + SimulationEngine.step_minutes e)%Z /\
    (0 <= SimulationEngine.step_minutes e)%Z /\
    Invariant.same_engine e e'.
Proof.
  intros H. pose proof (iteration_same_engine _ _ _ _ H) as Hsame.
  apply iteration_returns in H. cbn zeta in H.
  destruct H as (cloud & ac & g1 & g2 & inv' & flow & bat'
                 & _ & _ & _ & _ & Hstep & ->).
  eexists. split; [cbn; reflexivity | ].
  split; [reflexivity | ].
  split; [apply (proj2 (hour_of_minute (SimulationEngine.now e))) | ].
  split; [intros Hwhole; apply whole_hour; exact Hwhole | ].
  split; [intros Hnow; apply day_of_minute; exact Hnow | ].
  split; [reflexivity | ].
  split; [reflexivity | ].
  split; [exact Hstep | exact Hsame].
Qed.

Section SampleEngine.

Import PyMore Invariant SimulationEngine.

Lemma sample_engine_init (days : Z) :
  init (sample_config days) = Done (sample_engine days).
Proof.
  unfold init, sample_config.
  cbn [section_simulation section_battery section_solar section_load
       section_grid section_strategy duration_days time_step_minutes
       item and_then get].
  unfold Battery.init, Py.sqrt. cbn [Battery.efficiency get].
  rewrite ltb_false by lra. reflexivity.
Qed.

Lemma sample_engine_runs (days : Z) : engine_runs (sample_engine days).
Proof.
  unfold engine_runs. cbn. split; [eexists; reflexivity | ].
  split; [lia | split; [ | lia]].
  pose proof (sqrt_lt_R0 0.90 ltac:(lra)). lra.
Qed.

Lemma sample_engine_ok (days : Z) : engine_ok (sample_engine days).
Proof. unfold engine_ok. cbn. repeat split; lra. Qed.

Lemma sample_rng_fair : fair Inverter.sample_rng.
Proof. intros [ | n]; cbn; lra. Qed.

End SampleEngine.

Lemma iteration_appends_one_row_witness :
  exists (e' : SimulationEngine.t) (g' : rng) (row : SimulationEngine.StepRecord),
    SimulationEngine.iteration (SimulationEngine.sample_engine 1)
      Inverter.sample_rng = PyMore.Done (e', g') /\
    SimulationEngine.results e' = [] ++ [row] /\
    SimulationEngine.time_min row = 0%Z /\
    SimulationEngine.now e' = (0 + 60)%Z.
Proof.
  destruct (iteration_runs (SimulationEngine.sample_engine 1)
              Inverter.sample_rng (sample_engine_runs 1)) as (e' & g' & H).
  destruct (iteration_appends_one_row _ _ _ _ H)
    as (row & Hrows & Htime & _ & _ & _ & _ & Hnow & _).
  exists e', g', row. auto.
Defined.

(** X28: on an engine whose clipping limit, export limit and peak load are
    not negative, every row that any number of passes writes is physical:
    the cloud cover is a fraction, the solar power lies between 0 and the
    clipping limit, the load between the base load and base plus peak, the
    export between 0 and the export limit, and the cost is the grid's price
    of the row's import and export; one row is written per pass. *)
Theorem every_row_is_physical (n : nat) :
  forall (e e' : SimulationEngine.t) (g g' : rng),
    Invariant.engine_ok e ->
    fair g ->
    Forall (Invariant.row_ok e) (SimulationEngine.results e) ->
    SimulationEngine.iterations n e g = PyMore.Done (e', g') ->
    Invariant.engine_ok e' /\
    fair g' /\
    Forall (Invariant.row_ok e) (SimulationEngine.results e') /\
    List.length (SimulationEngine.results e')
    = (List.length (SimulationEngine.results e) + n)%nat.
Proof.
  induction n as [ | n IH]; intros e e' g g' Hok Hfair Hrows; cbn.
  - intros [= <- <-].
    split; [exact Hok | split; [exact Hfair | split; [exact Hrows | lia]]].
  - destruct (SimulationEngine.iteration e g) as [[e1 g1] | ex] eqn:Hit;
      cbn [PyMore.and_then]; [ | discriminate].
    intros Hrest.
    pose proof (iteration_same_engine _ _ _ _ Hit) as Hsame.
    destruct (iteration_physical _ _ _ _ Hok Hfair Hit)
      as (Hok1 & Hfair1 & row & Hres1 & Hrow).
    assert (Hrows1 : Forall (Invariant.row_ok e1) (SimulationEngine.results e1)).
    { rewrite Hres1. apply Forall_app. split.
      - eapply Forall_impl; [ | exact Hrows].
        intros r. apply (row_ok_same_engine _ _ r Hsame).
      - constructor; [ | constructor].
        apply (row_ok_same_engine _ _ row Hsame). exact Hrow. }
    destruct (IH _ _ _ _ Hok1 Hfair1 Hrows1 Hrest) as (Hok' & Hfair' & Hall & Hlen).
    split; [exact Hok' | split; [exact Hfair' | split]].
    + eapply Forall_impl; [ | exact Hall].
      intros r. apply (row_ok_same_engine _ _ r Hsame).
    + rewrite Hlen, Hres1, length_app. cbn. lia.
Qed.

Lemma every_row_is_physical_witness :
  exists (e' : SimulationEngine.t) (g' : rng),
    SimulationEngine.iterations 1 (SimulationEngine.sample_engine 1)
      Inverter.sample_rng = PyMore.Done (e', g') /\
    Forall (Invariant.row_ok (SimulationEngine.sample_engine 1))
      (SimulationEngine.results e') /\
    List.length (SimulationEngine.results e') = 1%nat.
Proof.
  destruct (iteration_runs (SimulationEngine.sample_engine 1)
              Inverter.sample_rng (sample_engine_runs 1)) as (e' & g' & H).
  assert (H1 : SimulationEngine.iterations 1 (SimulationEngine.sample_engine 1)
                 Inverter.sample_rng = PyMore.Done (e', g')).
  { cbn [SimulationEngine.iterations]. rewrite H. reflexivity. }
  destruct (every_row_is_physical 1 _ _ _ _ (sample_engine_ok 1)
              sample_rng_fair (Forall_nil _) H1) as (_ & _ & Hall & Hlen).
  exists e', g'. auto.
Defined.

(** X29: an engine in which nothing can raise (see [engine_runs]), with a
    positive time step and a positive duration, started at time 0 with no
    rows, completes its run; the rows it returns are stamped 0, step,
    2 * step, ... below [60 * duration_hours], one for each such time:
    [ceil(60 * duration_hours / step)] rows in all. *)
Theorem run_writes_every_step
    (e : SimulationEngine.t) (g : rng) (fuel : nat) :
  Invariant.engine_runs e ->
  (0 < SimulationEngine.step_minutes e)%Z ->
  (0 < SimulationEngine.duration_hours e)%Z ->
  SimulationEngine.now e = 0%Z ->
  SimulationEngine.results e = [] ->
  (Z.to_nat ((SimulationEngine.duration_hours e * 60
              + SimulationEngine.step_minutes e - 1)
             / SimulationEngine.step_minutes e) <= fuel)%nat ->
  exists (rows : list SimulationEngine.StepRecord) (g' : rng),
    SimulationEngine.run fuel e g = Some (PyMore.Done (rows, g')) /\
    map SimulationEngine.time_min rows
    = map (fun k => (Z.of_nat k * SimulationEngine.step_minutes e)%Z)
        (seq 0 (Z.to_nat ((SimulationEngine.duration_hours e * 60
                           + SimulationEngine.step_minutes e - 1)
                          / SimulationEngine.step_minutes e))) /\
    (forall row : SimulationEngine.StepRecord,
        In row rows ->
        (0 <= SimulationEngine.time_min row
         < SimulationEngine.duration_hours e * 60)%Z).
Proof.
  intros Hruns Hstep Hdur Hnow Hres Hfuel.
  set (step := SimulationEngine.step_minutes e) in *.
  set (until := (SimulationEngine.duration_hours e * 60)%Z) in *.
  set (q := ((until + step - 1) / step)%Z) in *.
  assert (Huntil : (0 < until)%Z) by (unfold until; lia).
  pose proof (Z.div_mod (until + step - 1) step ltac:(lia)) as Hdm.
  pose proof (Z.mod_pos_bound (until + step - 1) step Hstep) as Hmod.
  fold q in Hdm.
  assert (Hq1 : (until <= q * step)%Z) by nia.
  assert (Hq2 : ((q - 1) * step < until)%Z) by nia.
  assert (Hq0 : (0 < q)%Z) by nia.
  destruct (passes_count until (Z.to_nat q) e g fuel Hruns Hstep Hfuel)
    as (e' & g' & Hp & Hrows).
  - rewrite Hnow, Z2Nat.id by lia. fold step. lia.
  - right. rewrite Hnow, Z2Nat.id by lia. fold step. lia.
  - exists (SimulationEngine.results e'), g'.
    assert (Htimes : map SimulationEngine.time_min (SimulationEngine.results e')
                     = map (fun k => (Z.of_nat k * step)%Z)
                         (seq 0 (Z.to_nat q))).
    { rewrite Hrows, Hres, Hnow. cbn [map app]. apply map_ext.
      intros k. fold step. lia. }
    split; [ | split; [exact Htimes | ]].
    + unfold SimulationEngine.run. fold until. rewrite Hnow.
      destruct (Z.leb_spec until 0); [lia | ].
      rewrite Hp. reflexivity.
    + intros row Hin.
      apply (in_map SimulationEngine.time_min) in Hin.
      rewrite Htimes in Hin. apply in_map_iff in Hin.
      destruct Hin as (k & <- & Hk). apply in_seq in Hk.
      assert (Z.of_nat k <= q - 1)%Z by lia. nia.
Qed.

Lemma run_writes_every_step_witness :
  exists (rows : list SimulationEngine.StepRecord) (g' : rng),
    SimulationEngine.run 24 (SimulationEngine.sample_engine 1)
      Inverter.sample_rng = Some (PyMore.Done (rows, g')) /\
    map SimulationEngine.time_min rows
    = map (fun k => (Z.of_nat k * 60)%Z) (seq 0 24).
Proof.
  destruct (run_writes_every_step (SimulationEngine.sample_engine 1)
              Inverter.sample_rng 24) as (rows & g' & Hrun & Htimes & _).
  - apply sample_engine_runs.
  - cbn. lia.
  - cbn. lia.
  - reflexivity.
  - reflexivity.
  - cbn. lia.
  - exists rows, g'. split; [exact Hrun | exact Htimes].
Defined.

(** X30: with a time step of 0 the clock never moves: a run that has time
    left never completes, however many passes it is allowed; each pass
    writes a row for the same instant, or raises. *)
Theorem zero_step_never_completes (fuel : nat) :
  forall (e : SimulationEngine.t) (g : rng)
         (out : list SimulationEngine.StepRecord * rng),
    SimulationEngine.step_minutes e = 0%Z ->
    (SimulationEngine.now e < SimulationEngine.duration_hours e * 60)%Z ->
    SimulationEngine.run fuel e g <> Some (PyMore.Done out).
Proof.
  assert (Hpasses : forall (stop : Z) (e : SimulationEngine.t) (g : rng)
                           (r : SimulationEngine.t * rng),
             SimulationEngine.step_minutes e = 0%Z ->
             (SimulationEngine.now e < stop)%Z ->
             SimulationEngine.passes fuel stop e g <> Some (PyMore.Done r)).
  { intros stop. induction fuel as [ | fuel IH]; intros e g r Hstep Hnow;
      cbn [SimulationEngine.passes];
      destruct (Z.leb_spec stop (SimulationEngine.now e)); try lia;
      [discriminate | ].
    destruct (SimulationEngine.iteration e g) as [[e1 g1] | ex] eqn:Hit;
      [ | discriminate].
    apply iteration_returns in Hit. cbn zeta in Hit.
    destruct Hit as (cloud & ac & ga & gb & inv' & flow & bat'
                     & _ & _ & _ & _ & _ & ->).
    apply IH; cbn; [exact Hstep | lia]. }
  intros e g out Hstep Hnow. unfold SimulationEngine.run.
  destruct (Z.leb_spec (SimulationEngine.duration_hours e * 60)
              (SimulationEngine.now e)); [discriminate | ].
  destruct (SimulationEngine.passes fuel _ e g) as [[[e' g'] | ex] | ] eqn:Hp;
    try discriminate.
  exfalso. eapply Hpasses; eassumption.
Qed.

Lemma zero_step_never_completes_witness :
  SimulationEngine.run 1000
    (SimulationEngine.mk 0 24 0
       (Battery.sample 4)
       (SolarPanel.init (SolarPanel.mk_config None))
       (Inverter.sample false 0)
       (Weather.init (Weather.mk_config None))
       (HomeLoad.init (HomeLoad.mk_config None None None None))
       (UtilityGrid.init (UtilityGrid.mk_config None None None))
       EnergyManager.load_priority [])
    Inverter.sample_rng
  <> Some (PyMore.Done ([], Inverter.sample_rng)).
Proof.
  apply (zero_step_never_completes 1000); cbn; [reflexivity | lia].
Defined.
